(** * Focus-on-hover editor contribution: terminal-hook ownership

    A shallow embedding of [src/vs/editor/contrib/focusOnHover/focusOnHover.ts].

    The class keeps one static array of live controllers and lets a single
    controller (the one that subscribed to the terminal service) own the
    per-terminal mouse-move hooks.  The JavaScript heap is modelled
    explicitly: controllers, [Map] objects and [IDisposable] subscriptions
    live in three stores and are named by their index, so that the aliasing
    performed by [dispose] ([otherInstance._terminalHooks = this._terminalHooks])
    is visible. *)

From Stdlib Require Import ZArith Lia.
From stdpp Require Import base option list gmap.

Set Default Proof Using "Type".

(** ** Heap values *)

(** An object reference: the index of the object in its store. *)
Abbreviation ref := nat.

(** The event a listener was attached to. *)
Inductive EventSource :=
  | EditorConfiguration (editor : ref)   (* editor.onDidChangeConfiguration *)
  | EditorMouseMove (editor : ref)       (* editor.onMouseMove *)
  | InstanceCreated                      (* terminals.onInstanceCreated *)
  | InstanceDisposed                     (* terminals.onInstanceDisposed *)
  | TerminalMouseMove (terminal : Z).    (* terminal.onMouseMove *)

(** The closure handed to the event; closures over [this] record it. *)
Inductive Listener :=
  | ConfigurationChanged (this : ref)    (* e => { if (e.contribInfo) ... } *)
  | OnEditorMouseMove (this : ref)       (* _ => this._onEditorMouseMove() *)
  | OnTerminalCreated (this : ref)       (* t => this._onTerminalCreated(t) *)
  | OnTerminalDisposed (this : ref)      (* t => this._onTerminalDisposed(t) *)
  | FocusTerminal.                       (* t => t.focus() *)

Global Instance EventSource_eq_dec : EqDecision EventSource.
Proof. solve_decision. Defined.

Global Instance Listener_eq_dec : EqDecision Listener.
Proof. solve_decision. Defined.

(** What a subscription call returns.  [dispose()] detaches the listener;
    the object itself stays reachable from whoever kept a reference. *)
Record IDisposable := mkDisposable {
  source : EventSource;
  listener : Listener;
  disposed : bool
}.

(** A JavaScript [Map] object.  It carries two independent tables: the
    entries reached through [has]/[get]/[set]/[delete]/[clear], and the
    ordinary own properties reached through bracket access [m[k]] and
    enumerated by [for (k in m)].  Property keys are the decimal strings of
    the numeric terminal ids, which are in bijection with the ids. *)
Record JsMap := mkJsMap {
  entries : gmap Z ref;
  props : gmap Z ref
}.

(** Fields of a controller.  [None] stands for both [undefined] and [null]:
    the source only ever tests these fields for truthiness or with
    [isNullOrUndefined]. *)
Record FocusOnHoverController := mkController {
  _editor : ref;
  _didChangeConfigurationHandler : option ref;
  _editorMouseMoveHandler : option ref;
  _terminalHooks : option ref;
  _terminalInstanceCreatedHandler : option ref;
  _terminalInstanceDisposedHandler : option ref
}.

(** The whole program state: the static registry, the three object stores
    and the two host services the class reads. *)
Record World := mkWorld {
  Instances : list ref;                       (* FocusOnHoverController.Instances *)
  controllers : list FocusOnHoverController;
  hookMaps : list JsMap;
  disposables : list IDisposable;
  focusOnHover : list bool;                   (* per editor: getConfiguration().contribInfo.focusOnHover *)
  terminalInstances : list Z                  (* _terminals.terminalInstances, by id *)
}.

Definition init : World := mkWorld [] [] [] [] [] [].

(** ** Field updates *)

Definition set_Instances (f : list ref → list ref) (w : World) : World :=
  mkWorld (f (Instances w)) (controllers w) (hookMaps w) (disposables w)
          (focusOnHover w) (terminalInstances w).

Definition set_controllers (f : list FocusOnHoverController → list FocusOnHoverController)
    (w : World) : World :=
  mkWorld (Instances w) (f (controllers w)) (hookMaps w) (disposables w)
          (focusOnHover w) (terminalInstances w).

Definition set_hookMaps (f : list JsMap → list JsMap) (w : World) : World :=
  mkWorld (Instances w) (controllers w) (f (hookMaps w)) (disposables w)
          (focusOnHover w) (terminalInstances w).

Definition set_disposables (f : list IDisposable → list IDisposable) (w : World) : World :=
  mkWorld (Instances w) (controllers w) (hookMaps w) (f (disposables w))
          (focusOnHover w) (terminalInstances w).

Definition set_focusOnHover (f : list bool → list bool) (w : World) : World :=
  mkWorld (Instances w) (controllers w) (hookMaps w) (disposables w)
          (f (focusOnHover w)) (terminalInstances w).

Definition set_terminalInstances (f : list Z → list Z) (w : World) : World :=
  mkWorld (Instances w) (controllers w) (hookMaps w) (disposables w)
          (focusOnHover w) (f (terminalInstances w)).

Definition with_editorMouseMoveHandler (v : option ref) (o : FocusOnHoverController) :=
  mkController (_editor o) (_didChangeConfigurationHandler o) v (_terminalHooks o)
               (_terminalInstanceCreatedHandler o) (_terminalInstanceDisposedHandler o).

Definition with_didChangeConfigurationHandler (v : option ref) (o : FocusOnHoverController) :=
  mkController (_editor o) v (_editorMouseMoveHandler o) (_terminalHooks o)
               (_terminalInstanceCreatedHandler o) (_terminalInstanceDisposedHandler o).

Definition with_terminalHooks (v : option ref) (o : FocusOnHoverController) :=
  mkController (_editor o) (_didChangeConfigurationHandler o) (_editorMouseMoveHandler o) v
               (_terminalInstanceCreatedHandler o) (_terminalInstanceDisposedHandler o).

Definition with_terminalInstanceCreatedHandler (v : option ref) (o : FocusOnHoverController) :=
  mkController (_editor o) (_didChangeConfigurationHandler o) (_editorMouseMoveHandler o)
               (_terminalHooks o) v (_terminalInstanceDisposedHandler o).

Definition with_terminalInstanceDisposedHandler (v : option ref) (o : FocusOnHoverController) :=
  mkController (_editor o) (_didChangeConfigurationHandler o) (_editorMouseMoveHandler o)
               (_terminalHooks o) (_terminalInstanceCreatedHandler o) v.

Definition mark_disposed (d : IDisposable) : IDisposable :=
  mkDisposable (source d) (listener d) true.

(** ** The state-and-exception monad

    A method either returns with a new state or throws ([None]); the only
    exception the class can raise is the [TypeError] of reading a property
    of [undefined]. *)

Definition M (A : Type) : Type := World → option (A * World).

Definition ret {A} (a : A) : M A := λ w, Some (a, w).

Definition bind {A B} (m : M A) (k : A → M B) : M B :=
  λ w, match m w with
       | Some (a, w') => k a w'
       | None => None
       end.

Global Instance M_ret : MRet M := @ret.
Global Instance M_bind : MBind M := λ A B k m, bind m k.

Definition throw {A} : M A := λ _, None.

Definition gets {A} (f : World → A) : M A := λ w, Some (f w, w).

Definition modify (f : World → World) : M unit := λ w, Some (tt, f w).

(** Dereferencing a field that may hold [undefined]. *)
Definition required {A} (o : option A) : M A :=
  match o with
  | Some a => ret a
  | None => throw
  end.

Fixpoint forEach {A} (l : list A) (body : A → M unit) : M unit :=
  match l with
  | [] => ret tt
  | x :: l' => body x;; forEach l' body
  end.

(** ** Heap primitives *)

Definition getController (c : ref) : M FocusOnHoverController :=
  o ← gets (λ w, controllers w !! c); required o.

Definition setField (c : ref) (f : FocusOnHoverController → FocusOnHoverController) : M unit :=
  getController c;; modify (set_controllers (alter f c)).

Definition newController (editor : ref) : M ref :=
  c ← gets (λ w, length (controllers w));
  modify (set_controllers (λ l, l ++ [mkController editor None None None None None]));;
  ret c.

Definition getMap (m : ref) : M JsMap :=
  o ← gets (λ w, hookMaps w !! m); required o.

(** [new Map()] *)
Definition newMap : M ref :=
  m ← gets (λ w, length (hookMaps w));
  modify (set_hookMaps (λ l, l ++ [mkJsMap ∅ ∅]));;
  ret m.

(** [m[k] = h]: an ordinary property write on the Map object. *)
Definition setProp (m : ref) (k : Z) (h : ref) : M unit :=
  mo ← getMap m;
  modify (set_hookMaps (<[m := mkJsMap (entries mo) (<[k := h]> (props mo))]>)).

(** [m.delete(k)] *)
Definition mapDelete (m : ref) (k : Z) : M unit :=
  mo ← getMap m;
  modify (set_hookMaps (<[m := mkJsMap (delete k (entries mo)) (props mo)]>)).

(** [m.clear()] *)
Definition mapClear (m : ref) : M unit :=
  mo ← getMap m;
  modify (set_hookMaps (<[m := mkJsMap ∅ (props mo)]>)).

(** Modelled from the spec: the host's event emitters ("a subscribable ...
    event").  Subscribing registers the listener and returns a fresh
    disposable. *)
Definition subscribe (src : EventSource) (l : Listener) : M ref :=
  h ← gets (λ w, length (disposables w));
  modify (set_disposables (λ ds, ds ++ [mkDisposable src l false]));;
  ret h.

(** Modelled from the spec: [IDisposable.dispose()] of a host subscription
    detaches the listener; calling it again changes nothing. *)
Definition disposeHandle (h : ref) : M unit :=
  modify (set_disposables (alter mark_disposed h)).

(** Modelled from the spec: the editor's current configuration, reduced to
    its boolean "focus on hover" flag. *)
Definition getFocusOnHover (editor : ref) : M bool :=
  b ← gets (λ w, focusOnHover w !! editor); required b.

(** ** Array operations used on the registry *)

(** [Array.prototype.indexOf]: the first index of [x], or -1. *)
Fixpoint indexOf (l : list ref) (x : ref) : Z :=
  match l with
  | [] => -1
  | y :: l' =>
      if decide (y = x) then 0
      else let i := indexOf l' x in if (i <? 0)%Z then -1 else (i + 1)%Z
  end.

(** [Array.prototype.splice(start, deleteCount)] without inserted items: a
    negative [start] counts from the end of the array. *)
Definition splice {A} (l : list A) (start : Z) (deleteCount : nat) : list A :=
  let len := Z.of_nat (length l) in
  let actualStart :=
    Z.to_nat (if (start <? 0)%Z then Z.max (len + start) 0 else Z.min start len) in
  take actualStart l ++ drop (actualStart + deleteCount) l.

(** ** The methods of [FocusOnHoverController] *)

Definition _handleTerminals (this : ref) : M unit :=
  hc ← subscribe InstanceCreated (OnTerminalCreated this);
  setField this (with_terminalInstanceCreatedHandler (Some hc));;
  hd ← subscribe InstanceDisposed (OnTerminalDisposed this);
  setField this (with_terminalInstanceDisposedHandler (Some hd)).

(** [this._terminalHooks[terminal.id] = terminal.onMouseMove(t => t.focus())] *)
Definition hookTerminal (this : ref) (terminal : Z) : M unit :=
  o ← getController this;
  m ← required (_terminalHooks o);
  h ← subscribe (TerminalMouseMove terminal) FocusTerminal;
  setProp m terminal h.

Definition _onTerminalCreated (this : ref) (terminal : Z) : M unit :=
  o ← getController this;
  enabled ← getFocusOnHover (_editor o);
  if enabled : bool then hookTerminal this terminal else ret tt.

Definition _onTerminalDisposed (this : ref) (terminal : Z) : M unit :=
  o ← getController this;
  m ← required (_terminalHooks o);
  mo ← getMap m;
  if bool_decide (is_Some (entries mo !! terminal)) then
    h ← required (props mo !! terminal);
    disposeHandle h;;
    mapDelete m terminal
  else ret tt.

Definition _manageTerminals (this : ref) : M bool :=
  o ← getController this;
  ret (bool_decide (is_Some (_terminalInstanceCreatedHandler o))).

Definition _hookEvents (this : ref) : M unit :=
  o ← getController this;
  enabled ← getFocusOnHover (_editor o);
  if enabled : bool then
    h ← subscribe (EditorMouseMove (_editor o)) (OnEditorMouseMove this);
    setField this (with_editorMouseMoveHandler (Some h));;
    manage ← _manageTerminals this;
    if manage : bool then
      terminals ← gets terminalInstances;
      forEach terminals (hookTerminal this)
    else ret tt
  else ret tt.

(** [for (const k in this._terminalHooks) { this._terminalHooks[k].dispose(); }]
    The loop body runs once per enumerable own property of the Map object;
    over [undefined] it does not run at all.  Disposing is idempotent and the
    handles are independent, so the enumeration order does not show in the
    final state. *)
Definition disposeEachHook (this : ref) : M unit :=
  o ← getController this;
  match _terminalHooks o with
  | None => ret tt
  | Some m =>
      mo ← getMap m;
      forEach (map fst (map_to_list (props mo)))
        (λ k, o' ← getController this;
              m' ← required (_terminalHooks o');
              mo' ← getMap m';
              h ← required (props mo' !! k);
              disposeHandle h)
  end.

(** [this._terminalHooks.clear()] *)
Definition clearTerminalHooks (this : ref) : M unit :=
  o ← getController this;
  m ← required (_terminalHooks o);
  mapClear m.

Definition _unhookEvents (this : ref) : M unit :=
  o ← getController this;
  match _editorMouseMoveHandler o with
  | Some h =>
      disposeHandle h;;
      setField this (with_editorMouseMoveHandler None);;
      manage ← _manageTerminals this;
      if manage : bool then
        disposeEachHook this;;
        clearTerminalHooks this
      else ret tt
  | None => ret tt
  end.

(** Lines 115-141 of [dispose]: everything before the final [_unhookEvents]. *)
Definition releaseTerminals (this : ref) : M unit :=
  o ← getController this;
  hcfg ← required (_didChangeConfigurationHandler o);
  disposeHandle hcfg;;
  modify (set_Instances (λ l, splice l (indexOf l this) 1));;
  match _terminalInstanceCreatedHandler o with
  | Some hc =>
      disposeHandle hc;;
      hd ← required (_terminalInstanceDisposedHandler o);
      disposeHandle hd;;
      insts ← gets Instances;
      if bool_decide (0 < length insts) then
        otherInstance ← required (insts !! 0);
        setField otherInstance (with_terminalHooks (_terminalHooks o));;
        _handleTerminals otherInstance;;
        m ← newMap;
        setField this (with_terminalHooks (Some m))
      else
        disposeEachHook this;;
        clearTerminalHooks this
  | None => ret tt
  end.

Definition dispose (this : ref) : M unit :=
  releaseTerminals this;;
  _unhookEvents this.

Definition constructor (editor : ref) : M ref :=
  this ← newController editor;
  hcfg ← subscribe (EditorConfiguration editor) (ConfigurationChanged this);
  setField this (with_didChangeConfigurationHandler (Some hcfg));;
  insts ← gets Instances;
  (if bool_decide (length insts = 0) then
     m ← newMap;
     setField this (with_terminalHooks (Some m));;
     _handleTerminals this
   else ret tt);;
  _hookEvents this;;
  modify (set_Instances (λ l, l ++ [this]));;
  ret this.

(** The listener installed by the constructor on the editor's
    configuration-change event. *)
Definition onDidChangeConfiguration (this : ref) (contribInfo : bool) : M unit :=
  if contribInfo then _unhookEvents this;; _hookEvents this else ret tt.

(** ** The host: editors, terminal service, event delivery *)

(** Modelled from the spec: an event emitter delivers an event to the
    listeners subscribed to it and not yet disposed, in subscription order. *)
Definition attached (src : EventSource) (d : IDisposable) : Prop :=
  source d = src ∧ disposed d = false.

Global Instance attached_dec src d : Decision (attached src d).
Proof. unfold attached. apply _. Defined.

Definition activeListeners (src : EventSource) (w : World) : list Listener :=
  listener <$> filter (attached src) (disposables w).

(** Modelled from the spec: the editor fires its configuration-change event;
    [contribInfo] tells whether the contribution options changed. *)
Definition fireConfigurationChanged (editor : ref) (contribInfo : bool) : M unit :=
  ls ← gets (activeListeners (EditorConfiguration editor));
  forEach ls (λ l, match l with
                   | ConfigurationChanged this => onDidChangeConfiguration this contribInfo
                   | _ => ret tt
                   end).

(** Modelled from the spec: the terminal service fires "instance created". *)
Definition fireInstanceCreated (terminal : Z) : M unit :=
  ls ← gets (activeListeners InstanceCreated);
  forEach ls (λ l, match l with
                   | OnTerminalCreated this => _onTerminalCreated this terminal
                   | _ => ret tt
                   end).

(** Modelled from the spec: the terminal service fires "instance disposed". *)
Definition fireInstanceDisposed (terminal : Z) : M unit :=
  ls ← gets (activeListeners InstanceDisposed);
  forEach ls (λ l, match l with
                   | OnTerminalDisposed this => _onTerminalDisposed this terminal
                   | _ => ret tt
                   end).

(** Modelled from the spec: what the host can do to the class.  The
    registration mechanism creates one controller per editor and disposes it;
    editors change their options; the terminal service opens and closes
    terminals. *)
Inductive Action :=
  | OpenEditor (enabled : bool)
      (* a new editor whose flag is [enabled]; its controller is instantiated *)
  | CloseEditor (c : ref)
      (* the registration mechanism calls [c.dispose()] *)
  | ChangeConfiguration (editor : ref) (contribInfo : bool) (enabled : bool)
      (* the editor's options change; the flag only moves with [contribInfo] *)
  | CreateTerminal (terminal : Z)
  | DisposeTerminal (terminal : Z).

(** Modelled from the spec: the host sets the "focus on hover" flag of an
    editor's configuration. *)
Definition setFlag (editor : ref) (enabled : bool) : M unit :=
  modify (set_focusOnHover (<[editor := enabled]>)).

(** Modelled from the spec: the host performs an action and calls into the
    class: the constructor, [dispose], or the listeners of the event fired. *)
Definition perform (a : Action) : M unit :=
  match a with
  | OpenEditor enabled =>
      editor ← gets (λ w, length (focusOnHover w));
      modify (set_focusOnHover (λ l, l ++ [enabled]));;
      constructor editor;;
      ret tt
  | CloseEditor c => dispose c
  | ChangeConfiguration editor contribInfo enabled =>
      (if contribInfo then setFlag editor enabled else ret tt);;
      fireConfigurationChanged editor contribInfo
  | CreateTerminal terminal =>
      modify (set_terminalInstances (λ l, l ++ [terminal]));;
      fireInstanceCreated terminal
  | DisposeTerminal terminal =>
      modify (set_terminalInstances (filter (λ t, t ≠ terminal)));;
      fireInstanceDisposed terminal
  end.

(** A sequence of host actions, from state [w]. *)
Fixpoint run (tr : list Action) (w : World) : option World :=
  match tr with
  | [] => Some w
  | a :: tr' =>
      match perform a w with
      | Some (_, w') => run tr' w'
      | None => None
      end
  end.

(** ** Observations *)

(** The getter [_manageTerminals], read off a state. *)
Definition managesTerminals (w : World) (c : ref) : bool :=
  match controllers w !! c with
  | Some o => bool_decide (is_Some (_terminalInstanceCreatedHandler o))
  | None => false
  end.

(** The Map object a controller's [_terminalHooks] field points to. *)
Definition hooksOf (w : World) (c : ref) : option JsMap :=
  o ← controllers w !! c;
  m ← _terminalHooks o;
  hookMaps w !! m.

(** [this._terminalHooks[terminal]] *)
Definition hookFor (w : World) (c : ref) (terminal : Z) : option ref :=
  mo ← hooksOf w c; props mo !! terminal.

(** [dispose()] was called on handle [h]. *)
Definition isDisposed (w : World) (h : ref) : Prop :=
  ∃ d, disposables w !! h = Some d ∧ disposed d = true.

(** Handle [h] is a subscription that is still attached. *)
Definition isActive (w : World) (h : ref) : Prop :=
  ∃ d, disposables w !! h = Some d ∧ disposed d = false.

(** How many listeners are currently attached to an event. *)
Definition activeCount (src : EventSource) (w : World) : nat :=
  length (filter (attached src) (disposables w)).

(** Modelled from the spec: the host changes the flag of the controller's
    editor and the editor fires its configuration-change event with
    [contribInfo] set, which runs the listener installed by the constructor. *)
Definition toggleFocusOnHover (c : ref) (enabled : bool) : M unit :=
  o ← getController c;
  setFlag (_editor o) enabled;;
  onDidChangeConfiguration c true.

(** ** Loop results and intermediate states, as pure functions of the state *)

(** Disposing a list of handles, left to right. *)
Definition disposeAll (hs : list ref) (ds : list IDisposable) : list IDisposable :=
  foldl (λ ds h, alter mark_disposed h ds) ds hs.

(** The handles stored as properties of a Map object, in enumeration order. *)
Definition hooksIn (mo : JsMap) : list ref := (map_to_list (props mo)).*2.

(** The subscription [terminal.onMouseMove(t => t.focus())]. *)
Definition terminalHook (t : Z) : IDisposable :=
  mkDisposable (TerminalMouseMove t) FocusTerminal false.

(** The properties after hooking the terminals [ts] one after the other,
    when the next fresh handle is [n]. *)
Fixpoint hookedProps (ts : list Z) (n : nat) (p : gmap Z ref) : gmap Z ref :=
  match ts with
  | [] => p
  | t :: ts' => hookedProps ts' (S n) (<[t := n]> p)
  end.

(** The state once the disposed manager has detached its own three
    subscriptions and left the registry. *)
Definition resigned (c hcfg hc hd : ref) (w : World) : World :=
  set_disposables (alter mark_disposed hd)
    (set_disposables (alter mark_disposed hc)
       (set_Instances (λ l, splice l (indexOf l c) 1)
          (set_disposables (alter mark_disposed hcfg) w))).

(** The state just before the constructor calls [_hookEvents]: the new
    controller is allocated and subscribed to its editor's configuration
    changes, and, when the registry was empty, it has a fresh Map and the two
    terminal-service subscriptions. *)
Definition constructed (editor : ref) (first : bool) (w : World) : World :=
  let c := length (controllers w) in
  let n := length (disposables w) in
  mkWorld (Instances w)
    (controllers w ++
       [if first
        then mkController editor (Some n) None (Some (length (hookMaps w)))
                          (Some (S n)) (Some (S (S n)))
        else mkController editor (Some n) None None None None])
    (if first then hookMaps w ++ [mkJsMap ∅ ∅] else hookMaps w)
    (disposables w ++
       mkDisposable (EditorConfiguration editor) (ConfigurationChanged c) false ::
       (if first
        then [mkDisposable InstanceCreated (OnTerminalCreated c) false;
              mkDisposable InstanceDisposed (OnTerminalDisposed c) false]
        else []))
    (focusOnHover w) (terminalInstances w).

(** ** Well-formed states

    Every reference stored in the state points into its store and at an
    object of the right kind: each handler field of a controller holds the
    subscription that controller made to the matching event, and each
    property of a Map object holds a mouse-move subscription of the terminal
    it is filed under.  A controller that subscribed to the terminal service
    has a Map object, and no Map object has entries (nothing ever calls
    [set]).  These facts hold at every program point and are what makes each
    method return. *)

(** Handle [h] is the subscription of listener [l] to event [src]. *)
Definition subscribed (w : World) (h : ref) (src : EventSource) (l : Listener) : Prop :=
  ∃ d, disposables w !! h = Some d ∧ source d = src ∧ listener d = l.

(** What holds of controller [c], stored as [o]. *)
Record ctrlOk (w : World) (c : ref) (o : FocusOnHoverController) : Prop := mkCtrlOk {
  ok_editor : _editor o < length (focusOnHover w);
  ok_hooks : ∀ m, _terminalHooks o = Some m → m < length (hookMaps w);
  ok_manager : is_Some (_terminalInstanceCreatedHandler o) → is_Some (_terminalHooks o);
  ok_config : is_Some (_didChangeConfigurationHandler o);
  ok_disposed : is_Some (_terminalInstanceCreatedHandler o) →
                is_Some (_terminalInstanceDisposedHandler o);
  ty_config : ∀ h, _didChangeConfigurationHandler o = Some h →
              subscribed w h (EditorConfiguration (_editor o)) (ConfigurationChanged c);
  ty_editor : ∀ h, _editorMouseMoveHandler o = Some h →
              subscribed w h (EditorMouseMove (_editor o)) (OnEditorMouseMove c);
  ty_created : ∀ h, _terminalInstanceCreatedHandler o = Some h →
               subscribed w h InstanceCreated (OnTerminalCreated c);
  ty_disposed : ∀ h, _terminalInstanceDisposedHandler o = Some h →
                subscribed w h InstanceDisposed (OnTerminalDisposed c)
}.

(** What holds of a Map object. *)
Record mapOk (w : World) (mo : JsMap) : Prop := mkMapOk {
  ok_entries : entries mo = ∅;
  ty_props : ∀ t h, props mo !! t = Some h →
             subscribed w h (TerminalMouseMove t) FocusTerminal
}.

(** Controller [c] has a Map object in [_terminalHooks]. *)
Definition hasHooks (w : World) (c : ref) : Prop :=
  ∃ o, controllers w !! c = Some o ∧ is_Some (_terminalHooks o).

(** The controller a listener closes over exists, and has a Map object when
    the listener is one of the two terminal-service callbacks. *)
Definition listenerOk (w : World) (l : Listener) : Prop :=
  match l with
  | ConfigurationChanged c | OnEditorMouseMove c => c < length (controllers w)
  | OnTerminalCreated c | OnTerminalDisposed c => hasHooks w c
  | FocusTerminal => True
  end.

(** The invariant of all reachable states. *)
Record wf (w : World) : Prop := mkWf {
  wf_controllers : ∀ c o, controllers w !! c = Some o → ctrlOk w c o;
  wf_maps : ∀ m mo, hookMaps w !! m = Some mo → mapOk w mo;
  wf_listeners : Forall (λ d, listenerOk w (listener d)) (disposables w);
  wf_instances : Forall (λ c, c < length (controllers w)) (Instances w);
  wf_nodup : NoDup (Instances w)
}.

(** The two mouse-move events, on which the hooks listen. *)
Definition isMouseMove (src : EventSource) : Prop :=
  match src with
  | EditorMouseMove _ | TerminalMouseMove _ => True
  | _ => False
  end.

(** [w'] differs from [w] at most in hooks: the registry, the host's
    configuration and terminal list, every controller field other than
    [_editorMouseMoveHandler], and every subscription to an event other than
    a mouse move are the same. *)
Definition onlyHooksChanged (w w' : World) : Prop :=
  Instances w' = Instances w
  ∧ focusOnHover w' = focusOnHover w
  ∧ terminalInstances w' = terminalInstances w
  ∧ with_editorMouseMoveHandler None <$> controllers w'
    = with_editorMouseMoveHandler None <$> controllers w
  ∧ ∀ h d, ¬ isMouseMove (source d) →
           (disposables w !! h = Some d ↔ disposables w' !! h = Some d).

(** The stores of [w'] extend those of [w]: every subscription of [w] is
    still there, possibly disposed. *)
Definition extends (w w' : World) : Prop :=
  length (focusOnHover w) ≤ length (focusOnHover w')
  ∧ length (hookMaps w) ≤ length (hookMaps w')
  ∧ ∀ h src l, subscribed w h src l → subscribed w' h src l.

(** [ds'] is [ds] with some handles disposed. *)
Definition marked (ds ds' : list IDisposable) : Prop :=
  length ds' = length ds
  ∧ ∀ h d, ds !! h = Some d →
      ∃ d', ds' !! h = Some d' ∧ source d' = source d ∧ listener d' = listener d.

(** ** Who is live

    A controller is live from its construction to its disposal.  The
    bookkeeping below follows a sequence of host actions: the [n]-th
    construction creates controller [n]. *)

(** The number of controllers constructed so far and the list of live ones,
    after one more action. *)
Definition track (st : nat * list ref) (a : Action) : nat * list ref :=
  match a with
  | OpenEditor _ => (S st.1, st.2 ++ [st.1])
  | CloseEditor c => (st.1, filter (λ x, x ≠ c) st.2)
  | _ => st
  end.

(** The live controllers after a sequence of actions, in creation order. *)
Definition liveAfter (tr : list Action) : list ref := (foldl track (0, []) tr).2.

(** Every [dispose] is called on a controller that is live at that moment. *)
Fixpoint disciplinedFrom (st : nat * list ref) (tr : list Action) : Prop :=
  match tr with
  | [] => True
  | a :: tr' =>
      match a with
      | CloseEditor c => c ∈ st.2
      | _ => True
      end ∧ disciplinedFrom (track st a) tr'
  end.

(** The same, from the initial state. *)
Definition disciplined (tr : list Action) : Prop := disciplinedFrom (0, []) tr.

(** Every [dispose] is called on a controller that has been constructed,
    whether it is still live or was disposed before. *)
Fixpoint constructedBefore (n : nat) (tr : list Action) : Prop :=
  match tr with
  | [] => True
  | a :: tr' =>
      match a with
      | CloseEditor c => c < n
      | _ => True
      end ∧ constructedBefore (match a with OpenEditor _ => S n | _ => n end) tr'
  end.

(** Among the registered controllers, the one that manages the terminals is
    the first of the registry, and only it. *)
Definition elected (w : World) : Prop :=
  ∀ c o, c ∈ Instances w → controllers w !! c = Some o →
         (is_Some (_terminalInstanceCreatedHandler o) ↔ head (Instances w) = Some c).

(** The listeners of the editor-configuration and terminal-service events
    that are still attached are those of the live controllers: an attached
    configuration listener is the one recorded in a live controller, an
    attached terminal-service listener is the one recorded in the first
    controller of the registry, and these recorded subscriptions are indeed
    attached.  Editors and controllers are created in pairs, so controller
    [c] sits on editor [c]. *)
Record served (w : World) : Prop := mkServed {
  sv_editors : length (focusOnHover w) = length (controllers w);
  sv_editor : ∀ c o, controllers w !! c = Some o → _editor o = c;
  sv_attached : ∀ h d, disposables w !! h = Some d → disposed d = false →
    match source d with
    | EditorConfiguration e =>
        e ∈ Instances w
        ∧ ∃ o, controllers w !! e = Some o ∧ _didChangeConfigurationHandler o = Some h
    | InstanceCreated =>
        ∃ c o, head (Instances w) = Some c ∧ controllers w !! c = Some o
               ∧ _terminalInstanceCreatedHandler o = Some h
    | InstanceDisposed =>
        ∃ c o, head (Instances w) = Some c ∧ controllers w !! c = Some o
               ∧ _terminalInstanceDisposedHandler o = Some h
    | _ => True
    end;
  sv_config : ∀ c o h, c ∈ Instances w → controllers w !! c = Some o →
                       _didChangeConfigurationHandler o = Some h → isActive w h;
  sv_manager : ∀ c o h, head (Instances w) = Some c → controllers w !! c = Some o →
                        _terminalInstanceCreatedHandler o = Some h
                        ∨ _terminalInstanceDisposedHandler o = Some h →
                        isActive w h
}.

(** ** Editor hooks

    What the class owes each editor: the controller listens to the mouse
    moves of its editor exactly while it is live and the editor's flag is
    on. *)

Definition isEditorMouseMove (src : EventSource) : Prop :=
  match src with
  | EditorMouseMove _ => True
  | _ => False
  end.

(** The editor of a controller and its subscription to that editor's mouse
    moves. *)
Definition editorHook (o : FocusOnHoverController) : ref * option ref :=
  (_editor o, _editorMouseMoveHandler o).

(** [w'] is [w] as far as editor hooks go: the flags, the editor and the
    [_editorMouseMoveHandler] field of every controller and the
    subscriptions to editor mouse moves are the same. *)
Definition sameEditorHooks (w w' : World) : Prop :=
  focusOnHover w' = focusOnHover w
  ∧ editorHook <$> controllers w' = editorHook <$> controllers w
  ∧ ∀ h d, isEditorMouseMove (source d) →
           (disposables w !! h = Some d ↔ disposables w' !! h = Some d).

(** The state after the first two statements of [_unhookEvents], when the
    field held [h]: the subscription is disposed and the field cleared. *)
Definition unhooked (c h : ref) (w : World) : World :=
  set_controllers (alter (with_editorMouseMoveHandler None) c)
    (set_disposables (alter mark_disposed h) w).

(** The state after the first statement of the enabled branch of
    [_hookEvents]: the controller is subscribed to its editor's mouse moves
    and the field holds the new subscription. *)
Definition hooked (c editor : ref) (w : World) : World :=
  set_controllers (alter (with_editorMouseMoveHandler (Some (length (disposables w)))) c)
    (set_disposables
       (λ ds, ds ++ [mkDisposable (EditorMouseMove editor) (OnEditorMouseMove c) false]) w).

(** The editor hooks are in order, except possibly for the controller [x]
    that a method is working on: a registered controller has a subscription
    in [_editorMouseMoveHandler] exactly when the flag of its editor is on, a
    controller outside the registry has none, every attached listener of an
    editor's mouse moves is the one its controller holds in the field, and a
    subscription held in the field is attached. *)
Record hoveringBut (x : option ref) (w : World) : Prop := mkHovering {
  hv_flag : ∀ c o, Some c ≠ x → c ∈ Instances w → controllers w !! c = Some o →
            (is_Some (_editorMouseMoveHandler o) ↔ focusOnHover w !! c = Some true);
  hv_gone : ∀ c o, Some c ≠ x → c ∉ Instances w → controllers w !! c = Some o →
            _editorMouseMoveHandler o = None;
  hv_attached : ∀ h d e, disposables w !! h = Some d → disposed d = false →
                source d = EditorMouseMove e →
                ∃ o, controllers w !! e = Some o ∧ _editorMouseMoveHandler o = Some h;
  hv_active : ∀ c o h, controllers w !! c = Some o → _editorMouseMoveHandler o = Some h →
              ∃ d, disposables w !! h = Some d ∧ disposed d = false
                   ∧ source d = EditorMouseMove c
}.

Definition hovering : World → Prop := hoveringBut None.

(** ** The input focus *)

(** Modelled from the spec: the panes of the host that can hold the input
    focus ("moving input focus to the editor or to a terminal pane"). *)
Inductive Pane :=
  | EditorPane (editor : ref)
  | TerminalPane (terminal : Z).

Global Instance Pane_eq_dec : EqDecision Pane.
Proof. solve_decision. Defined.

(** Modelled from the spec: the host's focus state, with the focus requests
    made so far, oldest first ("a focus-query, and a focus-request
    operation"). *)
Record Desk := mkDesk {
  focused : option Pane;
  focusRequests : list Pane
}.

(** Modelled from the spec: [editor.hasTextFocus()]. *)
Definition hasTextFocus (editor : ref) (d : Desk) : bool :=
  bool_decide (focused d = Some (EditorPane editor)).

(** Modelled from the spec: [editor.focus()] and [terminal.focus()]. *)
Definition focus (p : Pane) (d : Desk) : Desk :=
  mkDesk (Some p) (focusRequests d ++ [p]).

Definition _onEditorMouseMove (w : World) (this : ref) (d : Desk) : option Desk :=
  o ← controllers w !! this;
  Some (if hasTextFocus (_editor o) d then d else focus (EditorPane (_editor o)) d).

(** Modelled from the spec: an event emitter calls its attached listeners
    one after the other. *)
Fixpoint deliver (ls : list Listener) (call : Listener → Desk → option Desk) (d : Desk)
    : option Desk :=
  match ls with
  | [] => Some d
  | l :: ls' => d' ← call l d; deliver ls' call d'
  end.

(** Modelled from the spec: the mouse moves over an editor, which fires its
    mouse-move event. *)
Definition moveOverEditor (editor : ref) (w : World) (d : Desk) : option Desk :=
  deliver (activeListeners (EditorMouseMove editor) w)
    (λ l d, match l with
            | OnEditorMouseMove this => _onEditorMouseMove w this d
            | _ => Some d
            end) d.

(** Modelled from the spec: the mouse moves over a terminal, which fires its
    mouse-move event; the listener [t => t.focus()] receives the terminal. *)
Definition moveOverTerminal (terminal : Z) (w : World) (d : Desk) : option Desk :=
  deliver (activeListeners (TerminalMouseMove terminal) w)
    (λ l d, match l with
            | FocusTerminal => Some (focus (TerminalPane terminal) d)
            | _ => Some d
            end) d.

(** ** Example states *)

(** Two editors with the flag on; controller 0 manages the terminals. *)
Definition twoEditors : World :=
  Eval vm_compute in default init (run [OpenEditor true; OpenEditor true] init).

(** One terminal, then two editors with the flag on: controller 0 manages
    the terminals and holds the hook of terminal 7. *)
Definition terminalThenTwoEditors : World :=
  Eval vm_compute in
    default init (run [CreateTerminal 7; OpenEditor true; OpenEditor true] init).

(** A lone editor with the flag off, created while terminal 7 is open. *)
Definition quietEditor : World :=
  Eval vm_compute in default init (run [CreateTerminal 7; OpenEditor false] init).

(** A lone editor with the flag on, created while terminal 7 is open. *)
Definition busyEditor : World :=
  Eval vm_compute in default init (run [CreateTerminal 7; OpenEditor true] init).

(** Terminal 7 open; the manager, with its flag on, is closed while a second
    editor with the flag off is open, and that editor's flag is then turned
    on: controller 1 manages the terminals with its hooks in place, and the
    hook that controller 0 made for terminal 7 is still attached although the
    mapping now holds a newer one. *)
Definition handedOver : World :=
  Eval vm_compute in
    default init (run [CreateTerminal 7; OpenEditor true; OpenEditor false; CloseEditor 0;
                       ChangeConfiguration 1 true true] init).


(** The first controller disposed twice while a second editor stays open. *)
Definition disposedTwice : World :=
  Eval vm_compute in
    default init (run [OpenEditor true; CreateTerminal 7; OpenEditor true;
                       CloseEditor 0; CloseEditor 0] init).

(** ** Running the monad *)

Lemma bind_eq {A B} (m : M A) (k : A → M B) w a w' :
  m w = Some (a, w') → (m ≫= k) w = k a w'.
Proof. intros H. unfold mbind, M_bind, bind. by rewrite H. Qed.

Lemma bind_throw {A B} (m : M A) (k : A → M B) w :
  m w = None → (m ≫= k) w = None.
Proof. intros H. unfold mbind, M_bind, bind. by rewrite H. Qed.

Lemma getController_eq w c o :
  controllers w !! c = Some o → getController c w = Some (o, w).
Proof. intros H. unfold getController. erewrite bind_eq by reflexivity. by rewrite H. Qed.

Lemma setField_eq w c f o :
  controllers w !! c = Some o →
  setField c f w = Some (tt, set_controllers (alter f c) w).
Proof. intros H. unfold setField. by erewrite bind_eq by by apply getController_eq. Qed.

Lemma setField_lt w c f :
  c < length (controllers w) →
  setField c f w = Some (tt, set_controllers (alter f c) w).
Proof.
  intros Hlt. destruct (lookup_lt_is_Some_2 _ _ Hlt) as [o Ho].
  by eapply setField_eq.
Qed.

Lemma getMap_eq w m mo :
  hookMaps w !! m = Some mo → getMap m w = Some (mo, w).
Proof. intros H. unfold getMap. erewrite bind_eq by reflexivity. by rewrite H. Qed.

Lemma setProp_eq w m mo k h :
  hookMaps w !! m = Some mo →
  setProp m k h w
  = Some (tt, set_hookMaps (<[m := mkJsMap (entries mo) (<[k := h]> (props mo))]>) w).
Proof. intros H. unfold setProp. by erewrite bind_eq by by apply getMap_eq. Qed.

Lemma mapClear_eq w m mo :
  hookMaps w !! m = Some mo →
  mapClear m w = Some (tt, set_hookMaps (<[m := mkJsMap ∅ (props mo)]>) w).
Proof. intros H. unfold mapClear. by erewrite bind_eq by by apply getMap_eq. Qed.

Lemma getFocusOnHover_eq w e b :
  focusOnHover w !! e = Some b → getFocusOnHover e w = Some (b, w).
Proof. intros H. unfold getFocusOnHover. erewrite bind_eq by reflexivity. by rewrite H. Qed.

Lemma _manageTerminals_eq w c o :
  controllers w !! c = Some o →
  _manageTerminals c w
  = Some (bool_decide (is_Some (_terminalInstanceCreatedHandler o)), w).
Proof. intros H. unfold _manageTerminals. by erewrite bind_eq by by apply getController_eq. Qed.

Ltac mpure := erewrite bind_eq by reflexivity.

(** *** The two loops *)

Lemma forEach_dispose_eq c o m mo kvs : ∀ w,
  controllers w !! c = Some o →
  _terminalHooks o = Some m →
  hookMaps w !! m = Some mo →
  (∀ k h, (k, h) ∈ kvs → props mo !! k = Some h) →
  forEach kvs.*1
    (λ k, o' ← getController c;
          m' ← required (_terminalHooks o');
          mo' ← getMap m';
          h ← required (props mo' !! k);
          disposeHandle h) w
  = Some (tt, set_disposables (disposeAll kvs.*2) w).
Proof.
  induction kvs as [|[k h] kvs IH]; intros w Hc Hm Hmo Hin.
  - by destruct w.
  - cbn [fmap list_fmap forEach fst snd].
    erewrite bind_eq.
    2:{ erewrite bind_eq by by apply getController_eq.
        rewrite Hm. mpure.
        erewrite bind_eq by by apply getMap_eq.
        rewrite (Hin k h) by by left.
        mpure. reflexivity. }
    rewrite IH; [done | done | done | done |].
    intros k' h' ?. apply Hin. by right.
Qed.

Lemma disposeEachHook_eq w c o m mo :
  controllers w !! c = Some o →
  _terminalHooks o = Some m →
  hookMaps w !! m = Some mo →
  disposeEachHook c w = Some (tt, set_disposables (disposeAll (hooksIn mo)) w).
Proof.
  intros Hc Hm Hmo. unfold disposeEachHook.
  erewrite bind_eq by by apply getController_eq.
  rewrite Hm.
  erewrite bind_eq by by apply getMap_eq.
  apply (forEach_dispose_eq c o m mo); [done..|].
  intros k h Hin. by apply elem_of_map_to_list.
Qed.

Lemma hookTerminal_eq w c o m mo t :
  controllers w !! c = Some o →
  _terminalHooks o = Some m →
  hookMaps w !! m = Some mo →
  hookTerminal c t w
  = Some (tt, set_hookMaps
                (<[m := mkJsMap (entries mo) (<[t := length (disposables w)]> (props mo))]>)
                (set_disposables (λ ds, ds ++ [terminalHook t]) w)).
Proof.
  intros Hc Hm Hmo. unfold hookTerminal.
  erewrite bind_eq by by apply getController_eq.
  rewrite Hm. mpure.
  erewrite bind_eq by reflexivity.
  by erewrite setProp_eq.
Qed.

Lemma forEach_hookTerminal_eq c o m ts : ∀ w mo,
  controllers w !! c = Some o →
  _terminalHooks o = Some m →
  hookMaps w !! m = Some mo →
  forEach ts (hookTerminal c) w
  = Some (tt, set_hookMaps
                (<[m := mkJsMap (entries mo)
                                (hookedProps ts (length (disposables w)) (props mo))]>)
                (set_disposables (λ ds, ds ++ (terminalHook <$> ts)) w)).
Proof.
  induction ts as [|t ts IH]; intros w mo Hc Hm Hmo.
  - destruct w as [I cs ms ds fs tis]; simpl in *.
    unfold ret, set_hookMaps, set_disposables; simpl.
    rewrite app_nil_r, list_insert_id; [done|]. by destruct mo.
  - cbn [forEach].
    erewrite bind_eq by by eapply hookTerminal_eq.
    erewrite IH; [| done | done |].
    2:{ simpl. apply list_lookup_insert_eq. by eapply lookup_lt_Some. }
    destruct w as [I cs ms ds fs tis]; simpl in *.
    unfold set_hookMaps, set_disposables; simpl.
    rewrite list_insert_insert_eq, length_app, <- app_assoc; simpl.
    by rewrite Nat.add_1_r.
Qed.

Lemma _unhookEvents_idle w c o :
  controllers w !! c = Some o →
  _editorMouseMoveHandler o = None →
  _unhookEvents c w = Some (tt, w).
Proof.
  intros Hc He. unfold _unhookEvents.
  erewrite bind_eq by by apply getController_eq.
  by rewrite He.
Qed.

Lemma _unhookEvents_editor w c o h :
  controllers w !! c = Some o →
  _editorMouseMoveHandler o = Some h →
  _terminalInstanceCreatedHandler o = None →
  _unhookEvents c w
  = Some (tt, set_controllers (alter (with_editorMouseMoveHandler None) c)
                (set_disposables (alter mark_disposed h) w)).
Proof.
  intros Hc He Hm. unfold _unhookEvents.
  erewrite bind_eq by by apply getController_eq.
  rewrite He. mpure.
  erewrite bind_eq by by eapply setField_eq.
  erewrite bind_eq.
  2:{ eapply _manageTerminals_eq. simpl. rewrite list_lookup_alter_eq, Hc. done. }
  simpl. rewrite Hm. done.
Qed.

Lemma _unhookEvents_manager w c o h hc m mo :
  controllers w !! c = Some o →
  _editorMouseMoveHandler o = Some h →
  _terminalInstanceCreatedHandler o = Some hc →
  _terminalHooks o = Some m →
  hookMaps w !! m = Some mo →
  _unhookEvents c w
  = Some (tt, set_hookMaps (<[m := mkJsMap ∅ (props mo)]>)
                (set_disposables (disposeAll (hooksIn mo))
                   (set_controllers (alter (with_editorMouseMoveHandler None) c)
                      (set_disposables (alter mark_disposed h) w)))).
Proof.
  intros Hc He Hcr Hm Hmo. unfold _unhookEvents.
  erewrite bind_eq by by apply getController_eq.
  rewrite He. mpure.
  erewrite bind_eq by by eapply setField_eq.
  assert (Hc' : ∀ w', controllers w' = alter (with_editorMouseMoveHandler None) c (controllers w) →
                controllers w' !! c = Some (with_editorMouseMoveHandler None o)).
  { intros w' ->. by rewrite list_lookup_alter_eq, Hc. }
  erewrite bind_eq by by (eapply _manageTerminals_eq, Hc').
  simpl. rewrite Hcr. rewrite bool_decide_eq_true_2 by done.
  erewrite bind_eq by by (eapply disposeEachHook_eq; [by apply Hc'|done|done]).
  unfold clearTerminalHooks.
  erewrite bind_eq by by (eapply getController_eq, Hc').
  simpl. rewrite Hm. mpure.
  by erewrite mapClear_eq.
Qed.

Lemma _hookEvents_off w c o :
  controllers w !! c = Some o →
  focusOnHover w !! _editor o = Some false →
  _hookEvents c w = Some (tt, w).
Proof.
  intros Hc Hf. unfold _hookEvents.
  erewrite bind_eq by by apply getController_eq.
  by erewrite bind_eq by by apply getFocusOnHover_eq.
Qed.

Lemma _hookEvents_editor w c o :
  controllers w !! c = Some o →
  focusOnHover w !! _editor o = Some true →
  _terminalInstanceCreatedHandler o = None →
  _hookEvents c w
  = Some (tt, set_controllers
                (alter (with_editorMouseMoveHandler (Some (length (disposables w)))) c)
                (set_disposables
                   (λ ds, ds ++ [mkDisposable (EditorMouseMove (_editor o))
                                              (OnEditorMouseMove c) false]) w)).
Proof.
  intros Hc Hf Hcr. unfold _hookEvents.
  erewrite bind_eq by by apply getController_eq.
  erewrite bind_eq by by apply getFocusOnHover_eq.
  cbv beta iota. mpure.
  erewrite bind_eq by by eapply setField_eq.
  erewrite bind_eq.
  2:{ eapply _manageTerminals_eq. simpl. by rewrite list_lookup_alter_eq, Hc. }
  simpl. by rewrite Hcr.
Qed.

Lemma _hookEvents_manager w c o hc m mo :
  controllers w !! c = Some o →
  focusOnHover w !! _editor o = Some true →
  _terminalInstanceCreatedHandler o = Some hc →
  _terminalHooks o = Some m →
  hookMaps w !! m = Some mo →
  _hookEvents c w
  = Some (tt, set_hookMaps
                (<[m := mkJsMap (entries mo)
                          (hookedProps (terminalInstances w) (S (length (disposables w)))
                                       (props mo))]>)
                (set_disposables (λ ds, ds ++ (terminalHook <$> terminalInstances w))
                   (set_controllers
                      (alter (with_editorMouseMoveHandler (Some (length (disposables w)))) c)
                      (set_disposables
                         (λ ds, ds ++ [mkDisposable (EditorMouseMove (_editor o))
                                                    (OnEditorMouseMove c) false]) w)))).
Proof.
  intros Hc Hf Hcr Hm Hmo. unfold _hookEvents.
  erewrite bind_eq by by apply getController_eq.
  erewrite bind_eq by by apply getFocusOnHover_eq.
  cbv beta iota. mpure.
  erewrite bind_eq by by eapply setField_eq.
  erewrite bind_eq.
  2:{ eapply _manageTerminals_eq. simpl. by rewrite list_lookup_alter_eq, Hc. }
  simpl. rewrite Hcr. rewrite bool_decide_eq_true_2 by done.
  mpure.
  erewrite (forEach_hookTerminal_eq c
              (with_editorMouseMoveHandler (Some (length (disposables w))) o) m);
    [| | done | done].
  2:{ simpl. by rewrite list_lookup_alter_eq, Hc. }
  simpl. by rewrite length_app, Nat.add_1_r.
Qed.

Lemma _onTerminalCreated_off w c o t :
  controllers w !! c = Some o →
  focusOnHover w !! _editor o = Some false →
  _onTerminalCreated c t w = Some (tt, w).
Proof.
  intros Hc Hf. unfold _onTerminalCreated.
  erewrite bind_eq by by apply getController_eq.
  by erewrite bind_eq by by apply getFocusOnHover_eq.
Qed.

Lemma _onTerminalCreated_on w c o m mo t :
  controllers w !! c = Some o →
  focusOnHover w !! _editor o = Some true →
  _terminalHooks o = Some m →
  hookMaps w !! m = Some mo →
  _onTerminalCreated c t w
  = Some (tt, set_hookMaps
                (<[m := mkJsMap (entries mo) (<[t := length (disposables w)]> (props mo))]>)
                (set_disposables (λ ds, ds ++ [terminalHook t]) w)).
Proof.
  intros Hc Hf Hm Hmo. unfold _onTerminalCreated.
  erewrite bind_eq by by apply getController_eq.
  erewrite bind_eq by by apply getFocusOnHover_eq.
  cbv beta iota. by eapply hookTerminal_eq.
Qed.

(** [has] looks at the entries of the Map, which bracket writes never touch. *)
Lemma _onTerminalDisposed_absent w c o m mo t :
  controllers w !! c = Some o →
  _terminalHooks o = Some m →
  hookMaps w !! m = Some mo →
  entries mo !! t = None →
  _onTerminalDisposed c t w = Some (tt, w).
Proof.
  intros Hc Hm Hmo Hent. unfold _onTerminalDisposed.
  erewrite bind_eq by by apply getController_eq.
  rewrite Hm. mpure.
  erewrite bind_eq by by apply getMap_eq.
  rewrite Hent. rewrite bool_decide_eq_false_2; [done|].
  by intros [? ?].
Qed.

Lemma _handleTerminals_eq w c o :
  controllers w !! c = Some o →
  _handleTerminals c w
  = Some (tt, set_controllers
                (alter (λ o, with_terminalInstanceDisposedHandler (Some (S (length (disposables w))))
                               (with_terminalInstanceCreatedHandler (Some (length (disposables w))) o)) c)
                (set_disposables
                   (λ ds, ds ++ [mkDisposable InstanceCreated (OnTerminalCreated c) false;
                                 mkDisposable InstanceDisposed (OnTerminalDisposed c) false]) w)).
Proof.
  intros Hc. unfold _handleTerminals.
  mpure.
  erewrite bind_eq by by eapply setField_eq.
  mpure.
  erewrite setField_eq.
  2:{ simpl. by rewrite list_lookup_alter_eq, Hc. }
  destruct w as [I cs ms ds fs tis]; simpl in *.
  unfold set_controllers, set_disposables; simpl.
  rewrite length_app, Nat.add_1_r, <- app_assoc, list_alter_alter_eq. done.
Qed.

Lemma onlyHooksChanged_refl w : onlyHooksChanged w w.
Proof. done. Qed.

Lemma onlyHooksChanged_trans w1 w2 w3 :
  onlyHooksChanged w1 w2 → onlyHooksChanged w2 w3 → onlyHooksChanged w1 w3.
Proof.
  intros (?&?&?&?&H12) (?&?&?&?&H23). split_and!; try congruence.
  intros h d Hd. by rewrite (H12 h d Hd), (H23 h d Hd).
Qed.

Lemma onlyHooksChanged_length w w' :
  onlyHooksChanged w w' → length (controllers w') = length (controllers w).
Proof.
  intros (_&_&_&H&_). apply (f_equal length) in H. by rewrite !length_fmap in H.
Qed.

Lemma onlyHooksChanged_lookup w w' c o :
  onlyHooksChanged w w' →
  controllers w !! c = Some o →
  ∃ o', controllers w' !! c = Some o'
        ∧ with_editorMouseMoveHandler None o' = with_editorMouseMoveHandler None o.
Proof.
  intros (_&_&_&H&_) Hc.
  apply (f_equal (λ l, l !! c)) in H. rewrite !list_lookup_fmap, Hc in H.
  destruct (controllers w' !! c) as [o'|]; simpl in H; [|done].
  exists o'. split; [done|]. congruence.
Qed.

Lemma with_editor_fields o o' :
  with_editorMouseMoveHandler None o' = with_editorMouseMoveHandler None o →
  _editor o' = _editor o
  ∧ _didChangeConfigurationHandler o' = _didChangeConfigurationHandler o
  ∧ _terminalHooks o' = _terminalHooks o
  ∧ _terminalInstanceCreatedHandler o' = _terminalInstanceCreatedHandler o
  ∧ _terminalInstanceDisposedHandler o' = _terminalInstanceDisposedHandler o.
Proof. destruct o, o'. unfold with_editorMouseMoveHandler; simpl. naive_solver. Qed.

Lemma alter_editor_roles v c (cs : list FocusOnHoverController) :
  with_editorMouseMoveHandler None <$> alter (with_editorMouseMoveHandler v) c cs
  = with_editorMouseMoveHandler None <$> cs.
Proof.
  apply list_eq. intros i. rewrite !list_lookup_fmap.
  destruct (decide (c = i)) as [->|].
  - rewrite list_lookup_alter_eq. by destruct (cs !! i).
  - by rewrite list_lookup_alter_ne.
Qed.

(** *** Preservation of well-formedness by the elementary updates *)

Lemma extends_same w w' :
  focusOnHover w' = focusOnHover w →
  hookMaps w' = hookMaps w →
  disposables w' = disposables w →
  extends w w'.
Proof.
  intros Hf Hm Hd. unfold extends, subscribed. rewrite Hf, Hm, Hd. by repeat split.
Qed.

Lemma ctrlOk_mono w w' c o : extends w w' → ctrlOk w c o → ctrlOk w' c o.
Proof.
  intros (Hf & Hm & Hs) [He Hh ? ? ? ? ? ? ?]. split; try done; try by eauto.
  - lia.
  - intros m Hm'. specialize (Hh m Hm'). lia.
Qed.

Lemma mapOk_mono w w' mo : extends w w' → mapOk w mo → mapOk w' mo.
Proof. intros (_ & _ & Hs) [? ?]. split; by eauto. Qed.

Lemma marked_refl ds : marked ds ds.
Proof. split; by eauto. Qed.

Lemma marked_trans ds1 ds2 ds3 : marked ds1 ds2 → marked ds2 ds3 → marked ds1 ds3.
Proof.
  intros [Hl1 H1] [Hl2 H2]. split; [congruence|].
  intros h d Hd. destruct (H1 h d Hd) as (d' & Hd' & ? & ?).
  destruct (H2 h d' Hd') as (d'' & Hd'' & ? & ?).
  exists d''. split_and!; congruence.
Qed.

Lemma marked_alter ds h : marked ds (alter mark_disposed h ds).
Proof.
  split; [by rewrite length_alter|]. intros i d Hd.
  destruct (decide (h = i)) as [->|].
  - exists (mark_disposed d). by rewrite list_lookup_alter_eq, Hd.
  - exists d. by rewrite list_lookup_alter_ne.
Qed.

Lemma marked_disposeAll hs : ∀ ds, marked ds (disposeAll hs ds).
Proof.
  induction hs as [|h hs IH]; intros ds; [apply marked_refl|].
  simpl. eapply marked_trans; [apply marked_alter|apply IH].
Qed.

Lemma marked_extends w f :
  marked (disposables w) (f (disposables w)) → extends w (set_disposables f w).
Proof.
  intros [_ Hm]. split; [done|]. split; [done|].
  intros h src l (d & Hd & ? & ?). destruct (Hm h d Hd) as (d' & ? & ? & ?).
  exists d'. simpl. split_and!; congruence.
Qed.

Lemma subscribe_extends w news : extends w (set_disposables (λ ds, ds ++ news) w).
Proof.
  split; [done|]. split; [done|].
  intros h src l (d & Hd & ? & ?). exists d. simpl.
  split; [by apply lookup_app_l_Some|done].
Qed.

Lemma hasHooks_alter w f c c' :
  (∀ o, is_Some (_terminalHooks o) → is_Some (_terminalHooks (f o))) →
  hasHooks w c' → hasHooks (set_controllers (alter f c) w) c'.
Proof.
  intros Hf (o & Ho & Hh). unfold hasHooks; simpl.
  destruct (decide (c = c')) as [->|].
  - exists (f o). rewrite list_lookup_alter_eq, Ho. auto.
  - exists o. by rewrite list_lookup_alter_ne.
Qed.

Lemma wf_alter_controller w f c :
  wf w →
  (∀ o, controllers w !! c = Some o → ctrlOk w c o → ctrlOk w c (f o)) →
  (∀ o, is_Some (_terminalHooks o) → is_Some (_terminalHooks (f o))) →
  wf (set_controllers (alter f c) w).
Proof.
  intros [Hc Hm Hl Hi Hnd] Hf Hh. split; simpl.
  - intros i o Hio.
    apply (ctrlOk_mono w); [by apply extends_same|].
    destruct (decide (c = i)) as [->|].
    + rewrite list_lookup_alter_eq in Hio.
      destruct (controllers w !! i) as [o0|] eqn:E; simplify_eq/=.
      apply (Hf o0); [done|]. by apply Hc.
    + rewrite list_lookup_alter_ne in Hio by done. by apply Hc.
  - intros m mo Hmo. apply (mapOk_mono w); [by apply extends_same|]. by eapply Hm.
  - eapply Forall_impl; [exact Hl|]. intros d Hd. simpl in Hd.
    destruct (listener d); simpl in *; rewrite ?length_alter;
      try done; by apply hasHooks_alter.
  - by rewrite length_alter.
  - done.
Qed.

(** A change that touches neither the controllers nor the registry. *)
Lemma wf_extends w w' :
  wf w → extends w w' →
  controllers w' = controllers w →
  Instances w' = Instances w →
  (∀ m mo, hookMaps w' !! m = Some mo → hookMaps w !! m = Some mo ∨ mapOk w' mo) →
  Forall (λ d, listenerOk w (listener d)) (disposables w') →
  wf w'.
Proof.
  intros [Hc Hm Hl Hi Hnd] Hext Hcs HI Hmaps Hls. split.
  - intros c o Ho. rewrite Hcs in Ho. apply (ctrlOk_mono w); [done|]. by apply Hc.
  - intros m mo Hmo. destruct (Hmaps m mo Hmo) as [Hold|Hnew]; [|done].
    apply (mapOk_mono w); [done|]. by eapply Hm.
  - eapply Forall_impl; [exact Hls|]. intros d.
    unfold listenerOk, hasHooks. by rewrite Hcs.
  - by rewrite Hcs, HI.
  - by rewrite HI.
Qed.

Lemma Forall_marked (P : Listener → Prop) ds ds' :
  marked ds ds' → Forall (λ d, P (listener d)) ds → Forall (λ d, P (listener d)) ds'.
Proof.
  intros [Hlen Hm] HF. apply Forall_lookup. intros i d' Hd'.
  destruct (lookup_lt_is_Some_2 ds i) as [d Hd].
  { rewrite <- Hlen. by eapply lookup_lt_Some. }
  destruct (Hm i d Hd) as (d'' & Hd'' & _ & Hl).
  assert (d'' = d') as -> by congruence. rewrite Hl.
  by eapply (Forall_lookup_1 _ _ _ _ HF).
Qed.

Lemma wf_set_disposables w f :
  wf w → marked (disposables w) (f (disposables w)) → wf (set_disposables f w).
Proof.
  intros Hw Hm. apply (wf_extends w); try done.
  - by apply marked_extends.
  - intros m mo Hmo. by left.
  - simpl. eapply Forall_marked; [exact Hm|]. by destruct Hw.
Qed.

Lemma wf_disposeHandle w h :
  wf w → wf (set_disposables (alter mark_disposed h) w).
Proof. intros Hw. apply wf_set_disposables; [done|]. apply marked_alter. Qed.

Lemma wf_disposeAll w hs :
  wf w → wf (set_disposables (disposeAll hs) w).
Proof. intros Hw. apply wf_set_disposables; [done|]. apply marked_disposeAll. Qed.

Lemma wf_subscribe w (news : list IDisposable) :
  wf w →
  Forall (λ d, listenerOk w (listener d)) news →
  wf (set_disposables (λ ds, ds ++ news) w).
Proof.
  intros Hw Hn. apply (wf_extends w); try done.
  - apply subscribe_extends.
  - intros m mo Hmo. by left.
  - simpl. apply Forall_app. split; [by destruct Hw|done].
Qed.

Lemma wf_insert_map w m mo :
  wf w → mapOk w mo → wf (set_hookMaps (<[m := mo]>) w).
Proof.
  intros Hw Hmo.
  assert (Hext : extends w (set_hookMaps (<[m := mo]>) w)).
  { split; [done|]. split; [|done]. simpl. by rewrite length_insert. }
  apply (wf_extends w); try done.
  - intros i mo' Hi. simpl in Hi.
    destruct (decide (m = i)) as [->|].
    + apply list_lookup_insert_Some in Hi as [(_ & <- & _)|(? & _)]; [|done].
      right. by apply (mapOk_mono w).
    + rewrite list_lookup_insert_ne in Hi by done. by left.
  - by destruct Hw.
Qed.

Lemma wf_newMap w :
  wf w → wf (set_hookMaps (λ l, l ++ [mkJsMap ∅ ∅]) w).
Proof.
  intros Hw. apply (wf_extends w); try done.
  - split; [done|]. split; [|done]. simpl. rewrite length_app. lia.
  - intros i mo' Hi. simpl in Hi.
    apply lookup_app_Some in Hi as [Hi|(_ & Hi)]; [by left|].
    right. apply list_lookup_singleton_Some in Hi as [_ <-]. by split.
  - by destruct Hw.
Qed.

Lemma wf_set_Instances w f :
  wf w →
  Forall (λ c, c < length (controllers w)) (f (Instances w)) →
  NoDup (f (Instances w)) →
  wf (set_Instances f w).
Proof.
  intros [Hc Hm Hl Hi Hnd] Hf Hn. split; try done.
  - intros c o Ho. apply (ctrlOk_mono w); [by apply extends_same|]. by apply Hc.
  - intros m mo Hmo. apply (mapOk_mono w); [by apply extends_same|]. by eapply Hm.
Qed.

Lemma wf_set_terminalInstances w f :
  wf w → wf (set_terminalInstances f w).
Proof.
  intros Hw.
  apply (wf_extends w);
    [done|by apply extends_same|done|done|by left|by destruct Hw].
Qed.

Lemma wf_set_focusOnHover w f :
  wf w →
  length (focusOnHover w) ≤ length (f (focusOnHover w)) →
  wf (set_focusOnHover f w).
Proof.
  intros Hw Hf.
  apply (wf_extends w); [done| |done|done|by left|by destruct Hw].
  split; [done|]. by split.
Qed.

Lemma ctrlOk_with_editor w c v o :
  ctrlOk w c o →
  (∀ h, v = Some h → subscribed w h (EditorMouseMove (_editor o)) (OnEditorMouseMove c)) →
  ctrlOk w c (with_editorMouseMoveHandler v o).
Proof. intros [? ? ? ? ? ? ? ? ?] Hv. by split. Qed.

Lemma wf_lookup_controller w c o :
  wf w → controllers w !! c = Some o → ctrlOk w c o.
Proof. intros [Hc _ _ _ _] Ho. by apply Hc. Qed.

Lemma wf_lookup_map w c o m :
  wf w → controllers w !! c = Some o → _terminalHooks o = Some m →
  ∃ mo, hookMaps w !! m = Some mo ∧ entries mo = ∅.
Proof.
  intros Hw Ho Hm.
  destruct (wf_lookup_controller w c o Hw Ho) as [_ Hlt _ _ _ _ _ _ _].
  destruct (lookup_lt_is_Some_2 (hookMaps w) m (Hlt m Hm)) as [mo Hmo].
  exists mo. split; [done|].
  destruct Hw as [_ Hmaps _ _ _]. by destruct (Hmaps m mo Hmo).
Qed.

Lemma wf_lookup_mapOk w m mo : wf w → hookMaps w !! m = Some mo → mapOk w mo.
Proof. intros [_ Hm _ _ _] Hmo. by eapply Hm. Qed.

Lemma mapOk_cleared w mo : mapOk w mo → mapOk w (mkJsMap ∅ (props mo)).
Proof. intros [_ ?]. by split. Qed.

Lemma hookedProps_lookup ts : ∀ n p t h,
  hookedProps ts n p !! t = Some h →
  p !! t = Some h ∨ ∃ i, h = n + i ∧ ts !! i = Some t.
Proof.
  induction ts as [|t0 ts IH]; intros n p t h Hh; [by left|].
  simpl in Hh. destruct (IH _ _ _ _ Hh) as [Hold|(i & -> & Hi)].
  - destruct (decide (t0 = t)) as [->|Hne].
    + rewrite lookup_insert_eq in Hold. injection Hold as <-.
      right. exists 0. split; [lia|done].
    + rewrite lookup_insert_ne in Hold by done. by left.
  - right. exists (S i). split; [lia|done].
Qed.

Lemma subscribed_new w news i d :
  news !! i = Some d →
  subscribed (set_disposables (λ ds, ds ++ news) w) (length (disposables w) + i)
             (source d) (listener d).
Proof.
  intros Hi. exists d. simpl. split; [|done].
  rewrite lookup_app_r by lia. by rewrite Nat.add_comm, Nat.add_sub.
Qed.

Lemma mapOk_hooked w mo ts n :
  mapOk w mo →
  n = length (disposables w) →
  mapOk (set_disposables (λ ds, ds ++ (terminalHook <$> ts)) w)
        (mkJsMap (entries mo) (hookedProps ts n (props mo))).
Proof.
  intros [He Hp] ->. split; [done|]. simpl.
  intros t h Hh. apply hookedProps_lookup in Hh as [Hold|(i & -> & Hi)].
  - destruct (subscribe_extends w (terminalHook <$> ts)) as (_ & _ & Hs).
    by apply Hs, Hp.
  - apply (subscribed_new w (terminalHook <$> ts) i (terminalHook t)).
    by rewrite list_lookup_fmap, Hi.
Qed.

Lemma disposeAll_lookup hs : ∀ ds h,
  disposeAll hs ds !! h
  = (if decide (h ∈ hs) then mark_disposed else id) <$> ds !! h.
Proof.
  induction hs as [|h0 hs IH]; intros ds h.
  - cbn [disposeAll foldl]. case_decide as Hin; [by apply elem_of_nil in Hin|].
    by destruct (ds !! h).
  - cbn [disposeAll foldl]. fold (disposeAll hs (alter mark_disposed h0 ds)).
    rewrite IH. destruct (decide (h0 = h)) as [->|Hne].
    + rewrite list_lookup_alter_eq.
      destruct (decide (h ∈ h :: hs)) as [_|Hn]; [|exfalso; apply Hn; by left].
      destruct (ds !! h); simpl; [|done]. by case_decide.
    + rewrite list_lookup_alter_ne by done.
      destruct (decide (h ∈ hs)) as [Hin|Hin].
      * destruct (decide (h ∈ h0 :: hs)) as [_|Hn]; [done|].
        exfalso. apply Hn. by right.
      * destruct (decide (h ∈ h0 :: hs)) as [[?|?]%elem_of_cons|_]; done.
Qed.

Lemma disposeAll_length hs : ∀ ds, length (disposeAll hs ds) = length ds.
Proof.
  induction hs as [|h hs IH]; intros ds; [done|].
  simpl. by rewrite IH, length_alter.
Qed.

Lemma hooksIn_elem mo t h : props mo !! t = Some h → h ∈ hooksIn mo.
Proof.
  intros Hh. unfold hooksIn.
  apply (list_elem_of_fmap_2' snd _ (t, h)); [|done].
  by apply elem_of_map_to_list.
Qed.

Lemma hooksIn_source w mo h d :
  mapOk w mo → h ∈ hooksIn mo → disposables w !! h = Some d →
  ∃ t, source d = TerminalMouseMove t.
Proof.
  intros [_ Hty] Hin Hd. unfold hooksIn in Hin.
  apply list_elem_of_fmap in Hin as ([t h'] & -> & Hin).
  apply elem_of_map_to_list in Hin.
  destruct (Hty t h' Hin) as (d' & Hd' & Hs & _). simpl in Hd.
  exists t. congruence.
Qed.

Lemma kept_disposeAll_app ds hs news :
  (∀ h d, h ∈ hs → ds !! h = Some d → isMouseMove (source d)) →
  Forall (λ d, isMouseMove (source d)) news →
  ∀ h d, ¬ isMouseMove (source d) →
         (ds !! h = Some d ↔ (disposeAll hs ds ++ news) !! h = Some d).
Proof.
  intros Hhs Hnews h d Hd. split.
  - intros Hh.
    rewrite lookup_app_l by (rewrite disposeAll_length; by eapply lookup_lt_Some).
    rewrite disposeAll_lookup, Hh. case_decide as Hin; [|done].
    exfalso. apply Hd. by eapply Hhs.
  - intros Hh. apply lookup_app_Some in Hh as [Hh|(_ & Hh)].
    + rewrite disposeAll_lookup in Hh.
      destruct (ds !! h) as [d0|] eqn:E; simpl in Hh; [|done].
      injection Hh as <-. case_decide as Hin; [|done].
      exfalso. apply Hd. simpl. by eapply Hhs.
    + exfalso. apply Hd.
      apply (proj1 (Forall_forall _ _) Hnews). by eapply list_elem_of_lookup_2.
Qed.

Lemma editor_handle_mouse w c o h d :
  wf w → controllers w !! c = Some o → _editorMouseMoveHandler o = Some h →
  disposables w !! h = Some d → isMouseMove (source d).
Proof.
  intros Hw Ho He Hd.
  destruct (wf_lookup_controller w c o Hw Ho) as [_ _ _ _ _ _ Ted _ _].
  destruct (Ted h He) as (d' & Hd' & Hs & _).
  assert (d' = d) as -> by congruence. by rewrite Hs.
Qed.

Lemma hooks_mouse w m mo h d :
  wf w → hookMaps w !! m = Some mo → h ∈ hooksIn mo →
  disposables w !! h = Some d → isMouseMove (source d).
Proof.
  intros Hw Hmo Hin Hd.
  destruct (hooksIn_source w mo h d (wf_lookup_mapOk w m mo Hw Hmo) Hin Hd) as (t & Hs).
  by rewrite Hs.
Qed.

(** *** The hook methods return and touch nothing but hooks *)

Lemma _unhookEvents_ok w c :
  wf w → c < length (controllers w) →
  ∃ w', _unhookEvents c w = Some (tt, w') ∧ wf w' ∧ onlyHooksChanged w w'.
Proof.
  intros Hw Hlt.
  destruct (lookup_lt_is_Some_2 _ _ Hlt) as [o Ho].
  destruct (_editorMouseMoveHandler o) as [h|] eqn:He.
  2:{ exists w. split; [by eapply _unhookEvents_idle|]. done. }
  assert (Hw1 : wf (set_controllers (alter (with_editorMouseMoveHandler None) c)
                      (set_disposables (alter mark_disposed h) w))).
  { apply wf_alter_controller; [by apply wf_disposeHandle| |done].
    intros ? _ ?. by apply ctrlOk_with_editor. }
  destruct (_terminalInstanceCreatedHandler o) as [hc|] eqn:Hcr.
  - destruct (wf_lookup_controller w c o Hw Ho) as [_ _ Hhooks _ _ _ _ _ _].
    destruct Hhooks as [m Hm]; [by rewrite Hcr|].
    destruct (wf_lookup_map w c o m Hw Ho Hm) as (mo & Hmo & Hent).
    eexists. split; [by eapply _unhookEvents_manager|]. split.
    + apply wf_insert_map; [by apply wf_disposeAll|].
      apply mapOk_cleared.
      by apply (wf_lookup_mapOk _ m), Hmo; apply wf_disposeAll.
    + split_and!; simpl; try done; [apply alter_editor_roles|].
      intros h' d Hd.
      rewrite (kept_disposeAll_app (disposables w) (h :: hooksIn mo) [] ); [|..|exact Hd].
      * by rewrite app_nil_r.
      * intros x dx [->|Hin]%elem_of_cons Hx.
        -- exact (editor_handle_mouse w c o _ dx Hw Ho He Hx).
        -- exact (hooks_mouse w m mo x dx Hw Hmo Hin Hx).
      * done.
  - eexists. split; [by eapply _unhookEvents_editor|]. split; [done|].
    split_and!; simpl; try done; [apply alter_editor_roles|].
    intros h' d Hd.
    rewrite (kept_disposeAll_app (disposables w) [h] []); [|..|exact Hd].
    + by rewrite app_nil_r.
    + intros x dx ->%list_elem_of_singleton Hx.
      exact (editor_handle_mouse w c o _ dx Hw Ho He Hx).
    + done.
Qed.

Lemma _hookEvents_ok w c :
  wf w → c < length (controllers w) →
  ∃ w', _hookEvents c w = Some (tt, w') ∧ wf w' ∧ onlyHooksChanged w w'.
Proof.
  intros Hw Hlt.
  destruct (lookup_lt_is_Some_2 _ _ Hlt) as [o Ho].
  destruct (wf_lookup_controller w c o Hw Ho) as [Hed _ Hhooks _ _ _ _ _ _].
  destruct (lookup_lt_is_Some_2 _ _ Hed) as [[|] Hflag].
  2:{ exists w. split; [by eapply _hookEvents_off|]. done. }
  assert (Hw1 : wf (set_controllers
                      (alter (with_editorMouseMoveHandler (Some (length (disposables w)))) c)
                      (set_disposables
                         (λ ds, ds ++ [mkDisposable (EditorMouseMove (_editor o))
                                                    (OnEditorMouseMove c) false]) w))).
  { apply wf_alter_controller; [| |done].
    - apply wf_subscribe; [done|]. by apply Forall_singleton.
    - intros o' Ho' Hok. simpl in Ho'. rewrite Ho in Ho'. injection Ho' as <-.
      apply ctrlOk_with_editor; [done|]. intros h [= <-].
      rewrite <- (Nat.add_0_r (length (disposables w))).
      by apply (subscribed_new w [_] 0
                  (mkDisposable (EditorMouseMove (_editor o)) (OnEditorMouseMove c) false)). }
  destruct (_terminalInstanceCreatedHandler o) as [hc|] eqn:Hcr.
  - destruct Hhooks as [m Hm]; [done|].
    destruct (wf_lookup_map w c o m Hw Ho Hm) as (mo & Hmo & Hent).
    eexists. split; [by eapply _hookEvents_manager|]. split.
    + apply wf_insert_map.
      { apply wf_subscribe; [done|]. apply Forall_fmap, Forall_true. done. }
      apply mapOk_hooked.
      * by apply (wf_lookup_mapOk _ m), Hmo.
      * simpl. rewrite length_app. simpl. lia.
    + split_and!; simpl; try done; [apply alter_editor_roles|].
      intros h' d Hd. rewrite <- app_assoc.
      apply (kept_disposeAll_app (disposables w) []); [|
        |exact Hd].
      * by intros x dx ?%elem_of_nil.
      * apply Forall_cons. split; [done|]. by apply Forall_fmap, Forall_true.
  - eexists. split; [by eapply _hookEvents_editor|]. split; [done|].
    split_and!; simpl; try done; [apply alter_editor_roles|].
    intros h' d Hd.
    apply (kept_disposeAll_app (disposables w) []); [| |exact Hd].
    + by intros x dx ?%elem_of_nil.
    + by apply Forall_singleton.
Qed.

Lemma _onTerminalCreated_ok w c t :
  wf w → hasHooks w c →
  ∃ w', _onTerminalCreated c t w = Some (tt, w') ∧ wf w' ∧ onlyHooksChanged w w'.
Proof.
  intros Hw (o & Ho & [m Hm]).
  destruct (wf_lookup_controller w c o Hw Ho) as [Hed _ _ _ _ _ _ _ _].
  destruct (lookup_lt_is_Some_2 _ _ Hed) as [[|] Hflag].
  2:{ exists w. split; [by eapply _onTerminalCreated_off|]. done. }
  destruct (wf_lookup_map w c o m Hw Ho Hm) as (mo & Hmo & Hent).
  eexists. split; [by eapply _onTerminalCreated_on|]. split.
  2:{ split_and!; simpl; try done. intros h' d Hd.
      apply (kept_disposeAll_app (disposables w) []); [| |exact Hd].
      - by intros x dx ?%elem_of_nil.
      - by apply Forall_singleton. }
  apply wf_insert_map.
  { apply wf_subscribe; [done|]. by apply Forall_singleton. }
  apply (mapOk_hooked w mo [t]); [|done].
  by apply (wf_lookup_mapOk _ m).
Qed.

Lemma _onTerminalDisposed_ok w c t :
  wf w → hasHooks w c → _onTerminalDisposed c t w = Some (tt, w).
Proof.
  intros Hw (o & Ho & [m Hm]).
  destruct (wf_lookup_map w c o m Hw Ho Hm) as (mo & Hmo & Hent).
  eapply _onTerminalDisposed_absent; [done..|]. by rewrite Hent.
Qed.

Lemma listenerOk_onlyHooksChanged w w' l :
  onlyHooksChanged w w' → listenerOk w l → listenerOk w' l.
Proof.
  intros Hch. pose proof (onlyHooksChanged_length _ _ Hch) as Hlen.
  assert (Hh : ∀ c, hasHooks w c → hasHooks w' c).
  { intros c (o & Ho & Hm).
    destruct (onlyHooksChanged_lookup _ _ _ _ Hch Ho) as (o' & Ho' & Heq).
    apply with_editor_fields in Heq as (_ & _ & Heq & _).
    exists o'. by rewrite Heq. }
  destruct l; simpl; rewrite ?Hlen; auto.
Qed.

(** Delivering an event to a list of listeners that were valid when the
    list was taken. *)
Lemma forEach_listeners_ok (body : Listener → M unit) ls : ∀ w,
  (∀ l w, l ∈ ls → wf w → listenerOk w l →
     ∃ w', body l w = Some (tt, w') ∧ wf w' ∧ onlyHooksChanged w w') →
  wf w →
  Forall (listenerOk w) ls →
  ∃ w', forEach ls body w = Some (tt, w') ∧ wf w' ∧ onlyHooksChanged w w'.
Proof.
  induction ls as [|l ls IH]; intros w Hbody Hw Hls.
  - exists w. done.
  - apply Forall_cons in Hls as [Hl Hls].
    destruct (Hbody l w) as (w1 & E1 & Hw1 & Hch1); [by left|done|done|].
    destruct (IH w1) as (w2 & E2 & Hw2 & Hch2); [|done| |].
    + intros l' w' ?. apply Hbody. by right.
    + eapply Forall_impl; [exact Hls|].
      intros l'. by apply listenerOk_onlyHooksChanged.
    + exists w2. split; [|split; [done|]].
      * cbn [forEach]. by erewrite bind_eq by exact E1.
      * by eapply onlyHooksChanged_trans.
Qed.

Lemma activeListeners_ok w src :
  wf w → Forall (listenerOk w) (activeListeners src w).
Proof.
  intros [_ _ Hl _ _]. unfold activeListeners.
  apply Forall_forall. intros l Hin.
  apply list_elem_of_fmap in Hin as (d & -> & Hd).
  apply list_elem_of_filter in Hd as [_ Hd].
  by apply (proj1 (Forall_forall _ _) Hl).
Qed.

Lemma onDidChangeConfiguration_ok w c contribInfo :
  wf w → c < length (controllers w) →
  ∃ w', onDidChangeConfiguration c contribInfo w = Some (tt, w')
        ∧ wf w' ∧ onlyHooksChanged w w'.
Proof.
  intros Hw Hlt. destruct contribInfo; simpl.
  2:{ exists w. done. }
  destruct (_unhookEvents_ok w c Hw Hlt) as (w1 & E1 & Hw1 & Hch1).
  destruct (_hookEvents_ok w1 c Hw1) as (w2 & E2 & Hw2 & Hch2).
  { by rewrite (onlyHooksChanged_length _ _ Hch1). }
  exists w2. split; [by erewrite bind_eq by exact E1|].
  split; [done|]. by eapply onlyHooksChanged_trans.
Qed.

Lemma fireConfigurationChanged_ok w e contribInfo :
  wf w →
  ∃ w', fireConfigurationChanged e contribInfo w = Some (tt, w')
        ∧ wf w' ∧ onlyHooksChanged w w'.
Proof.
  intros Hw. unfold fireConfigurationChanged. mpure.
  apply forEach_listeners_ok; [|done|by apply activeListeners_ok].
  intros l w1 _ Hw1 Hl. destruct l; simpl in Hl; try by (exists w1).
  by apply onDidChangeConfiguration_ok.
Qed.

Lemma fireInstanceCreated_ok w t :
  wf w →
  ∃ w', fireInstanceCreated t w = Some (tt, w') ∧ wf w' ∧ onlyHooksChanged w w'.
Proof.
  intros Hw. unfold fireInstanceCreated. mpure.
  apply forEach_listeners_ok; [|done|by apply activeListeners_ok].
  intros l w1 _ Hw1 Hl. destruct l; simpl in Hl; try by (exists w1).
  by apply _onTerminalCreated_ok.
Qed.

Lemma fireInstanceDisposed_ok w t :
  wf w →
  ∃ w', fireInstanceDisposed t w = Some (tt, w') ∧ wf w' ∧ onlyHooksChanged w w'.
Proof.
  intros Hw. unfold fireInstanceDisposed. mpure.
  apply forEach_listeners_ok; [|done|by apply activeListeners_ok].
  intros l w1 _ Hw1 Hl. destruct l; simpl in Hl; try by (exists w1).
  exists w1. split; [by apply _onTerminalDisposed_ok|done].
Qed.

(** ** [dispose], case by case *)

Lemma releaseTerminals_plain w c o hcfg :
  controllers w !! c = Some o →
  _didChangeConfigurationHandler o = Some hcfg →
  _terminalInstanceCreatedHandler o = None →
  releaseTerminals c w
  = Some (tt, set_Instances (λ l, splice l (indexOf l c) 1)
                (set_disposables (alter mark_disposed hcfg) w)).
Proof.
  intros Hc Hcfg Hcr. unfold releaseTerminals.
  erewrite bind_eq by by apply getController_eq.
  rewrite Hcfg. mpure. mpure. mpure.
  by rewrite Hcr.
Qed.

Lemma releaseTerminals_handoff w c o hcfg hc hd other rest oo :
  controllers w !! c = Some o →
  _didChangeConfigurationHandler o = Some hcfg →
  _terminalInstanceCreatedHandler o = Some hc →
  _terminalInstanceDisposedHandler o = Some hd →
  splice (Instances w) (indexOf (Instances w) c) 1 = other :: rest →
  controllers w !! other = Some oo →
  releaseTerminals c w
  = Some (tt,
      set_controllers (alter (with_terminalHooks (Some (length (hookMaps w)))) c)
        (set_hookMaps (λ l, l ++ [mkJsMap ∅ ∅])
           (set_controllers
              (alter (λ o, with_terminalInstanceDisposedHandler
                             (Some (S (length (disposables w))))
                             (with_terminalInstanceCreatedHandler
                                (Some (length (disposables w))) o)) other)
              (set_disposables
                 (λ ds, ds ++ [mkDisposable InstanceCreated (OnTerminalCreated other) false;
                               mkDisposable InstanceDisposed (OnTerminalDisposed other) false])
                 (set_controllers (alter (with_terminalHooks (_terminalHooks o)) other)
                    (resigned c hcfg hc hd w)))))).
Proof.
  intros Hc Hcfg Hcr Hd Hsp Hoo. unfold releaseTerminals.
  erewrite bind_eq by by apply getController_eq.
  rewrite Hcfg. mpure. mpure. mpure.
  rewrite Hcr. mpure.
  rewrite Hd. mpure. mpure. mpure.
  cbn [Instances set_Instances set_disposables]. rewrite Hsp.
  rewrite bool_decide_eq_true_2 by (simpl; lia).
  cbn [lookup list_lookup]. mpure.
  erewrite bind_eq by by eapply setField_eq.
  erewrite bind_eq.
  2:{ eapply _handleTerminals_eq. simpl. by rewrite list_lookup_alter_eq, Hoo. }
  mpure.
  erewrite setField_lt.
  2:{ simpl. rewrite !length_alter. by eapply lookup_lt_Some. }
  unfold resigned.
  cbn [hookMaps disposables set_controllers set_hookMaps set_disposables set_Instances].
  by rewrite !length_alter.
Qed.

Lemma releaseTerminals_last w c o hcfg hc hd m mo :
  controllers w !! c = Some o →
  _didChangeConfigurationHandler o = Some hcfg →
  _terminalInstanceCreatedHandler o = Some hc →
  _terminalInstanceDisposedHandler o = Some hd →
  splice (Instances w) (indexOf (Instances w) c) 1 = [] →
  _terminalHooks o = Some m →
  hookMaps w !! m = Some mo →
  releaseTerminals c w
  = Some (tt, set_hookMaps (<[m := mkJsMap ∅ (props mo)]>)
                (set_disposables (disposeAll (hooksIn mo))
                   (resigned c hcfg hc hd w))).
Proof.
  intros Hc Hcfg Hcr Hd Hsp Hm Hmo. unfold releaseTerminals.
  erewrite bind_eq by by apply getController_eq.
  rewrite Hcfg. mpure. mpure. mpure.
  rewrite Hcr. mpure.
  rewrite Hd. mpure. mpure. mpure.
  cbn [Instances set_Instances set_disposables]. rewrite Hsp.
  rewrite bool_decide_eq_false_2 by (simpl; lia).
  erewrite bind_eq by by (eapply disposeEachHook_eq).
  unfold clearTerminalHooks.
  erewrite bind_eq by by (eapply getController_eq).
  rewrite Hm. mpure.
  erewrite mapClear_eq by done.
  by unfold resigned.
Qed.

(** ** The constructor *)

Lemma alter_snoc {A} (f : A → A) (l : list A) (x : A) :
  alter f (length l) (l ++ [x]) = l ++ [f x].
Proof.
  rewrite <- (Nat.add_0_r (length l)). by rewrite alter_app_r.
Qed.

Lemma lookup_snoc_new {A} (l : list A) (x : A) : (l ++ [x]) !! length l = Some x.
Proof. by rewrite lookup_app_r, Nat.sub_diag. Qed.

Lemma constructor_eq editor w w3 :
  _hookEvents (length (controllers w))
              (constructed editor (bool_decide (Instances w = [])) w) = Some (tt, w3) →
  constructor editor w
  = Some (length (controllers w),
          set_Instances (λ l, l ++ [length (controllers w)]) w3).
Proof.
  intros Hhook. unfold constructor.
  mpure. mpure.
  erewrite bind_eq by (eapply setField_eq; apply lookup_snoc_new).
  mpure.
  cbn [Instances set_controllers set_disposables].
  destruct w as [I cs ms ds fs tis]; cbn [Instances controllers hookMaps disposables] in *.
  unfold constructed in Hhook. cbn [Instances controllers hookMaps disposables] in Hhook.
  case_bool_decide as HI.
  - rewrite bool_decide_eq_true_2 by (by rewrite HI).
    erewrite bind_eq.
    2:{ mpure.
        erewrite bind_eq.
        2:{ eapply setField_eq. simpl. rewrite alter_snoc. apply lookup_snoc_new. }
        eapply _handleTerminals_eq. simpl. rewrite !alter_snoc. apply lookup_snoc_new. }
    erewrite bind_eq.
    2:{ etrans; [|exact Hhook]. f_equal.
        unfold set_controllers, set_hookMaps, set_disposables; simpl.
        rewrite !alter_snoc, length_app, <- app_assoc, Nat.add_1_r. done. }
    done.
  - rewrite bool_decide_eq_false_2.
    2:{ destruct I; simpl; [done|lia]. }
    mpure.
    erewrite bind_eq.
    2:{ etrans; [|exact Hhook]. f_equal.
        unfold set_controllers, set_hookMaps, set_disposables; simpl.
        rewrite !alter_snoc. done. }
    done.
Qed.

(** ** [indexOf] and [splice] on the registry *)


Lemma indexOf_in l c : c ∈ l → (0 ≤ indexOf l c < Z.of_nat (length l))%Z.
Proof.
  induction l as [|y l IH]; intros Hc; [by apply elem_of_nil in Hc|].
  simpl. destruct (decide (y = c)) as [->|Hne]; [lia|].
  apply elem_of_cons in Hc as [->|Hc]; [done|].
  specialize (IH Hc).
  destruct (Z.ltb_spec (indexOf l c) 0); lia.
Qed.

Lemma splice_sublist {A} (l : list A) start n : splice l start n `sublist_of` l.
Proof.
  unfold splice.
  set (k := Z.to_nat _).
  rewrite <- (take_drop k l) at 3.
  apply sublist_app; [done|].
  rewrite <- drop_drop. apply sublist_drop.
Qed.

Lemma splice_cons_succ {A} (y : A) l (i : Z) :
  (0 ≤ i)%Z → splice (y :: l) (i + 1) 1 = y :: splice l i 1.
Proof.
  intros Hi. unfold splice.
  rewrite (proj2 (Z.ltb_ge _ _)) by lia.
  rewrite (proj2 (Z.ltb_ge _ _)) by lia.
  cbn [length].
  replace (Z.to_nat (Z.min (i + 1) (Z.of_nat (S (length l)))))
    with (S (Z.to_nat (Z.min i (Z.of_nat (length l))))) by lia.
  done.
Qed.

Lemma filter_ne_notin (l : list nat) c : c ∉ l → filter (λ x, x ≠ c) l = l.
Proof.
  induction l as [|y l IH]; intros Hc; [done|].
  apply not_elem_of_cons in Hc as [Hne Hc].
  rewrite filter_cons_True by done. by rewrite IH.
Qed.

(** Removing a member: exactly that member goes. *)
Lemma splice_indexOf_member l c :
  NoDup l → c ∈ l → splice l (indexOf l c) 1 = filter (λ x, x ≠ c) l.
Proof.
  induction l as [|y l IH]; intros Hnd Hc; [by apply elem_of_nil in Hc|].
  apply NoDup_cons in Hnd as [Hy Hnd].
  cbn [indexOf]. destruct (decide (y = c)) as [->|Hne].
  - rewrite filter_cons_False by (intros ?; done).
    rewrite filter_ne_notin by done.
    unfold splice; simpl. by rewrite drop_0.
  - apply elem_of_cons in Hc as [->|Hc]; [done|].
    pose proof (indexOf_in l c Hc) as Hi.
    rewrite (proj2 (Z.ltb_ge _ _)) by lia.
    rewrite splice_cons_succ by lia.
    rewrite filter_cons_True by done. by rewrite IH.
Qed.


(** ** The constructor returns and keeps the state well-formed *)

Ltac new_handle k :=
  eexists; split;
  [ cbn [constructed disposables set_disposables set_controllers set_hookMaps];
    rewrite lookup_app_r by lia;
    match goal with
    | |- context [?a - ?b] => replace (a - b) with k by lia
    end;
    reflexivity
  | done ].

Lemma wf_constructed w editor first :
  wf w → editor < length (focusOnHover w) → wf (constructed editor first w).
Proof.
  intros Hw He. pose proof Hw as [Hc Hm Hl Hi Hnd].
  assert (Hext : extends w (constructed editor first w)).
  { split; [done|]. split.
    - simpl. destruct first; rewrite ?length_app; lia.
    - intros h src l (d & Hd & ? & ?). exists d. simpl.
      split; [by apply lookup_app_l_Some|done]. }
  split; cbn [constructed Instances controllers hookMaps disposables].
  - intros c o Ho. apply lookup_app_Some in Ho as [Ho|(Hge & Ho)].
    { apply (ctrlOk_mono w); [done|]. by apply Hc. }
    apply list_lookup_singleton_Some in Ho as [Hc0 <-].
    assert (c = length (controllers w)) as -> by lia.
    destruct first; split; simpl; try done; try by eauto.
    + intros m [= <-]. rewrite length_app. simpl. lia.
    + intros h [= <-]. new_handle 0.
    + intros h [= <-]. new_handle 1.
    + intros h [= <-]. new_handle 2.
    + intros h [= <-]. new_handle 0.
  - intros m mo Hmo.
    assert (Hold : hookMaps w !! m = Some mo → mapOk (constructed editor first w) mo).
    { intros ?. apply (mapOk_mono w); [done|]. by eapply Hm. }
    destruct first; [|by apply Hold].
    apply lookup_app_Some in Hmo as [Hmo|(_ & Hmo)]; [by apply Hold|].
    apply list_lookup_singleton_Some in Hmo as [_ <-]. by split.
  - assert (Hold : ∀ l, listenerOk w l → listenerOk (constructed editor first w) l).
    { intros l. destruct l; simpl; rewrite ?length_app; simpl; try lia; try done.
      - intros (o & Ho & ?). exists o. split; [|done]. by apply lookup_app_l_Some.
      - intros (o & Ho & ?). exists o. split; [|done]. by apply lookup_app_l_Some. }
    apply Forall_app. split.
    + eapply Forall_impl; [exact Hl|]. intros d. apply Hold.
    + assert (Hnew : first = true → hasHooks (constructed editor first w) (length (controllers w))).
      { intros ->. eexists. split; [apply lookup_snoc_new|]. simpl. by eauto. }
      apply Forall_cons. split.
      { simpl. rewrite length_app. simpl. lia. }
      destruct first; [|done].
      apply Forall_cons. split; [by apply Hnew|].
      apply Forall_singleton. by apply Hnew.
  - eapply Forall_impl; [exact Hi|]. intros c Hlt. simpl in *.
    rewrite length_app. lia.
  - done.
Qed.

Lemma constructor_ok w editor :
  wf w → editor < length (focusOnHover w) →
  ∃ w3, constructor editor w
        = Some (length (controllers w),
                set_Instances (λ l, l ++ [length (controllers w)]) w3)
        ∧ wf (set_Instances (λ l, l ++ [length (controllers w)]) w3)
        ∧ onlyHooksChanged (constructed editor (bool_decide (Instances w = [])) w) w3.
Proof.
  intros Hw He.
  pose proof (wf_constructed w editor (bool_decide (Instances w = [])) Hw He) as Hw2.
  destruct (_hookEvents_ok _ (length (controllers w)) Hw2) as (w3 & E3 & Hw3 & Hch).
  { simpl. rewrite length_app. simpl. lia. }
  exists w3. split; [by apply constructor_eq|]. split; [|done].
  pose proof (onlyHooksChanged_length _ _ Hch) as Hlen.
  destruct Hch as (HI & _).
  simpl in Hlen. rewrite length_app in Hlen. simpl in Hlen.
  destruct Hw as [_ _ _ Hi Hnd].
  apply wf_set_Instances; [done| |]; rewrite HI; simpl.
  - apply Forall_app. split.
    + eapply Forall_impl; [exact Hi|]. intros c Hc. simpl in Hc. lia.
    + apply Forall_singleton. lia.
  - apply NoDup_app. split; [done|]. split; [|apply NoDup_singleton].
    intros c Hc ->%list_elem_of_singleton.
    apply (proj1 (Forall_forall _ _) Hi) in Hc. lia.
Qed.

(** ** [dispose] returns and keeps the state well-formed *)

Lemma wf_unregister w c :
  wf w → wf (set_Instances (λ l, splice l (indexOf l c) 1) w).
Proof.
  intros Hw. pose proof Hw as [_ _ _ Hi Hnd].
  apply wf_set_Instances; [done| |].
  - apply Forall_forall. intros x Hx.
    apply (sublist_subseteq _ _ (splice_sublist _ _ _)) in Hx.
    by apply (proj1 (Forall_forall _ _) Hi).
  - eapply sublist_NoDup; [exact Hnd|]. apply splice_sublist.
Qed.

Lemma wf_resigned w c hcfg hc hd :
  wf w → wf (resigned c hcfg hc hd w).
Proof.
  intros Hw. unfold resigned.
  by apply wf_disposeHandle, wf_disposeHandle, wf_unregister, wf_disposeHandle.
Qed.

Lemma wf_handoff w w0 c o other oo :
  wf w0 →
  controllers w0 = controllers w →
  hookMaps w0 = hookMaps w →
  length (disposables w0) = length (disposables w) →
  controllers w !! c = Some o →
  is_Some (_terminalHooks o) →
  controllers w !! other = Some oo →
  wf (set_controllers (alter (with_terminalHooks (Some (length (hookMaps w)))) c)
        (set_hookMaps (λ l, l ++ [mkJsMap ∅ ∅])
           (set_controllers
              (alter (λ o, with_terminalInstanceDisposedHandler
                             (Some (S (length (disposables w))))
                             (with_terminalInstanceCreatedHandler
                                (Some (length (disposables w))) o)) other)
              (set_disposables
                 (λ ds, ds ++ [mkDisposable InstanceCreated (OnTerminalCreated other) false;
                               mkDisposable InstanceDisposed (OnTerminalDisposed other) false])
                 (set_controllers (alter (with_terminalHooks (_terminalHooks o)) other)
                    w0))))).
Proof.
  intros Hw0 Hcs Hms Hlen Hc Hhooks Hoo.
  assert (Hok : ctrlOk w0 c o) by (apply (wf_lookup_controller w0 c o Hw0); by rewrite Hcs).
  assert (Hw1 : wf (set_controllers (alter (with_terminalHooks (_terminalHooks o)) other) w0)).
  { apply wf_alter_controller; [done| |done].
    intros o' _ [? ? ? ? ? ? ? ? ?]. destruct Hok as [? Hh ? ? ? ? ? ? ?].
    split; simpl; done. }
  assert (Hhas : hasHooks (set_controllers (alter (with_terminalHooks (_terminalHooks o)) other) w0)
                   other).
  { eexists. simpl. rewrite Hcs, list_lookup_alter_eq, Hoo. split; [done|]. done. }
  apply wf_alter_controller; [apply wf_newMap| |].
  - apply wf_alter_controller; [apply wf_subscribe; [done|]| |].
    + apply Forall_cons. split; [done|]. by apply Forall_singleton.
    + intros o'. simpl. rewrite Hcs, list_lookup_alter_eq, Hoo. intros [= <-].
      intros [? ? ? ? ? ? ? ? ?]. split; simpl; try done; try by eauto.
      * intros h [= <-]. new_handle 0.
      * intros h [= <-]. new_handle 1.
    + done.
  - intros o' _ [? ? ? ? ? ? ? ? ?]. split; simpl; try done; try by eauto.
    intros m [= <-]. rewrite length_app, Hms. simpl. lia.
  - by eauto.
Qed.

(** *** The election survives a disposal *)

Lemma roles_lookup (l l' : list FocusOnHoverController) c o' :
  with_editorMouseMoveHandler None <$> l' = with_editorMouseMoveHandler None <$> l →
  l' !! c = Some o' →
  ∃ o, l !! c = Some o
       ∧ _terminalInstanceCreatedHandler o = _terminalInstanceCreatedHandler o'.
Proof.
  intros H Ho'.
  apply (f_equal (λ l, l !! c)) in H. rewrite !list_lookup_fmap, Ho' in H.
  destruct (l !! c) as [o|]; simpl in H; [|done].
  exists o. split; [done|].
  assert (Heq : with_editorMouseMoveHandler None o = with_editorMouseMoveHandler None o')
    by congruence.
  by apply with_editor_fields in Heq as (_ & _ & _ & Heq & _).
Qed.

Lemma elected_roles w w' :
  Instances w' = Instances w →
  with_editorMouseMoveHandler None <$> controllers w'
  = with_editorMouseMoveHandler None <$> controllers w →
  elected w → elected w'.
Proof.
  intros HI Hroles Hel c o' Hc Ho'. rewrite HI in *.
  destruct (roles_lookup _ _ _ _ Hroles Ho') as (o & Ho & <-).
  by apply Hel.
Qed.

Lemma elected_onlyHooksChanged w w' :
  onlyHooksChanged w w' → elected w → elected w'.
Proof. intros (HI & _ & _ & Hr & _). by apply elected_roles. Qed.

Lemma head_filter_ne (l : list nat) c h :
  head l = Some h → h ≠ c → head (filter (λ x, x ≠ c) l) = Some h.
Proof.
  destruct l as [|y l]; [done|]. intros [= ->] Hne.
  by rewrite filter_cons_True.
Qed.

Lemma elected_plain w c o f :
  wf w → elected w → c ∈ Instances w →
  controllers w !! c = Some o →
  _terminalInstanceCreatedHandler o = None →
  elected (set_Instances (λ l, splice l (indexOf l c) 1) (set_disposables f w)).
Proof.
  intros Hw Hel Hc Ho Hcr c' o' Hc' Ho'. simpl in *.
  rewrite splice_indexOf_member in * by (done || by destruct Hw).
  apply list_elem_of_filter in Hc' as [Hne Hc'].
  rewrite (Hel c' o' Hc' Ho').
  destruct (head (Instances w)) as [h|] eqn:Hh.
  2:{ apply head_None in Hh. rewrite Hh in Hc. by apply elem_of_nil in Hc. }
  assert (h ≠ c).
  { intros ->. pose proof (proj2 (Hel c o Hc Ho) Hh) as [? ?]. congruence. }
  by rewrite (head_filter_ne _ _ _ Hh).
Qed.

Lemma elected_handoff w w0 c o hc other rest f g :
  wf w → elected w → c ∈ Instances w →
  controllers w !! c = Some o →
  _terminalInstanceCreatedHandler o = Some hc →
  splice (Instances w) (indexOf (Instances w) c) 1 = other :: rest →
  Instances w0 = other :: rest →
  controllers w0
  = alter f c (alter (λ o, with_terminalInstanceDisposedHandler (Some (S (length (disposables w))))
                    (with_terminalInstanceCreatedHandler (Some (length (disposables w))) o))
                 other (alter g other (controllers w))) →
  elected w0.
Proof.
  intros Hw Hel Hc Ho Hcr Hsp HI Hcs c' o' Hc' Ho'.
  rewrite HI in *. rewrite Hcs in Ho'.
  rewrite splice_indexOf_member in Hsp by (done || by destruct Hw).
  assert (Hin : c' ∈ Instances w ∧ c' ≠ c).
  { rewrite <- Hsp in Hc'. apply list_elem_of_filter in Hc'. tauto. }
  destruct Hin as [Hin Hne].
  rewrite list_lookup_alter_ne in Ho' by done.
  pose proof (proj1 (Hel c o Hc Ho)) as Hhead. rewrite Hcr in Hhead.
  specialize (Hhead (ltac:(eauto))).
  destruct (decide (other = c')) as [->|Hother].
  - rewrite list_lookup_alter_eq in Ho'.
    destruct (alter g c' (controllers w) !! c') as [o2|]; simplify_eq/=.
    split; [done|]. by eauto.
  - rewrite !list_lookup_alter_ne in Ho' by done.
    rewrite (Hel c' o' Hin Ho'). rewrite Hhead. simpl.
    split; intros [= ?]; congruence.
Qed.

(** ** Which listeners are attached *)

Lemma onlyHooksChanged_sym w w' : onlyHooksChanged w w' → onlyHooksChanged w' w.
Proof.
  intros (?&?&?&?&Hk). split_and!; try done.
  intros h d Hd. by rewrite (Hk h d Hd).
Qed.

Lemma served_onlyHooksChanged w w' :
  (∀ c o, controllers w !! c = Some o → ctrlOk w c o) →
  onlyHooksChanged w w' → served w → served w'.
Proof.
  intros Hctl Hch [Hlen Hed Hatt Hcfg Hman].
  pose proof (onlyHooksChanged_sym _ _ Hch) as Hch'.
  pose proof Hch as (HI & Hf & _ & _ & Hk).
  assert (Hback : ∀ c o', controllers w' !! c = Some o' →
            ∃ o, controllers w !! c = Some o
                 ∧ _editor o' = _editor o
                 ∧ _didChangeConfigurationHandler o' = _didChangeConfigurationHandler o
                 ∧ _terminalInstanceCreatedHandler o' = _terminalInstanceCreatedHandler o
                 ∧ _terminalInstanceDisposedHandler o' = _terminalInstanceDisposedHandler o).
  { intros c o' Ho'.
    destruct (onlyHooksChanged_lookup _ _ _ _ Hch' Ho') as (o & Ho & Heq).
    apply with_editor_fields in Heq as (? & ? & ? & ? & ?).
    exists o. split_and!; congruence. }
  assert (Hforth : ∀ c o, controllers w !! c = Some o →
            ∃ o', controllers w' !! c = Some o'
                 ∧ _editor o' = _editor o
                 ∧ _didChangeConfigurationHandler o' = _didChangeConfigurationHandler o
                 ∧ _terminalInstanceCreatedHandler o' = _terminalInstanceCreatedHandler o
                 ∧ _terminalInstanceDisposedHandler o' = _terminalInstanceDisposedHandler o).
  { intros c o Ho.
    destruct (onlyHooksChanged_lookup _ _ _ _ Hch Ho) as (o' & Ho' & Heq).
    apply with_editor_fields in Heq as (? & ? & ? & ? & ?).
    exists o'. split_and!; congruence. }
  assert (Hact : ∀ h src l, subscribed w h src l → ¬ isMouseMove src →
                            isActive w h → isActive w' h).
  { intros h src l (d & Hd & Hs & _) Hnm (d' & Hd' & Hdis).
    assert (d' = d) as -> by congruence.
    exists d. split; [|done]. apply (Hk h d); [by rewrite Hs|done]. }
  split.
  - by rewrite Hf, (onlyHooksChanged_length _ _ Hch).
  - intros c o' Ho'. destruct (Hback c o' Ho') as (o & Ho & -> & _). by eapply Hed.
  - intros h d Hd Hdis. rewrite HI.
    destruct (source d) eqn:Hs; try done.
    + apply (Hk h d) in Hd; [|rewrite Hs; by intros []].
      pose proof (Hatt h d Hd Hdis) as Ha. rewrite Hs in Ha.
      destruct Ha as (Hin & o & Ho & Hc). split; [done|].
      destruct (Hforth _ o Ho) as (o' & Ho' & _ & Hc' & _).
      exists o'. split; [done|]. congruence.
    + apply (Hk h d) in Hd; [|rewrite Hs; by intros []].
      pose proof (Hatt h d Hd Hdis) as Ha. rewrite Hs in Ha.
      destruct Ha as (c & o & Hh & Ho & Hc).
      destruct (Hforth _ o Ho) as (o' & Ho' & _ & _ & Hc' & _).
      exists c, o'. split_and!; [done|done|congruence].
    + apply (Hk h d) in Hd; [|rewrite Hs; by intros []].
      pose proof (Hatt h d Hd Hdis) as Ha. rewrite Hs in Ha.
      destruct Ha as (c & o & Hh & Ho & Hc).
      destruct (Hforth _ o Ho) as (o' & Ho' & _ & _ & _ & Hc').
      exists c, o'. split_and!; [done|done|congruence].
  - intros c o' h Hin Ho' Hc. rewrite HI in Hin.
    destruct (Hback c o' Ho') as (o & Ho & _ & Hc' & _).
    rewrite Hc' in Hc.
    destruct (Hctl c o Ho) as [_ _ _ _ _ Tcfg _ _ _].
    eapply Hact; [by apply Tcfg|by intros []|by eapply Hcfg].
  - intros c o' h Hh Ho' Hc. rewrite HI in Hh.
    destruct (Hback c o' Ho') as (o & Ho & _ & _ & Hcr & Hdi).
    rewrite Hcr, Hdi in Hc.
    destruct (Hctl c o Ho) as [_ _ _ _ _ _ _ Tcr Tdi].
    destruct Hc as [Hc|Hc].
    + eapply Hact; [by apply Tcr|by intros []|]. eapply Hman; [done|done|by left].
    + eapply Hact; [by apply Tdi|by intros []|]. eapply Hman; [done|done|by right].
Qed.

Lemma served_init : served init.
Proof. by split. Qed.

Lemma served_opened w enabled :
  wf w → served w →
  served (set_Instances (λ l, l ++ [length (controllers w)])
            (constructed (length (focusOnHover w)) (bool_decide (Instances w = []))
                         (set_focusOnHover (λ l, l ++ [enabled]) w))).
Proof.
  intros Hw [Hlen Hed Hatt Hcfg Hman].
  pose proof Hw as [_ _ _ Hi _].
  assert (Hfresh : ∀ x, x ∈ Instances w → x < length (controllers w)).
  { intros x Hx. by apply (proj1 (Forall_forall _ _) Hi). }
  assert (Hold : ∀ h, isActive w h →
            isActive (set_Instances (λ l, l ++ [length (controllers w)])
                        (constructed (length (focusOnHover w))
                                     (bool_decide (Instances w = []))
                                     (set_focusOnHover (λ l, l ++ [enabled]) w))) h).
  { intros h (d & Hd & Hdis). exists d. split; [|done]. simpl.
    by apply lookup_app_l_Some. }
  split; cbn [set_Instances constructed set_focusOnHover Instances controllers
              disposables focusOnHover hookMaps].
  - rewrite !length_app. simpl. lia.
  - intros c o Ho. apply lookup_app_Some in Ho as [Ho|(Hge & Ho)]; [by eapply Hed|].
    apply list_lookup_singleton_Some in Ho as [Hc0 <-].
    case_bool_decide; simpl; lia.
  - intros h d Hd Hdis. apply lookup_app_Some in Hd as [Hd|(Hge & Hd)].
    + pose proof (Hatt h d Hd Hdis) as Ha.
      destruct (source d) eqn:Hs; try done.
      * destruct Ha as (Hin & o & Ho & Hc). split; [apply elem_of_app; by left|].
        exists o. split; [by apply lookup_app_l_Some|done].
      * destruct Ha as (c & o & Hh & Ho & Hc).
        exists c, o. split; [|split; [by apply lookup_app_l_Some|done]].
        destruct (Instances w); [done|]. done.
      * destruct Ha as (c & o & Hh & Ho & Hc).
        exists c, o. split; [|split; [by apply lookup_app_l_Some|done]].
        destruct (Instances w); [done|]. done.
    + destruct (h - length (disposables w)) as [|[|[|k]]] eqn:Hk; simpl in Hd.
      * injection Hd as <-. simpl. rewrite Hlen. split.
        { apply elem_of_app. right. by left. }
        eexists. split; [apply lookup_snoc_new|].
        case_bool_decide; simpl; f_equal; lia.
      * case_bool_decide as HI; [|done]. injection Hd as <-. simpl.
        eexists _, _. rewrite HI. split; [done|]. split; [apply lookup_snoc_new|].
        simpl. f_equal. lia.
      * case_bool_decide as HI; [|done]. injection Hd as <-. simpl.
        eexists _, _. rewrite HI. split; [done|]. split; [apply lookup_snoc_new|].
        simpl. f_equal. lia.
      * case_bool_decide; done.
  - intros c o h Hin Ho Hc. apply elem_of_app in Hin as [Hin| ->%list_elem_of_singleton].
    + rewrite lookup_app_l in Ho by by apply Hfresh.
      apply Hold. by eapply Hcfg.
    + rewrite lookup_snoc_new in Ho. injection Ho as <-.
      assert (h = length (disposables w)) as ->.
      { case_bool_decide; simpl in Hc; congruence. }
      eexists. split.
      { simpl. by rewrite lookup_app_r, Nat.sub_diag by lia. }
      reflexivity.
  - intros c o h Hh Ho Hc.
    destruct (Instances w) as [|c0 t] eqn:HI.
    + simpl in Hh. injection Hh as <-.
      rewrite lookup_snoc_new in Ho. injection Ho as <-.
      rewrite bool_decide_eq_true_2 in * by done. simpl in Hc.
      destruct Hc as [[= <-]|[= <-]].
      * eexists. split.
        { simpl. rewrite lookup_app_r by lia.
          by replace (S (length (disposables w)) - length (disposables w)) with 1 by lia. }
        reflexivity.
      * eexists. split.
        { simpl. rewrite lookup_app_r by lia.
          by replace (S (S (length (disposables w))) - length (disposables w))
            with 2 by lia. }
        reflexivity.
    + simpl in Hh. injection Hh as <-.
      rewrite lookup_app_l in Ho by (apply Hfresh; by left).
      apply Hold. by eapply Hman.
Qed.

Lemma subscribed_inj w h src l src' l' :
  subscribed w h src l → subscribed w h src' l' → src = src' ∧ l = l'.
Proof. intros (d & Hd & <- & <-) (d' & Hd' & <- & <-). by simplify_eq. Qed.

Lemma isActive_alter_ne w h h' :
  h ≠ h' → isActive w h' →
  ∃ d, alter mark_disposed h (disposables w) !! h' = Some d ∧ disposed d = false.
Proof.
  intros Hne (d & Hd & Hdis). exists d. by rewrite list_lookup_alter_ne.
Qed.

Lemma active_alter_inv (ds : list IDisposable) h h' d :
  alter mark_disposed h ds !! h' = Some d → disposed d = false →
  h ≠ h' ∧ ds !! h' = Some d.
Proof.
  intros Hd Hdis. destruct (decide (h = h')) as [->|Hne].
  - rewrite list_lookup_alter_eq in Hd.
    destruct (ds !! h'); simplify_eq/=.
  - by rewrite list_lookup_alter_ne in Hd.
Qed.

Lemma served_plain w c o hcfg :
  wf w → elected w → served w → c ∈ Instances w →
  controllers w !! c = Some o →
  _didChangeConfigurationHandler o = Some hcfg →
  _terminalInstanceCreatedHandler o = None →
  served (set_Instances (λ l, splice l (indexOf l c) 1)
            (set_disposables (alter mark_disposed hcfg) w)).
Proof.
  intros Hw Hel [Hlen Hed Hatt Hcfg Hman] Hc Ho Hhcfg Hcr.
  pose proof Hw as [Hctl _ _ Hi Hnd].
  assert (Hhead : ∃ c0, head (Instances w) = Some c0 ∧ c0 ≠ c
                        ∧ head (filter (λ x, x ≠ c) (Instances w)) = Some c0).
  { destruct (head (Instances w)) as [c0|] eqn:Hh.
    2:{ apply head_None in Hh. rewrite Hh in Hc. by apply elem_of_nil in Hc. }
    assert (c0 ≠ c).
    { intros ->. pose proof (proj2 (Hel c o Hc Ho) Hh) as [? ?]. congruence. }
    exists c0. split; [done|]. split; [done|]. by apply head_filter_ne. }
  destruct Hhead as (c0 & Hh0 & Hne0 & Hhf).
  split; cbn [set_Instances set_disposables Instances controllers disposables focusOnHover];
    rewrite ?splice_indexOf_member by done.
  - done.
  - done.
  - intros h d Hd Hdis. apply active_alter_inv in Hd as [Hne Hd]; [|done].
    pose proof (Hatt h d Hd Hdis) as Ha.
    destruct (source d) eqn:Hs; try done.
    + destruct Ha as (Hin & oe & Hoe & Hce). split; [|by eauto].
      apply list_elem_of_filter. split; [|done].
      intros ->. rewrite Ho in Hoe. injection Hoe as <-. congruence.
    + destruct Ha as (c1 & o1 & Hh1 & Ho1 & Hc1).
      exists c1, o1. split; [congruence|done].
    + destruct Ha as (c1 & o1 & Hh1 & Ho1 & Hc1).
      exists c1, o1. split; [congruence|done].
  - intros c' o' h Hin Ho' Hc'. apply list_elem_of_filter in Hin as [Hne Hin].
    apply isActive_alter_ne; [|by eapply Hcfg].
    intros <-.
    destruct (subscribed_inj w hcfg _ _ _ _
                (ty_config w c o (Hctl c o Ho) hcfg Hhcfg)
                (ty_config w c' o' (Hctl c' o' Ho') hcfg Hc')) as [_ [= ->]].
    done.
  - intros c' o' h Hh Ho' Hc'. rewrite Hhf in Hh. injection Hh as <-.
    apply isActive_alter_ne; [|by eapply Hman].
    intros <-.
    pose proof (ty_config w c o (Hctl c o Ho) hcfg Hhcfg) as T1.
    destruct Hc' as [Hc'|Hc'].
    + by destruct (subscribed_inj w hcfg _ _ _ _ T1
                     (ty_created w c0 o' (Hctl c0 o' Ho') hcfg Hc')) as [[=] _].
    + by destruct (subscribed_inj w hcfg _ _ _ _ T1
                     (ty_disposed w c0 o' (Hctl c0 o' Ho') hcfg Hc')) as [[=] _].
Qed.

Lemma served_last w c o hcfg hc hd f hooks :
  wf w → elected w → served w → c ∈ Instances w →
  controllers w !! c = Some o →
  _didChangeConfigurationHandler o = Some hcfg →
  _terminalInstanceCreatedHandler o = Some hc →
  _terminalInstanceDisposedHandler o = Some hd →
  splice (Instances w) (indexOf (Instances w) c) 1 = [] →
  served (set_hookMaps f (set_disposables (disposeAll hooks) (resigned c hcfg hc hd w))).
Proof.
  intros Hw Hel [Hlen Hed Hatt Hcfg Hman] Hc Ho Hhcfg Hcr Hdi Hsp.
  pose proof Hw as [_ _ _ _ Hnd].
  assert (Honly : ∀ x, x ∈ Instances w → x = c).
  { intros x Hx. destruct (decide (x = c)) as [|Hne]; [done|].
    rewrite splice_indexOf_member in Hsp by done.
    assert (x ∈ filter (λ y, y ≠ c) (Instances w)) as Hin
      by (by apply list_elem_of_filter).
    rewrite Hsp in Hin. by apply elem_of_nil in Hin. }
  split; unfold resigned;
    cbn [set_hookMaps set_Instances set_disposables Instances controllers disposables
         focusOnHover]; rewrite ?Hsp.
  - done.
  - done.
  - intros h d Hd Hdis.
    change (disposeAll (hcfg :: hc :: hd :: hooks) (disposables w) !! h = Some d) in Hd.
    rewrite disposeAll_lookup in Hd.
    destruct (disposables w !! h) as [d0|] eqn:Hd0; [|done]. simpl in Hd.
    injection Hd as <-. case_decide as Hin; [done|]. simpl in *.
    pose proof (Hatt h d0 Hd0 Hdis) as Ha.
    destruct (source d0) eqn:Hs; try done; exfalso; apply Hin.
    + destruct Ha as (Hine & oe & Hoe & Hce).
      apply Honly in Hine as ->. rewrite Ho in Hoe. injection Hoe as <-.
      rewrite !elem_of_cons. left. congruence.
    + destruct Ha as (c1 & o1 & Hh1 & Ho1 & Hc1).
      apply head_Some_elem_of, Honly in Hh1 as ->.
      rewrite Ho in Ho1. injection Ho1 as <-.
      rewrite !elem_of_cons. right. left. congruence.
    + destruct Ha as (c1 & o1 & Hh1 & Ho1 & Hc1).
      apply head_Some_elem_of, Honly in Hh1 as ->.
      rewrite Ho in Ho1. injection Ho1 as <-.
      rewrite !elem_of_cons. right. right. left. congruence.
  - intros c' o' h Hin. by apply elem_of_nil in Hin.
  - done.
Qed.

Lemma served_handoff w w1 c o hcfg hc hd other rest oo v1 v3 :
  wf w → elected w → served w → c ∈ Instances w →
  controllers w !! c = Some o →
  _didChangeConfigurationHandler o = Some hcfg →
  _terminalInstanceCreatedHandler o = Some hc →
  _terminalInstanceDisposedHandler o = Some hd →
  splice (Instances w) (indexOf (Instances w) c) 1 = other :: rest →
  controllers w !! other = Some oo →
  Instances w1 = other :: rest →
  focusOnHover w1 = focusOnHover w →
  controllers w1
  = alter (with_terminalHooks v3) c
      (alter (λ o, with_terminalInstanceDisposedHandler (Some (S (length (disposables w))))
                     (with_terminalInstanceCreatedHandler (Some (length (disposables w))) o))
             other (alter (with_terminalHooks v1) other (controllers w))) →
  disposables w1
  = disposeAll [hcfg; hc; hd] (disposables w)
    ++ [mkDisposable InstanceCreated (OnTerminalCreated other) false;
        mkDisposable InstanceDisposed (OnTerminalDisposed other) false] →
  served w1.
Proof.
  intros Hw Hel [Hlen Hed Hatt Hcfg Hman] Hc Ho Hhcfg Hcr Hdi Hsp Hoo HI Hf Hcs Hds.
  pose proof Hw as [Hctl _ _ _ Hnd].
  rewrite splice_indexOf_member in Hsp by done.
  assert (Hmem : ∀ x, x ∈ other :: rest ↔ x ∈ Instances w ∧ x ≠ c).
  { intros x. rewrite <- Hsp, list_elem_of_filter. tauto. }
  assert (Hoc : other ≠ c) by (apply Hmem; by left).
  assert (Hhead : head (Instances w) = Some c).
  { apply (Hel c o Hc Ho). by rewrite Hcr. }
  assert (Hother : controllers w1 !! other
                   = Some (with_terminalInstanceDisposedHandler
                             (Some (S (length (disposables w))))
                             (with_terminalInstanceCreatedHandler
                                (Some (length (disposables w)))
                                (with_terminalHooks v1 oo)))).
  { rewrite Hcs, list_lookup_alter_ne, !list_lookup_alter_eq, Hoo by done. done. }
  assert (Hrest : ∀ x, x ≠ c → x ≠ other → controllers w1 !! x = controllers w !! x).
  { intros x ? ?. by rewrite Hcs, !list_lookup_alter_ne by done. }
  assert (Hself : controllers w1 !! c = Some (with_terminalHooks v3 o)).
  { by rewrite Hcs, list_lookup_alter_eq, !list_lookup_alter_ne, Ho by done. }
  (* every controller keeps its editor and its configuration handler *)
  assert (Hback : ∀ x o', controllers w1 !! x = Some o' →
            ∃ o0, controllers w !! x = Some o0 ∧ _editor o' = _editor o0
                  ∧ _didChangeConfigurationHandler o' = _didChangeConfigurationHandler o0).
  { intros x o' Hx. destruct (decide (x = c)) as [->|Hxc].
    { rewrite Hself in Hx. injection Hx as <-. by exists o. }
    destruct (decide (x = other)) as [->|Hxo].
    { rewrite Hother in Hx. injection Hx as <-. by exists oo. }
    rewrite Hrest in Hx by done. by exists o'. }
  assert (Hforth : ∀ x o0, controllers w !! x = Some o0 →
            ∃ o', controllers w1 !! x = Some o'
                  ∧ _didChangeConfigurationHandler o' = _didChangeConfigurationHandler o0).
  { intros x o0 Hx. destruct (decide (x = c)) as [->|Hxc].
    { rewrite Ho in Hx. injection Hx as <-. by eexists. }
    destruct (decide (x = other)) as [->|Hxo].
    { rewrite Hoo in Hx. injection Hx as <-. by eexists. }
    exists o0. by rewrite Hrest. }
  (* the three disposed handles belong to [c] *)
  pose proof (ty_config w c o (Hctl c o Ho) hcfg Hhcfg) as T1.
  pose proof (ty_created w c o (Hctl c o Ho) hc Hcr) as T2.
  pose proof (ty_disposed w c o (Hctl c o Ho) hd Hdi) as T3.
  assert (Hkeep : ∀ h x ox, x ≠ c → controllers w !! x = Some ox →
            _didChangeConfigurationHandler ox = Some h →
            isActive w h → isActive w1 h).
  { intros h x ox Hxc Hx Hcx (d & Hd & Hdis). exists d. split; [|done].
    rewrite Hds, lookup_app_l by (rewrite disposeAll_length; by eapply lookup_lt_Some).
    rewrite disposeAll_lookup, Hd. case_decide as Hin; [|done]. exfalso.
    pose proof (ty_config w x ox (Hctl x ox Hx) h Hcx) as Tx.
    rewrite !elem_of_cons in Hin. destruct Hin as [->|[->|[->|Hin]]].
    - by destruct (subscribed_inj w hcfg _ _ _ _ T1 Tx) as [_ [= ->]].
    - by destruct (subscribed_inj w hc _ _ _ _ T2 Tx) as [[=] _].
    - by destruct (subscribed_inj w hd _ _ _ _ T3 Tx) as [[=] _].
    - by apply elem_of_nil in Hin. }
  assert (Hnew : ∀ k d, [mkDisposable InstanceCreated (OnTerminalCreated other) false;
                         mkDisposable InstanceDisposed (OnTerminalDisposed other) false]
                        !! k = Some d →
                 disposables w1 !! (length (disposables w) + k) = Some d).
  { intros k d Hk. rewrite Hds, lookup_app_r by (rewrite disposeAll_length; lia).
    rewrite disposeAll_length. by replace (length (disposables w) + k - length (disposables w))
      with k by lia. }
  split.
  - rewrite Hf, Hcs, !length_alter. done.
  - intros x o' Hx. destruct (Hback x o' Hx) as (o0 & Hx0 & -> & _). by eapply Hed.
  - intros h d Hd Hdis. rewrite HI. rewrite Hds in Hd.
    apply lookup_app_Some in Hd as [Hd|(Hge & Hd)].
    + rewrite disposeAll_lookup in Hd.
      destruct (disposables w !! h) as [d0|] eqn:Hd0; [|done]. simpl in Hd.
      injection Hd as <-. case_decide as Hin; [done|]. simpl in *.
      pose proof (Hatt h d0 Hd0 Hdis) as Ha.
      destruct (source d0) eqn:Hs; try done.
      * destruct Ha as (Hine & oe & Hoe & Hce).
        assert (editor ≠ c).
        { intros ->. rewrite Ho in Hoe. injection Hoe as <-.
          apply Hin. rewrite !elem_of_cons. left. congruence. }
        split; [by apply Hmem|].
        destruct (Hforth _ oe Hoe) as (o' & Ho' & Hc'). exists o'. split; [done|]. congruence.
      * exfalso. destruct Ha as (c1 & o1 & Hh1 & Ho1 & Hc1).
        assert (c1 = c) as -> by congruence.
        rewrite Ho in Ho1. injection Ho1 as <-.
        apply Hin. rewrite !elem_of_cons. right. left. congruence.
      * exfalso. destruct Ha as (c1 & o1 & Hh1 & Ho1 & Hc1).
        assert (c1 = c) as -> by congruence.
        rewrite Ho in Ho1. injection Ho1 as <-.
        apply Hin. rewrite !elem_of_cons. right. right. left. congruence.
    + rewrite disposeAll_length in Hge, Hd.
      destruct (h - length (disposables w)) as [|[|k]] eqn:Hk; simpl in Hd; [| |done].
      * injection Hd as <-. simpl. eexists _, _. split; [done|]. split; [exact Hother|].
        simpl. f_equal. lia.
      * injection Hd as <-. simpl. eexists _, _. split; [done|]. split; [exact Hother|].
        simpl. f_equal. lia.
  - intros x o' h Hin Hx Hcx. rewrite HI in Hin. apply Hmem in Hin as [Hin Hxc].
    destruct (Hback x o' Hx) as (o0 & Hx0 & _ & Hc0).
    eapply (Hkeep h x o0); [done|done|congruence|]. eapply Hcfg; [done|done|congruence].
  - intros x o' h Hh Hx Hcx. rewrite HI in Hh. injection Hh as <-.
    rewrite Hother in Hx. injection Hx as <-. simpl in Hcx.
    destruct Hcx as [[= <-]|[= <-]].
    + exists (mkDisposable InstanceCreated (OnTerminalCreated other) false).
      split; [|done].
      rewrite <- (Nat.add_0_r (length (disposables w))). by apply (Hnew 0).
    + exists (mkDisposable InstanceDisposed (OnTerminalDisposed other) false).
      split; [|done].
      replace (S (length (disposables w))) with (length (disposables w) + 1) by lia.
      by apply (Hnew 1).
Qed.

Lemma dispose_ok w c :
  wf w → c < length (controllers w) →
  ∃ w1 w', releaseTerminals c w = Some (tt, w1)
           ∧ _unhookEvents c w1 = Some (tt, w')
           ∧ dispose c w = Some (tt, w')
           ∧ wf w1 ∧ wf w' ∧ onlyHooksChanged w1 w'
           ∧ Instances w1 = splice (Instances w) (indexOf (Instances w) c) 1
           ∧ length (controllers w1) = length (controllers w)
           ∧ (c ∈ Instances w → elected w → elected w1)
           ∧ (c ∈ Instances w → elected w → served w → served w1).
Proof.
  intros Hw Hlt.
  destruct (lookup_lt_is_Some_2 _ _ Hlt) as [o Ho].
  pose proof (wf_lookup_controller w c o Hw Ho) as Hok.
  destruct Hok as [_ _ Hman [hcfg Hcfg] Hdis _ _ _ _].
  assert (Hfin : ∀ w1, releaseTerminals c w = Some (tt, w1) → wf w1 →
                 length (controllers w1) = length (controllers w) →
                 Instances w1 = splice (Instances w) (indexOf (Instances w) c) 1 →
                 (c ∈ Instances w → elected w → elected w1) →
                 (c ∈ Instances w → elected w → served w → served w1) →
                 ∃ w1 w', releaseTerminals c w = Some (tt, w1)
                   ∧ _unhookEvents c w1 = Some (tt, w')
                   ∧ dispose c w = Some (tt, w')
                   ∧ wf w1 ∧ wf w' ∧ onlyHooksChanged w1 w'
                   ∧ Instances w1 = splice (Instances w) (indexOf (Instances w) c) 1
                   ∧ length (controllers w1) = length (controllers w)
                   ∧ (c ∈ Instances w → elected w → elected w1)
                   ∧ (c ∈ Instances w → elected w → served w → served w1)).
  { intros w1 E1 Hw1 Hlen HI Hel Hsv.
    destruct (_unhookEvents_ok w1 c Hw1) as (w' & E' & Hw' & Hch); [by rewrite Hlen|].
    exists w1, w'. split_and!; try done.
    unfold dispose. by erewrite bind_eq by exact E1. }
  destruct (_terminalInstanceCreatedHandler o) as [hc|] eqn:Hcr.
  - destruct Hman as [m Hm]; [done|]. destruct Hdis as [hd Hd]; [done|].
    destruct (wf_lookup_map w c o m Hw Ho Hm) as (mo & Hmo & Hent).
    destruct (splice (Instances w) (indexOf (Instances w) c) 1) as [|other rest] eqn:Hsp.
    + eapply Hfin; [by eapply releaseTerminals_last| | | | |].
      * apply wf_insert_map; [by apply wf_disposeAll, wf_resigned|].
        apply mapOk_cleared.
        by apply (wf_lookup_mapOk _ m), Hmo; apply wf_disposeAll, wf_resigned.
      * done.
      * by simpl.
      * intros _ _ c' o' Hc'. simpl in Hc'. rewrite Hsp in Hc'.
        by apply elem_of_nil in Hc'.
      * intros Hc Hel Hsv. by eapply served_last.
    + assert (Hother : other < length (controllers w)).
      { destruct Hw as [_ _ _ Hi _].
        apply (proj1 (Forall_forall _ _) Hi).
        apply (sublist_subseteq _ _ (splice_sublist _ (indexOf (Instances w) c) 1)).
        rewrite Hsp. by left. }
      destruct (lookup_lt_is_Some_2 _ _ Hother) as [oo Hoo].
      eapply Hfin; [by eapply releaseTerminals_handoff| | | | |].
      * apply (wf_handoff w (resigned c hcfg hc hd w) c o other oo);
          [by apply wf_resigned|done|done| |done|by rewrite Hm|done].
        simpl. by rewrite !length_alter.
      * simpl. by rewrite !length_alter.
      * by simpl.
      * intros Hc Hel. by eapply (elected_handoff w _ c o hc other rest).
      * intros Hc Hel Hsv.
        by eapply (served_handoff w _ c o hcfg hc hd other rest oo).
  - eapply Hfin; [by eapply releaseTerminals_plain| | | | |].
    + by apply wf_unregister, wf_disposeHandle.
    + done.
    + done.
    + intros Hc Hel. by eapply elected_plain.
    + intros Hc Hel Hsv. by eapply served_plain.
Qed.

Lemma elected_constructed w editor :
  wf w → elected w →
  elected (set_Instances (λ l, l ++ [length (controllers w)])
             (constructed editor (bool_decide (Instances w = [])) w)).
Proof.
  intros [_ _ _ Hi _] Hel c' o'. cbn [Instances controllers set_Instances constructed].
  intros Hc' Ho'.
  assert (Hfresh : ∀ x, x ∈ Instances w → x ≠ length (controllers w)).
  { intros x Hx ->. apply (proj1 (Forall_forall _ _) Hi) in Hx. lia. }
  apply elem_of_app in Hc' as [Hc'| ->%list_elem_of_singleton].
  - pose proof (proj1 (Forall_forall _ _) Hi _ Hc') as Hlt. simpl in Hlt.
    rewrite lookup_app_l in Ho' by done.
    rewrite (Hel c' o' Hc' Ho').
    destruct (Instances w) as [|h t]; [by apply elem_of_nil in Hc'|]. done.
  - rewrite lookup_snoc_new in Ho'. injection Ho' as <-.
    case_bool_decide as HI.
    + rewrite HI. simpl. split; [done|]. by eauto.
    + simpl. destruct (Instances w) as [|h t] eqn:E; [done|]. simpl.
      split; [by intros ?%is_Some_None|]. intros [= Hh].
      exfalso. apply (Hfresh h); [by left|done].
Qed.

(** ** One host action *)

Lemma dispose_throw w c : controllers w !! c = None → dispose c w = None.
Proof.
  intros Hc. unfold dispose, releaseTerminals, getController.
  apply bind_throw, bind_throw.
  erewrite bind_eq by reflexivity. by rewrite Hc.
Qed.

Lemma perform_ok w a :
  wf w →
  (∀ c, a = CloseEditor c → c < length (controllers w)) →
  ∃ w', perform a w = Some (tt, w')
        ∧ wf w'
        ∧ ((∀ c, a = CloseEditor c → c ∈ Instances w) →
           elected w →
           elected w'
           ∧ (length (controllers w'), Instances w')
             = track (length (controllers w), Instances w) a).
Proof.
  intros Hw Hvalid. destruct a as [enabled|c|editor contribInfo enabled|t|t]; cbn [perform track].
  - (* OpenEditor *)
    set (w0 := set_focusOnHover (λ l, l ++ [enabled]) w).
    assert (Hw0 : wf w0).
    { apply wf_set_focusOnHover; [done|]. rewrite length_app. lia. }
    destruct (constructor_ok w0 (length (focusOnHover w)) Hw0) as (w3 & E & Hw3 & Hch).
    { simpl. rewrite length_app. simpl. lia. }
    eexists. split.
    { mpure. mpure. erewrite bind_eq by exact E. reflexivity. }
    split; [done|]. intros _ Hel. split.
    + eapply (elected_roles
                (set_Instances (λ l, l ++ [length (controllers w0)])
                   (constructed (length (focusOnHover w))
                                (bool_decide (Instances w0 = [])) w0))).
      * destruct Hch as (HI & _). cbn [Instances set_Instances]. by rewrite HI.
      * by destruct Hch as (_ & _ & _ & Hr & _).
      * by apply (elected_constructed w0).
    + simpl. rewrite (onlyHooksChanged_length _ _ Hch).
      destruct Hch as (-> & _). simpl. rewrite length_app. simpl.
      f_equal. lia.
  - (* CloseEditor *)
    destruct (dispose_ok w c Hw)
      as (w1 & w' & _ & _ & E & Hw1 & Hw' & Hch & HI & Hlen & Hel1 & _);
      [by apply Hvalid|].
    exists w'. split; [done|]. split; [done|]. intros Hlive Hel.
    specialize (Hlive c eq_refl).
    split; [by eapply elected_onlyHooksChanged, Hel1|].
    rewrite (onlyHooksChanged_length _ _ Hch).
    destruct Hch as (-> & _). rewrite HI.
    rewrite splice_indexOf_member by (done || by destruct Hw).
    simpl. by rewrite Hlen.
  - (* ChangeConfiguration *)
    set (w0 := if contribInfo then set_focusOnHover (<[editor := enabled]>) w else w).
    assert (Hw0 : wf w0).
    { unfold w0. destruct contribInfo; [|done].
      apply wf_set_focusOnHover; [done|]. by rewrite length_insert. }
    destruct (fireConfigurationChanged_ok w0 editor contribInfo Hw0) as (w' & E & Hw' & Hch).
    exists w'. split.
    { unfold w0 in E. destruct contribInfo; erewrite bind_eq by reflexivity; exact E. }
    split; [done|]. intros _ Hel. split.
    + eapply elected_onlyHooksChanged; [exact Hch|].
      unfold w0. by destruct contribInfo.
    + rewrite (onlyHooksChanged_length _ _ Hch). destruct Hch as (-> & _).
      unfold w0. by destruct contribInfo.
  - (* CreateTerminal *)
    set (w0 := set_terminalInstances (λ l, l ++ [t]) w).
    destruct (fireInstanceCreated_ok w0 t) as (w' & E & Hw' & Hch);
      [by apply wf_set_terminalInstances|].
    exists w'. split; [by erewrite bind_eq by reflexivity|].
    split; [done|]. intros _ Hel. split.
    + by eapply elected_onlyHooksChanged; [exact Hch|].
    + rewrite (onlyHooksChanged_length _ _ Hch). by destruct Hch as (-> & _).
  - (* DisposeTerminal *)
    set (w0 := set_terminalInstances (filter (λ x, x ≠ t)) w).
    destruct (fireInstanceDisposed_ok w0 t) as (w' & E & Hw' & Hch);
      [by apply wf_set_terminalInstances|].
    exists w'. split; [by erewrite bind_eq by reflexivity|].
    split; [done|]. intros _ Hel. split.
    + by eapply elected_onlyHooksChanged; [exact Hch|].
    + rewrite (onlyHooksChanged_length _ _ Hch). by destruct Hch as (-> & _).
Qed.

(** ** Sequences of host actions *)

Lemma run_disciplined tr : ∀ w,
  wf w → elected w →
  disciplinedFrom (length (controllers w), Instances w) tr →
  ∃ w', run tr w = Some w' ∧ wf w' ∧ elected w'
        ∧ (length (controllers w'), Instances w')
          = foldl track (length (controllers w), Instances w) tr.
Proof.
  induction tr as [|a tr IH]; intros w Hw Hel Hd.
  - exists w. done.
  - destruct Hd as [Ha Hd].
    destruct (perform_ok w a Hw) as (w1 & E1 & Hw1 & Hinv).
    { intros c ->. simpl in Ha. destruct Hw as [_ _ _ Hi _].
      by apply (proj1 (Forall_forall _ _) Hi). }
    destruct Hinv as [Hel1 Htr]; [by intros c ->|done|].
    rewrite <- Htr in Hd.
    destruct (IH w1 Hw1 Hel1 Hd) as (w' & E' & Hw' & Hel' & Htr').
    exists w'. split; [by simpl; rewrite E1|].
    split; [done|]. split; [done|].
    simpl. by rewrite <- Htr.
Qed.

Lemma wf_init : wf init.
Proof. split; simpl; try done. apply NoDup_nil_2. Qed.

Lemma elected_init : elected init.
Proof. intros c o Hc. by apply elem_of_nil in Hc. Qed.

(** Whatever the host does, the state stays well-formed. *)
Lemma run_wf tr : ∀ w w', wf w → run tr w = Some w' → wf w'.
Proof.
  induction tr as [|a tr IH]; intros w w' Hw Hrun.
  - simpl in Hrun. by injection Hrun as <-.
  - simpl in Hrun.
    destruct (perform a w) as [[[] w1]|] eqn:E1; [|done].
    apply (IH w1 w'); [|done].
    destruct (perform_ok w a Hw) as (w1' & E1' & Hw1 & _).
    { intros c ->. simpl in E1.
      destruct (controllers w !! c) eqn:Ec; [by eapply lookup_lt_Some|].
      by rewrite dispose_throw in E1. }
    congruence.
Qed.

Lemma filter_elected w l :
  NoDup l →
  (∀ c, c ∈ l → (managesTerminals w c ↔ head l = Some c)) →
  filter (λ c, managesTerminals w c) l = option_list (head l).
Proof.
  destruct l as [|h t]; intros Hnd Hel; [done|].
  apply NoDup_cons in Hnd as [Hh Hnd].
  rewrite filter_cons_True by (apply Hel; [by left|done]).
  simpl. f_equal.
  assert (Hno : ∀ c, c ∈ t → ¬ managesTerminals w c).
  { intros c Hc Hm. apply Hel in Hm; [|by right].
    simpl in Hm. injection Hm as ->. done. }
  clear -Hno. induction t as [|c t IH]; [done|].
  rewrite filter_cons_False by (apply Hno; by left).
  apply IH. intros c' Hc'. apply Hno. by right.
Qed.

Lemma managesTerminals_spec w c o :
  controllers w !! c = Some o →
  managesTerminals w c ↔ is_Some (_terminalInstanceCreatedHandler o).
Proof.
  intros Ho. unfold managesTerminals. rewrite Ho.
  by rewrite bool_decide_spec.
Qed.

(** ** Registry and election *)

(** C8: after any sequence of host actions in which [dispose] is only called
    on live controllers, the registry is exactly the list of live controllers
    in creation order: a construction appends the new controller, a disposal
    removes the disposed one and nothing else. *)
Theorem registry_mirrors_live tr :
  disciplined tr →
  ∃ w, run tr init = Some w ∧ Instances w = liveAfter tr.
Proof.
  intros Hd.
  destruct (run_disciplined tr init wf_init elected_init Hd) as (w & E & _ & _ & Htr).
  exists w. split; [done|]. unfold liveAfter. simpl in Htr. by rewrite <- Htr.
Qed.

Lemma registry_mirrors_live_witness :
  ∃ w, run [OpenEditor true; OpenEditor false; CreateTerminal 7; CloseEditor 0;
            OpenEditor true; CloseEditor 2] init = Some w
       ∧ Instances w
         = liveAfter [OpenEditor true; OpenEditor false; CreateTerminal 7; CloseEditor 0;
                      OpenEditor true; CloseEditor 2].
Proof.
  apply registry_mirrors_live.
  unfold disciplined. simpl. repeat split; set_solver.
Defined.

(** C1: at every point of such a sequence, the live controllers that manage
    the terminals are: the first live controller when there is one, and none
    otherwise.  So exactly one live controller holds the role whenever a live
    controller exists. *)
Theorem one_live_terminal_manager tr :
  disciplined tr →
  ∃ w, run tr init = Some w
       ∧ filter (λ c, managesTerminals w c) (liveAfter tr) = option_list (head (liveAfter tr)).
Proof.
  intros Hd.
  destruct (run_disciplined tr init wf_init elected_init Hd) as (w & E & Hw & Hel & Htr).
  exists w. split; [done|].
  assert (HI : Instances w = liveAfter tr).
  { unfold liveAfter. simpl in Htr. by rewrite <- Htr. }
  rewrite <- HI. apply filter_elected; [by destruct Hw|].
  intros c Hc.
  destruct Hw as [_ _ _ Hi _].
  destruct (lookup_lt_is_Some_2 (controllers w) c) as [o Ho].
  { by apply (proj1 (Forall_forall _ _) Hi). }
  rewrite (managesTerminals_spec w c o Ho). by apply Hel.
Qed.

Lemma one_live_terminal_manager_witness :
  ∃ w, run [OpenEditor true; OpenEditor false; CloseEditor 0; OpenEditor true] init = Some w
       ∧ filter (λ c, managesTerminals w c)
                (liveAfter [OpenEditor true; OpenEditor false; CloseEditor 0; OpenEditor true])
         = option_list
             (head (liveAfter [OpenEditor true; OpenEditor false; CloseEditor 0;
                               OpenEditor true])).
Proof.
  apply one_live_terminal_manager.
  unfold disciplined. simpl. repeat split; set_solver.
Defined.




(** ** What disposing handles does to the subscription store *)

(** Disposing handles attached to other events leaves the listeners of
    [src] as they are. *)
Lemma filter_attached_disposeAll src hs ds :
  (∀ h d, h ∈ hs → ds !! h = Some d → source d ≠ src) →
  filter (attached src) (disposeAll hs ds) = filter (attached src) ds.
Proof.
  intros Hsrc.
  assert (Hpt : ∀ i, (disposeAll hs ds) !! i = ds !! i
                      ∨ ∃ d, ds !! i = Some d ∧ (disposeAll hs ds) !! i = Some (mark_disposed d)
                             ∧ source d ≠ src).
  { intros i. rewrite disposeAll_lookup. case_decide as Hin.
    - destruct (ds !! i) as [d|] eqn:E; [|by left].
      right. exists d. split; [done|]. split; [done|]. by eapply Hsrc.
    - left. by destruct (ds !! i). }
  pose proof (disposeAll_length hs ds) as Hlen.
  revert Hpt Hlen. generalize (disposeAll hs ds) as ds'. clear Hsrc.
  induction ds as [|d ds IH]; intros [|d' ds'] Hpt Hlen; try done.
  injection Hlen as Hlen.
  assert (Htl : filter (attached src) ds' = filter (attached src) ds).
  { apply IH; [|done]. intros i. apply (Hpt (S i)). }
  destruct (Hpt 0) as [Heq|(d0 & Hd0 & Hd' & Hne)]; simpl in *.
  - injection Heq as ->. by rewrite !filter_cons, Htl.
  - injection Hd0 as ->. injection Hd' as ->.
    rewrite !filter_cons_False, Htl; [done| |]; unfold attached; simpl; tauto.
Qed.

Lemma alter_same {A} (f : A → A) (l : list A) i x :
  l !! i = Some x → f x = x → alter f i l = l.
Proof.
  intros Hi Hf. apply list_eq. intros j.
  destruct (decide (i = j)) as [->|].
  - by rewrite list_lookup_alter_eq, Hi; simpl; rewrite Hf.
  - by rewrite list_lookup_alter_ne.
Qed.

Lemma managesTerminals_alter_editor w w' v c :
  controllers w' = alter (with_editorMouseMoveHandler v) c (controllers w) →
  ∀ c', managesTerminals w' c' = managesTerminals w c'.
Proof.
  intros Hcs c'. unfold managesTerminals. rewrite Hcs.
  destruct (decide (c = c')) as [->|].
  - rewrite list_lookup_alter_eq. by destruct (controllers w !! c').
  - by rewrite list_lookup_alter_ne.
Qed.

(** ** Disposing a controller that does not manage the terminals *)

(** C10: when a controller without the terminal-manager role is disposed,
    the only subscriptions that get disposed are its own configuration-change
    subscription and, if present, its own editor mouse-move subscription.
    The Map objects, every other controller, the role assignment, and every
    subscription to another event (terminal created, terminal disposed,
    terminal mouse move) are exactly as before. *)
Theorem dispose_non_manager_frame tr w c o :
  run tr init = Some w →
  controllers w !! c = Some o →
  _terminalInstanceCreatedHandler o = None →
  ∃ hcfg w',
    _didChangeConfigurationHandler o = Some hcfg
    ∧ dispose c w = Some (tt, w')
    ∧ subscribed w hcfg (EditorConfiguration (_editor o)) (ConfigurationChanged c)
    ∧ (∀ he, _editorMouseMoveHandler o = Some he →
             subscribed w he (EditorMouseMove (_editor o)) (OnEditorMouseMove c))
    ∧ disposables w'
      = disposeAll (hcfg :: option_list (_editorMouseMoveHandler o)) (disposables w)
    ∧ hookMaps w' = hookMaps w
    ∧ controllers w' = alter (with_editorMouseMoveHandler None) c (controllers w)
    ∧ (∀ c', managesTerminals w' c' = managesTerminals w c')
    ∧ (∀ h d, disposables w !! h = Some d →
              source d ≠ EditorConfiguration (_editor o) →
              source d ≠ EditorMouseMove (_editor o) →
              disposables w' !! h = Some d).
Proof.
  intros Hrun Ho Hcr.
  pose proof (run_wf tr init w wf_init Hrun) as Hw.
  destruct (wf_lookup_controller w c o Hw Ho) as [_ _ _ [hcfg Hcfg] _ Tcfg Ted _ _].
  pose proof (releaseTerminals_plain w c o hcfg Ho Hcfg Hcr) as E1.
  set (w1 := set_Instances (λ l, splice l (indexOf l c) 1)
               (set_disposables (alter mark_disposed hcfg) w)) in E1.
  assert (Hfin : ∀ w', _unhookEvents c w1 = Some (tt, w') →
            disposables w'
            = disposeAll (hcfg :: option_list (_editorMouseMoveHandler o)) (disposables w) →
            hookMaps w' = hookMaps w →
            controllers w' = alter (with_editorMouseMoveHandler None) c (controllers w) →
            ∃ hcfg w',
              _didChangeConfigurationHandler o = Some hcfg
              ∧ dispose c w = Some (tt, w')
              ∧ subscribed w hcfg (EditorConfiguration (_editor o)) (ConfigurationChanged c)
              ∧ (∀ he, _editorMouseMoveHandler o = Some he →
                       subscribed w he (EditorMouseMove (_editor o)) (OnEditorMouseMove c))
              ∧ disposables w'
                = disposeAll (hcfg :: option_list (_editorMouseMoveHandler o)) (disposables w)
              ∧ hookMaps w' = hookMaps w
              ∧ controllers w' = alter (with_editorMouseMoveHandler None) c (controllers w)
              ∧ (∀ c', managesTerminals w' c' = managesTerminals w c')
              ∧ (∀ h d, disposables w !! h = Some d →
                        source d ≠ EditorConfiguration (_editor o) →
                        source d ≠ EditorMouseMove (_editor o) →
                        disposables w' !! h = Some d)).
  { intros w' E2 Hds Hms Hcs. exists hcfg, w'.
    split; [done|]. split.
    { unfold dispose. by erewrite bind_eq by exact E1. }
    split; [by apply Tcfg|]. split; [done|]. split; [done|]. split; [done|].
    split; [done|]. split; [by eapply managesTerminals_alter_editor|].
    intros h d Hd Hn1 Hn2. rewrite Hds, disposeAll_lookup, Hd.
    case_decide as Hin; [|done]. exfalso.
    apply elem_of_cons in Hin as [->|Hin].
    - destruct (Tcfg hcfg Hcfg) as (d' & Hd' & Hs & _). congruence.
    - destruct (_editorMouseMoveHandler o) as [he|] eqn:He; [|by apply elem_of_nil in Hin].
      apply list_elem_of_singleton in Hin as ->.
      destruct (Ted he eq_refl) as (d' & Hd' & Hs & _). congruence. }
  destruct (_editorMouseMoveHandler o) as [he|] eqn:He.
  - eapply Hfin; [by eapply _unhookEvents_editor|done..].
  - eapply Hfin; [by eapply _unhookEvents_idle|done|done|].
    simpl. symmetry. eapply alter_same; [done|]. by destruct o; simplify_eq/=.
Qed.

Lemma dispose_non_manager_frame_witness :
  ∃ hcfg w',
    Some 4 = Some hcfg
    ∧ dispose 1 twoEditors = Some (tt, w')
    ∧ disposables w' = disposeAll [hcfg; 5] (disposables twoEditors)
    ∧ hookMaps w' = hookMaps twoEditors.
Proof.
  destruct (dispose_non_manager_frame [OpenEditor true; OpenEditor true] twoEditors 1
              (mkController 1 (Some 4) (Some 5) None None None))
    as (hcfg & w' & H1 & H2 & _ & _ & H3 & H4 & _).
  - reflexivity.
  - reflexivity.
  - reflexivity.
  - exists hcfg, w'. split; [exact H1|]. split; [exact H2|]. split; [exact H3|exact H4].
Defined.

(** ** Disposing the terminal manager while other controllers are live *)

Lemma hooksIn_empty : hooksIn (mkJsMap ∅ ∅) = [].
Proof. unfold hooksIn. simpl. by rewrite map_to_list_empty. Qed.

Lemma subscribed_lt w h src l : subscribed w h src l → h < length (disposables w).
Proof. intros (d & Hd & _). by eapply lookup_lt_Some. Qed.

(** C2: when the terminal manager [c] is disposed while another controller
    is live, the first remaining controller of the registry, [other],
    receives the very Map object [m] that [c] owned and subscribes to the
    terminal service.  The Map object is unchanged, no terminal mouse-move
    subscription is disposed or created (for each terminal the number of
    attached hooks is the same as before), and all of this is already the
    case after [releaseTerminals], that is, before [c] unhooks its own
    editor mouse-move listening: at that point the editor mouse-move
    subscription of [c] is still as it was.  Only then does [_unhookEvents]
    run: at the end the [_editorMouseMoveHandler] field of [c] is cleared and
    the subscription it held is disposed, while the Map object that [c] is
    left with is the fresh, empty one. *)
Theorem manager_handoff tr w c o hc m other rest :
  run tr init = Some w →
  controllers w !! c = Some o →
  _terminalInstanceCreatedHandler o = Some hc →
  _terminalHooks o = Some m →
  c ∈ Instances w →
  filter (λ x, x ≠ c) (Instances w) = other :: rest →
  ∃ w1 w',
    releaseTerminals c w = Some (tt, w1)
    ∧ _unhookEvents c w1 = Some (tt, w')
    ∧ dispose c w = Some (tt, w')
    (* after the handoff, before the unhooking *)
    ∧ (∃ o1, controllers w1 !! other = Some o1
             ∧ _terminalHooks o1 = Some m
             ∧ is_Some (_terminalInstanceCreatedHandler o1))
    ∧ (∃ oc, controllers w1 !! c = Some oc
             ∧ _editorMouseMoveHandler oc = _editorMouseMoveHandler o
             ∧ _terminalHooks oc = Some (length (hookMaps w)))
    ∧ hookMaps w1 !! m = hookMaps w !! m
    ∧ (∀ h d, disposables w !! h = Some d →
              (∃ e, source d = EditorMouseMove e) ∨ (∃ t, source d = TerminalMouseMove t) →
              disposables w1 !! h = Some d)
    (* at the end *)
    ∧ (∃ o', controllers w' !! other = Some o'
             ∧ _terminalHooks o' = Some m
             ∧ managesTerminals w' other)
    ∧ m < length (hookMaps w)
    ∧ hookMaps w' !! m = hookMaps w !! m
    ∧ (∀ h d t, disposables w !! h = Some d → source d = TerminalMouseMove t →
                disposables w' !! h = Some d)
    ∧ (∀ t, activeCount (TerminalMouseMove t) w' = activeCount (TerminalMouseMove t) w)
    (* the disposed manager has unhooked its own editor, after the handoff *)
    ∧ (∃ oc', controllers w' !! c = Some oc'
              ∧ _editorMouseMoveHandler oc' = None
              ∧ _terminalHooks oc' = Some (length (hookMaps w)))
    ∧ hookMaps w' !! length (hookMaps w) = Some (mkJsMap ∅ ∅)
    ∧ (∀ he, _editorMouseMoveHandler o = Some he →
             disposables w1 !! he = disposables w !! he ∧ isDisposed w' he).
Proof.
  intros Hrun Ho Hcr Hm Hc Hfil.
  pose proof (run_wf tr init w wf_init Hrun) as Hw.
  destruct (wf_lookup_controller w c o Hw Ho)
    as [_ Hmlt _ [hcfg Hcfg] Hdis Tcfg Ted Tcr Tdi].
  destruct Hdis as [hd Hd]; [by rewrite Hcr|].
  specialize (Hmlt m Hm).
  assert (Hsp : splice (Instances w) (indexOf (Instances w) c) 1 = other :: rest).
  { rewrite splice_indexOf_member; [done|by destruct Hw|done]. }
  assert (Hoc : other ≠ c ∧ other ∈ Instances w).
  { assert (Hin : other ∈ filter (λ x, x ≠ c) (Instances w)) by (rewrite Hfil; by left).
    apply list_elem_of_filter in Hin. tauto. }
  destruct Hoc as [Hne Hoin].
  destruct (lookup_lt_is_Some_2 (controllers w) other) as [oo Hoo].
  { destruct Hw as [_ _ _ Hi _]. by apply (proj1 (Forall_forall _ _) Hi). }
  pose proof (releaseTerminals_handoff w c o hcfg hc hd other rest oo Ho Hcfg Hcr Hd Hsp Hoo)
    as E1.
  match type of E1 with _ = Some (tt, ?x) => set (w1 := x) in E1 end.
  (* the three handles disposed by [releaseTerminals] *)
  assert (Hds1 : disposables w1
                 = disposeAll [hcfg; hc; hd] (disposables w)
                   ++ [mkDisposable InstanceCreated (OnTerminalCreated other) false;
                       mkDisposable InstanceDisposed (OnTerminalDisposed other) false])
    by reflexivity.
  assert (Hcs1 : controllers w1 !! c
                 = Some (with_terminalHooks (Some (length (hookMaps w))) o)).
  { unfold w1. simpl. rewrite list_lookup_alter_eq, !list_lookup_alter_ne, Ho by done. done. }
  assert (Hother1 : ∃ o1, controllers w1 !! other = Some o1
                          ∧ _terminalHooks o1 = Some m
                          ∧ is_Some (_terminalInstanceCreatedHandler o1)).
  { eexists. unfold w1. simpl.
    rewrite list_lookup_alter_ne, !list_lookup_alter_eq, Hoo by done. simpl.
    split; [done|]. split; [done|]. by eauto. }
  assert (Hms1 : hookMaps w1 = hookMaps w ++ [mkJsMap ∅ ∅]) by reflexivity.
  (* none of the disposed handles is a terminal mouse-move subscription *)
  assert (Hnot : ∀ h d, h ∈ [hcfg; hc; hd] → disposables w !! h = Some d →
                 (∀ t, source d ≠ TerminalMouseMove t) ∧ (∀ e, source d ≠ EditorMouseMove e)).
  { intros h d Hin Hhd. rewrite !elem_of_cons in Hin.
    destruct Hin as [->|[->|[->|Hin]]]; [| | |by apply elem_of_nil in Hin].
    - destruct (Tcfg _ Hcfg) as (d' & Hd' & Hs & _).
      assert (d' = d) as -> by congruence. by rewrite Hs.
    - destruct (Tcr _ Hcr) as (d' & Hd' & Hs & _).
      assert (d' = d) as -> by congruence. by rewrite Hs.
    - destruct (Tdi _ Hd) as (d' & Hd' & Hs & _).
      assert (d' = d) as -> by congruence. by rewrite Hs. }
  assert (Hnot' : ∀ h d, h ∈ hcfg :: hc :: hd :: option_list (_editorMouseMoveHandler o) →
                  disposables w !! h = Some d → ∀ t, source d ≠ TerminalMouseMove t).
  { intros h d Hin Hhd.
    change (h ∈ [hcfg; hc; hd] ++ option_list (_editorMouseMoveHandler o)) in Hin.
    apply elem_of_app in Hin as [Hin|Hin]; [by apply (Hnot h d)|].
    destruct (_editorMouseMoveHandler o) as [he|] eqn:He; [|by apply elem_of_nil in Hin].
    apply list_elem_of_singleton in Hin as ->.
    destruct (Ted _ eq_refl) as (d' & Hd' & Hs & _).
    assert (d' = d) as -> by congruence. by rewrite Hs. }
  assert (Hfin : ∀ w',
            _unhookEvents c w1 = Some (tt, w') →
            controllers w' = alter (with_editorMouseMoveHandler None) c (controllers w1) →
            hookMaps w' !! m = hookMaps w !! m →
            hookMaps w' !! length (hookMaps w) = Some (mkJsMap ∅ ∅) →
            disposables w'
            = disposeAll (hcfg :: hc :: hd :: option_list (_editorMouseMoveHandler o))
                         (disposables w)
              ++ [mkDisposable InstanceCreated (OnTerminalCreated other) false;
                  mkDisposable InstanceDisposed (OnTerminalDisposed other) false] →
            ∃ w1 w',
              releaseTerminals c w = Some (tt, w1)
              ∧ _unhookEvents c w1 = Some (tt, w')
              ∧ dispose c w = Some (tt, w')
              ∧ (∃ o1, controllers w1 !! other = Some o1
                       ∧ _terminalHooks o1 = Some m
                       ∧ is_Some (_terminalInstanceCreatedHandler o1))
              ∧ (∃ oc, controllers w1 !! c = Some oc
                       ∧ _editorMouseMoveHandler oc = _editorMouseMoveHandler o
                       ∧ _terminalHooks oc = Some (length (hookMaps w)))
              ∧ hookMaps w1 !! m = hookMaps w !! m
              ∧ (∀ h d, disposables w !! h = Some d →
                        (∃ e, source d = EditorMouseMove e)
                        ∨ (∃ t, source d = TerminalMouseMove t) →
                        disposables w1 !! h = Some d)
              ∧ (∃ o', controllers w' !! other = Some o'
                       ∧ _terminalHooks o' = Some m
                       ∧ managesTerminals w' other)
              ∧ m < length (hookMaps w)
              ∧ hookMaps w' !! m = hookMaps w !! m
              ∧ (∀ h d t, disposables w !! h = Some d → source d = TerminalMouseMove t →
                          disposables w' !! h = Some d)
              ∧ (∀ t, activeCount (TerminalMouseMove t) w'
                      = activeCount (TerminalMouseMove t) w)
              ∧ (∃ oc', controllers w' !! c = Some oc'
                        ∧ _editorMouseMoveHandler oc' = None
                        ∧ _terminalHooks oc' = Some (length (hookMaps w)))
              ∧ hookMaps w' !! length (hookMaps w) = Some (mkJsMap ∅ ∅)
              ∧ (∀ he, _editorMouseMoveHandler o = Some he →
                       disposables w1 !! he = disposables w !! he ∧ isDisposed w' he)).
  { intros w' E2 Hcs' Hms' Hfresh Hds'. exists w1, w'.
    split; [done|]. split; [done|]. split.
    { unfold dispose. by erewrite bind_eq by exact E1. }
    split; [done|]. split; [by eexists|]. split.
    { rewrite Hms1. by apply lookup_app_l. }
    split.
    { intros h d Hhd Hsrc. rewrite Hds1.
      rewrite lookup_app_l by (rewrite disposeAll_length; by eapply lookup_lt_Some).
      rewrite disposeAll_lookup, Hhd. case_decide as Hin; [|done]. exfalso.
      destruct (Hnot h d Hin Hhd) as [Ht He].
      destruct Hsrc as [[e Hs]|[t Hs]]; [by apply (He e)|by apply (Ht t)]. }
    split.
    { destruct Hother1 as (o1 & Ho1 & Hh1 & Hc1).
      exists o1. rewrite Hcs', list_lookup_alter_ne by done.
      split; [done|]. split; [done|].
      rewrite (managesTerminals_alter_editor w1 w' None c Hcs').
      unfold managesTerminals. rewrite Ho1. by apply bool_decide_spec. }
    split; [done|]. split; [done|]. split.
    { intros h d t Hhd Hsrc. rewrite Hds'.
      rewrite lookup_app_l by (rewrite disposeAll_length; by eapply lookup_lt_Some).
      rewrite disposeAll_lookup, Hhd. case_decide as Hin; [|done]. exfalso.
      by apply (Hnot' h d Hin Hhd t). }
    split.
    { intros t. unfold activeCount. rewrite Hds', filter_app.
      rewrite filter_attached_disposeAll.
      - rewrite !filter_cons_False, filter_nil, app_nil_r; [done| |];
          unfold attached; simpl; by intros [? _].
      - intros h d Hin Hhd. by apply (Hnot' h d Hin Hhd t). }
    split.
    { eexists. rewrite Hcs', list_lookup_alter_eq, Hcs1. by split. }
    split; [done|].
    intros he' He'. destruct (Ted he' He') as (d & Hhd & Hs & _). split.
    - rewrite Hds1.
      rewrite lookup_app_l by (rewrite disposeAll_length; by eapply lookup_lt_Some).
      rewrite disposeAll_lookup, Hhd. case_decide as Hin; [|done]. exfalso.
      destruct (Hnot he' d Hin Hhd) as [_ Hno]. by apply (Hno (_editor o)).
    - exists (mark_disposed d). split; [|done]. rewrite Hds', He'.
      rewrite lookup_app_l by (rewrite disposeAll_length; by eapply lookup_lt_Some).
      rewrite disposeAll_lookup, Hhd. rewrite decide_True; [done|].
      cbn [option_list]. do 3 right. by left. }
  destruct (_editorMouseMoveHandler o) as [he|] eqn:He.
  - eapply Hfin.
    + eapply (_unhookEvents_manager w1 c _ he hc (length (hookMaps w)) (mkJsMap ∅ ∅));
        [exact Hcs1|done|done|done|].
      rewrite Hms1. apply lookup_snoc_new.
    + done.
    + cbn [hookMaps set_hookMaps set_disposables set_controllers]. rewrite Hms1.
      rewrite list_lookup_insert_ne by lia. by apply lookup_app_l.
    + cbn [hookMaps set_hookMaps set_disposables set_controllers props]. rewrite Hms1.
      apply list_lookup_insert_eq. rewrite length_app. simpl. lia.
    + cbn [disposables set_hookMaps set_disposables set_controllers props].
      rewrite hooksIn_empty, Hds1. cbn [disposeAll foldl option_list].
      rewrite alter_app_l; [done|]. rewrite !length_alter.
      by apply (subscribed_lt w he _ _ (Ted he eq_refl)).
  - eapply Hfin; [by eapply _unhookEvents_idle| |by rewrite Hms1, lookup_app_l| |done].
    + symmetry. eapply alter_same; [exact Hcs1|]. by destruct o; simplify_eq/=.
    + rewrite Hms1. apply lookup_snoc_new.
Qed.

Lemma manager_handoff_witness :
  ∃ w', dispose 0 terminalThenTwoEditors = Some (tt, w')
        ∧ hookFor w' 1 7 = Some 4
        ∧ managesTerminals w' 1
        ∧ activeCount (TerminalMouseMove 7) w' = 1
        ∧ (∃ oc', controllers w' !! 0 = Some oc' ∧ _editorMouseMoveHandler oc' = None)
        ∧ isDisposed w' 3.
Proof.
  destruct (manager_handoff [CreateTerminal 7; OpenEditor true; OpenEditor true]
              terminalThenTwoEditors 0
              (mkController 0 (Some 0) (Some 3) (Some 0) (Some 1) (Some 2)) 1 0 1 [])
    as (w1 & w' & _ & _ & E & _ & _ & _ & _ & (o' & Ho' & Hh' & Hm') & _ & Hmap & _ & Hcount
        & (oc' & Hoc' & Hnone & _) & _ & Hown).
  - reflexivity.
  - reflexivity.
  - reflexivity.
  - reflexivity.
  - by left.
  - reflexivity.
  - exists w'. split; [exact E|]. split; [|split; [exact Hm'|]].
    + unfold hookFor, hooksOf. rewrite Ho'. simpl. rewrite Hh'. simpl.
      rewrite Hmap. reflexivity.
    + split; [rewrite Hcount; reflexivity|]. split; [by exists oc'|].
      by destruct (Hown 3 eq_refl).
Defined.

(** ** Where the hooks are stored

    [_terminalHooks[id] = ...] writes a property of the Map object, while
    [has], [delete] and [clear] work on its entries.  The two evaluations
    below show what this does to the hook of a terminal. *)

(** In every reachable state the terminal-disposed callback finds no entry
    and returns without touching anything. *)
Lemma terminal_disposed_callback_is_idle tr w c t :
  run tr init = Some w → hasHooks w c → _onTerminalDisposed c t w = Some (tt, w).
Proof.
  intros Hrun Hc. apply _onTerminalDisposed_ok; [|done].
  by eapply run_wf; [apply wf_init|].
Qed.

(** C3 (evaluation): the only controller, manager of terminal 7, is disposed.
    The hook of terminal 7 is disposed, but it is still stored on the Map
    object, whose entries were empty all along. *)
Theorem last_manager_leaves_properties :
  ∃ w mo h,
    run [CreateTerminal 7; OpenEditor true; CloseEditor 0] init = Some w
    ∧ Instances w = []
    ∧ hooksOf w 0 = Some mo
    ∧ entries mo = ∅
    ∧ props mo !! 7%Z = Some h
    ∧ isDisposed w h.
Proof.
  eexists _, _, 4. split; [vm_compute; reflexivity|].
  split; [reflexivity|]. split; [reflexivity|]. split; [reflexivity|].
  split; [reflexivity|]. eexists. split; reflexivity.
Qed.

(** C4 (evaluation): terminal 7 is created while the manager's flag is on,
    then disposed.  Its hook is still in the manager's mapping and still
    attached. *)
Theorem disposed_terminal_keeps_hook :
  ∃ w h,
    run [OpenEditor true; CreateTerminal 7; DisposeTerminal 7] init = Some w
    ∧ terminalInstances w = []
    ∧ managesTerminals w 0
    ∧ hookFor w 0 7 = Some h
    ∧ isActive w h
    ∧ activeCount (TerminalMouseMove 7) w = 1.
Proof.
  eexists _, 4. split; [vm_compute; reflexivity|].
  split; [reflexivity|]. split; [done|]. split; [reflexivity|].
  split; [|reflexivity]. eexists. split; reflexivity.
Qed.

(** ** Hooking and unhooking on the terminal manager *)

(** What [_unhookEvents] does on a controller that manages the terminals,
    whether or not its editor mouse-move subscription exists. *)
Lemma unhook_manager_spec w c o hc m mo :
  wf w →
  controllers w !! c = Some o →
  _terminalInstanceCreatedHandler o = Some hc →
  _terminalHooks o = Some m →
  hookMaps w !! m = Some mo →
  ∃ w', _unhookEvents c w = Some (tt, w')
        ∧ wf w'
        ∧ Instances w' = Instances w
        ∧ controllers w' = alter (with_editorMouseMoveHandler None) c (controllers w)
        ∧ hookMaps w' = <[m := mkJsMap ∅ (props mo)]> (hookMaps w)
        ∧ disposables w'
          = disposeAll (match _editorMouseMoveHandler o with
                        | Some he => he :: hooksIn mo
                        | None => []
                        end) (disposables w)
        ∧ focusOnHover w' = focusOnHover w
        ∧ terminalInstances w' = terminalInstances w.
Proof.
  intros Hw Ho Hcr Hm Hmo.
  destruct (_unhookEvents_ok w c Hw) as (w' & E & Hw' & _); [by eapply lookup_lt_Some|].
  exists w'. split; [done|]. split; [done|].
  destruct (_editorMouseMoveHandler o) as [he|] eqn:He.
  - rewrite (_unhookEvents_manager w c o he hc m mo Ho He Hcr Hm Hmo) in E.
    injection E as <-. done.
  - rewrite (_unhookEvents_idle w c o Ho He) in E. injection E as <-.
    split; [done|]. split.
    { symmetry. eapply alter_same; [done|]. by destruct o; simplify_eq/=. }
    split; [|done]. symmetry. apply list_insert_id.
    destruct (wf_lookup_mapOk w m mo Hw Hmo) as [Hent _].
    rewrite Hmo. f_equal. destruct mo; simpl in *. by rewrite Hent.
Qed.

Lemma isDisposed_disposeAll w w' hs h src l :
  disposables w' = disposeAll hs (disposables w) →
  subscribed w h src l → h ∈ hs → isDisposed w' h.
Proof.
  intros Hds (d & Hd & _) Hin. exists (mark_disposed d).
  rewrite Hds, disposeAll_lookup, Hd. by rewrite decide_True.
Qed.

Lemma hookedProps_notin ts : ∀ n p t, t ∉ ts → hookedProps ts n p !! t = p !! t.
Proof.
  induction ts as [|t0 ts IH]; intros n p t Hnotin; [done|].
  apply not_elem_of_cons in Hnotin as [Hne Hnotin].
  simpl. rewrite IH by done. by rewrite lookup_insert_ne.
Qed.

Lemma hookedProps_NoDup ts : ∀ n p i t,
  NoDup ts → ts !! i = Some t → hookedProps ts n p !! t = Some (n + i).
Proof.
  induction ts as [|t0 ts IH]; intros n p i t Hnd Hi; [done|].
  apply NoDup_cons in Hnd as [Hnotin Hnd].
  destruct i as [|i]; simpl in *.
  - injection Hi as ->. rewrite hookedProps_notin by done.
    by rewrite lookup_insert_eq, Nat.add_0_r.
  - rewrite (IH _ _ i t) by done. f_equal. lia.
Qed.

(** What the configuration listener does on the terminal manager when the
    flag is on: whatever was hooked is unhooked, then the editor and every
    open terminal get a fresh subscription each. *)
Lemma rehook_manager w c o hc :
  wf w →
  controllers w !! c = Some o →
  _terminalInstanceCreatedHandler o = Some hc →
  focusOnHover w !! _editor o = Some true →
  ∃ w', onDidChangeConfiguration c true w = Some (tt, w')
        ∧ length (disposables w) ≤ length (disposables w')
        ∧ controllers w' !! c
          = Some (with_editorMouseMoveHandler (Some (length (disposables w))) o)
        ∧ drop (length (disposables w)) (disposables w')
          = mkDisposable (EditorMouseMove (_editor o)) (OnEditorMouseMove c) false
            :: (terminalHook <$> terminalInstances w)
        ∧ (NoDup (terminalInstances w) →
           ∀ i t, terminalInstances w !! i = Some t →
                  hookFor w' c t = Some (S (length (disposables w)) + i))
        ∧ (_editorMouseMoveHandler o = None →
           take (length (disposables w)) (disposables w') = disposables w).
Proof.
  intros Hw Ho Hcr Hflag.
  destruct (wf_lookup_controller w c o Hw Ho) as [_ _ Hman _ _ _ _ _ _].
  destruct Hman as [m Hm]; [by rewrite Hcr|].
  destruct (wf_lookup_map w c o m Hw Ho Hm) as (mo & Hmo & Hent).
  destruct (unhook_manager_spec w c o hc m mo Hw Ho Hcr Hm Hmo)
    as (w1 & E1 & Hw1 & _ & Hcs1 & Hms1 & Hds1 & Hf1 & Ht1).
  assert (Ho1 : controllers w1 !! c = Some (with_editorMouseMoveHandler None o)).
  { by rewrite Hcs1, list_lookup_alter_eq, Ho. }
  assert (Hmo1 : hookMaps w1 !! m = Some (mkJsMap ∅ (props mo))).
  { rewrite Hms1. apply list_lookup_insert_eq. by eapply lookup_lt_Some. }
  assert (Hlen1 : length (disposables w1) = length (disposables w)).
  { by rewrite Hds1, disposeAll_length. }
  eexists. split.
  { unfold onDidChangeConfiguration. erewrite bind_eq by exact E1.
    eapply (_hookEvents_manager w1 c _ hc m); [exact Ho1|by rewrite Hf1|done|done|exact Hmo1]. }
  cbn [disposables controllers hookMaps set_hookMaps set_disposables set_controllers].
  rewrite Hlen1, Ht1. split.
  { rewrite !length_app. lia. }
  split.
  { by rewrite list_lookup_alter_eq, Ho1. }
  split.
  { rewrite <- app_assoc, <- Hlen1. by rewrite drop_app_length. }
  split.
  { intros Hnd i t Hi. unfold hookFor, hooksOf.
    cbn [disposables controllers hookMaps set_hookMaps set_disposables set_controllers].
    rewrite list_lookup_alter_eq, Ho1. simpl. rewrite Hm. simpl.
    rewrite list_lookup_insert_eq by (by eapply lookup_lt_Some). simpl.
    exact (hookedProps_NoDup (terminalInstances w) (S (length (disposables w)))
             (props mo) i t Hnd Hi). }
  intros He. rewrite He in Hds1. simpl in Hds1.
  rewrite <- app_assoc, <- Hlen1, take_app_length. done.
Qed.

(** ** Unhooking on the terminal manager *)

(** C6 (counterexample): controller 1 received the role and the hook of
    terminal 7 from controller 0, but its own editor has the flag off, so it
    has no editor mouse-move subscription.  [_unhookEvents] on it changes
    nothing: the hook of terminal 7 stays attached. *)
Lemma unhook_manager_without_editor_hook :
  ∃ w h,
    run [CreateTerminal 7; OpenEditor true; OpenEditor false; CloseEditor 0] init = Some w
    ∧ managesTerminals w 1
    ∧ hookFor w 1 7 = Some h
    ∧ _unhookEvents 1 w = Some (tt, w)
    ∧ isActive w h.
Proof.
  eexists _, 4. split; [vm_compute; reflexivity|].
  split; [done|]. split; [reflexivity|]. split; [reflexivity|].
  eexists. split; reflexivity.
Qed.

(** C6 (amended): on the terminal manager, [_unhookEvents] does nothing when
    there is no editor mouse-move subscription; when there is one, it
    disposes that subscription and every hook stored in the mapping.  Either
    way the controller keeps the role: its fields other than
    [_editorMouseMoveHandler] are unchanged, and no subscription to the
    terminal service is touched. *)
Theorem unhook_manager_keeps_role tr w c o hc :
  run tr init = Some w →
  controllers w !! c = Some o →
  _terminalInstanceCreatedHandler o = Some hc →
  ∃ w', _unhookEvents c w = Some (tt, w')
        ∧ (_editorMouseMoveHandler o = None → w' = w)
        ∧ (∀ he, _editorMouseMoveHandler o = Some he →
                 isDisposed w' he ∧ ∀ t h, hookFor w c t = Some h → isDisposed w' h)
        ∧ controllers w' !! c = Some (with_editorMouseMoveHandler None o)
        ∧ managesTerminals w' c
        ∧ (∀ h d, disposables w !! h = Some d →
                  source d = InstanceCreated ∨ source d = InstanceDisposed →
                  disposables w' !! h = Some d).
Proof.
  intros Hrun Ho Hcr.
  pose proof (run_wf tr init w wf_init Hrun) as Hw.
  destruct (wf_lookup_controller w c o Hw Ho) as [_ _ Hman _ _ _ Ted _ _].
  destruct Hman as [m Hm]; [by rewrite Hcr|].
  destruct (wf_lookup_map w c o m Hw Ho Hm) as (mo & Hmo & Hent).
  pose proof (wf_lookup_mapOk w m mo Hw Hmo) as Hmok.
  destruct (unhook_manager_spec w c o hc m mo Hw Ho Hcr Hm Hmo)
    as (w' & E & Hw' & _ & Hcs & Hms & Hds & _ & _).
  assert (Ho' : controllers w' !! c = Some (with_editorMouseMoveHandler None o)).
  { by rewrite Hcs, list_lookup_alter_eq, Ho. }
  exists w'. split; [done|]. split.
  { intros He. rewrite (_unhookEvents_idle w c o Ho He) in E. by injection E. }
  split.
  { intros he He. rewrite He in Hds. split.
    - eapply isDisposed_disposeAll; [exact Hds|by apply Ted|by left].
    - intros t h Hh. unfold hookFor, hooksOf in Hh.
      rewrite Ho in Hh. simpl in Hh. rewrite Hm in Hh. simpl in Hh.
      rewrite Hmo in Hh. simpl in Hh.
      eapply isDisposed_disposeAll; [exact Hds|by apply (ty_props w mo Hmok t h)|].
      right. by eapply hooksIn_elem. }
  split; [done|]. split.
  { unfold managesTerminals. rewrite Ho'. simpl. rewrite Hcr. by apply bool_decide_spec. }
  intros h d Hd Hsrc. rewrite Hds, disposeAll_lookup, Hd.
  case_decide as Hin; [|done]. exfalso.
  destruct (_editorMouseMoveHandler o) as [he|] eqn:He; [|by apply elem_of_nil in Hin].
  apply elem_of_cons in Hin as [->|Hin].
  - destruct (Ted he eq_refl) as (d' & Hd' & Hs & _).
    assert (d' = d) as -> by congruence. rewrite Hs in Hsrc. by destruct Hsrc.
  - destruct (hooksIn_source w mo h d Hmok Hin Hd) as (t & Hs).
    rewrite Hs in Hsrc. by destruct Hsrc.
Qed.

Lemma unhook_manager_keeps_role_witness :
  ∃ w', _unhookEvents 0 terminalThenTwoEditors = Some (tt, w')
        ∧ isDisposed w' 3
        ∧ isDisposed w' 4
        ∧ managesTerminals w' 0
        ∧ isActive w' 1
        ∧ isActive w' 2.
Proof.
  destruct (unhook_manager_keeps_role [CreateTerminal 7; OpenEditor true; OpenEditor true]
              terminalThenTwoEditors 0
              (mkController 0 (Some 0) (Some 3) (Some 0) (Some 1) (Some 2)) 1)
    as (w' & E & _ & Hdis & _ & Hman & Hkeep).
  - reflexivity.
  - reflexivity.
  - reflexivity.
  - destruct (Hdis 3 eq_refl) as [H3 Hhooks].
    exists w'. split; [exact E|]. split; [exact H3|]. split.
    { apply (Hhooks 7%Z 4). reflexivity. }
    split; [exact Hman|]. split.
    + eexists. split; [apply Hkeep; [reflexivity|by left]|reflexivity].
    + eexists. split; [apply Hkeep; [reflexivity|by right]|reflexivity].
Defined.

(** ** The terminal-created callback *)

(** C7: on the terminal manager, the terminal-created callback adds nothing
    when the flag of the manager's editor is off, and adds one fresh
    mouse-move subscription for the terminal, filed under its id, when the
    flag is on.  A terminal that is already open gets its hook from the
    configuration listener (unhook, then hook): with the flag on, that
    listener files a subscription created in that very call under each open
    terminal. *)
Theorem terminal_created_callback tr w c o hc t :
  run tr init = Some w →
  controllers w !! c = Some o →
  _terminalInstanceCreatedHandler o = Some hc →
  (focusOnHover w !! _editor o = Some false →
     _onTerminalCreated c t w = Some (tt, w))
  ∧ (focusOnHover w !! _editor o = Some true →
       ∃ w', _onTerminalCreated c t w = Some (tt, w')
             ∧ disposables w' = disposables w ++ [terminalHook t]
             ∧ hookFor w' c t = Some (length (disposables w))
             ∧ controllers w' = controllers w)
  ∧ (focusOnHover w !! _editor o = Some true →
     NoDup (terminalInstances w) →
       ∃ w', onDidChangeConfiguration c true w = Some (tt, w')
             ∧ ∀ i t', terminalInstances w !! i = Some t' →
                 ∃ h, hookFor w' c t' = Some h
                      ∧ length (disposables w) < h
                      ∧ disposables w' !! h = Some (terminalHook t')).
Proof.
  intros Hrun Ho Hcr.
  pose proof (run_wf tr init w wf_init Hrun) as Hw.
  destruct (wf_lookup_controller w c o Hw Ho) as [_ _ Hman _ _ _ _ _ _].
  destruct Hman as [m Hm]; [by rewrite Hcr|].
  destruct (wf_lookup_map w c o m Hw Ho Hm) as (mo & Hmo & Hent).
  split; [by apply _onTerminalCreated_off|]. split.
  - intros Hflag. eexists. split; [by eapply _onTerminalCreated_on|].
    split; [done|]. split; [|done].
    unfold hookFor, hooksOf. simpl. rewrite Ho. simpl. rewrite Hm. simpl.
    rewrite list_lookup_insert_eq by (by eapply lookup_lt_Some). simpl.
    by rewrite lookup_insert_eq.
  - intros Hflag Hnd.
    destruct (rehook_manager w c o hc Hw Ho Hcr Hflag)
      as (w' & E & _ & _ & Hdrop & Hhooks & _).
    exists w'. split; [done|]. intros i t' Hi.
    exists (S (length (disposables w)) + i). split; [by apply Hhooks|].
    split; [lia|].
    replace (S (length (disposables w)) + i) with (length (disposables w) + S i) by lia.
    rewrite <- lookup_drop, Hdrop. simpl. by rewrite list_lookup_fmap, Hi.
Qed.

Lemma terminal_created_callback_witness :
  _onTerminalCreated 0 9 quietEditor = Some (tt, quietEditor)
  ∧ (∃ w', _onTerminalCreated 0 9 busyEditor = Some (tt, w')
           ∧ hookFor w' 0 9 = Some 5)
  ∧ (∃ w', onDidChangeConfiguration 0 true busyEditor = Some (tt, w')
           ∧ ∃ h, hookFor w' 0 7 = Some h ∧ 5 < h).
Proof.
  split; [|split].
  - apply (terminal_created_callback [CreateTerminal 7; OpenEditor false] quietEditor 0
             (mkController 0 (Some 0) None (Some 0) (Some 1) (Some 2)) 1 9);
      reflexivity.
  - destruct (terminal_created_callback [CreateTerminal 7; OpenEditor true] busyEditor 0
                (mkController 0 (Some 0) (Some 3) (Some 0) (Some 1) (Some 2)) 1 9)
      as (_ & Hon & _); [reflexivity..|].
    destruct (Hon eq_refl) as (w' & E & _ & Hh & _).
    exists w'. split; [exact E|exact Hh].
  - destruct (terminal_created_callback [CreateTerminal 7; OpenEditor true] busyEditor 0
                (mkController 0 (Some 0) (Some 3) (Some 0) (Some 1) (Some 2)) 1 9)
      as (_ & _ & Hre); [reflexivity..|].
    destruct (Hre eq_refl) as (w' & E & Hh).
    { simpl. apply NoDup_singleton. }
    destruct (Hh 0 7%Z eq_refl) as (h & Hh1 & Hh2 & _).
    exists w'. split; [exact E|]. exists h. split; [exact Hh1|exact Hh2].
Defined.

(** ** Toggling the flag *)

Lemma filter_unique {A} (P : A → Prop) `{∀ x, Decision (P x)} (l : list A) i x :
  l !! i = Some x → P x →
  (∀ j y, l !! j = Some y → P y → j = i) →
  filter P l = [x].
Proof.
  revert i. induction l as [|a l IH]; intros i Hi Hx Huniq; [done|].
  destruct i as [|i]; simpl in Hi.
  - injection Hi as ->. rewrite filter_cons_True by done. f_equal.
    clear IH. induction l as [|b l IH]; [done|].
    rewrite filter_cons_False.
    + apply IH. intros j y Hj Hy. destruct j as [|j]; [done|].
      by specialize (Huniq (S (S j)) y Hj Hy).
    + intros Hb. by specialize (Huniq 1 b eq_refl Hb).
  - rewrite filter_cons_False.
    + apply (IH i); [done|done|]. intros j y Hj Hy.
      specialize (Huniq (S j) y Hj Hy). lia.
    + intros Ha. by specialize (Huniq 0 a eq_refl Ha).
Qed.

Lemma filter_none {A} (P : A → Prop) `{∀ x, Decision (P x)} (l : list A) :
  (∀ j y, l !! j = Some y → ¬ P y) → filter P l = [].
Proof.
  induction l as [|a l IH]; intros Hno; [done|].
  rewrite filter_cons_False by (by apply (Hno 0)).
  apply IH. intros j y Hj. by apply (Hno (S j)).
Qed.

Lemma hooksIn_inv mo h : h ∈ hooksIn mo → ∃ t, props mo !! t = Some h.
Proof.
  unfold hooksIn. intros ([t h'] & -> & Hin)%list_elem_of_fmap.
  exists t. by apply elem_of_map_to_list.
Qed.

Lemma count_terminal_hooks t ts :
  NoDup ts →
  length (filter (attached (TerminalMouseMove t)) (terminalHook <$> ts))
  = if bool_decide (t ∈ ts) then 1 else 0.
Proof.
  induction ts as [|a ts IH]; intros Hnd; [done|].
  apply NoDup_cons in Hnd as [Ha Hnd]. rewrite fmap_cons.
  destruct (decide (a = t)) as [->|Hne].
  - rewrite filter_cons_True by done. simpl. rewrite (IH Hnd).
    rewrite (bool_decide_eq_false_2 (t ∈ ts)) by done.
    by rewrite bool_decide_eq_true_2 by by left.
  - rewrite filter_cons_False by (intros [[=] _]; done). rewrite (IH Hnd).
    destruct (decide (t ∈ ts)) as [Hin|Hin].
    + rewrite (bool_decide_eq_true_2 (t ∈ ts)) by done.
      by rewrite bool_decide_eq_true_2 by by right.
    + rewrite (bool_decide_eq_false_2 (t ∈ ts)) by done.
      rewrite bool_decide_eq_false_2; [done|]. intros [Heq|?]%elem_of_cons; [|done].
      by apply Hne.
Qed.

(** C5 (counterexample): controller 1 has become the manager by a
    hand-over while its flag was off, and its flag was then turned on; its
    editor hook and the hook it filed for terminal 7 are in place.  Toggling
    its flag off leaves a hook attached to terminal 7, the one made by the
    former manager, which the mapping no longer holds; toggling it on again
    gives terminal 7 a second attached hook. *)
Lemma toggle_keeps_unfiled_hook :
  ∃ o w1 w2,
    run [CreateTerminal 7; OpenEditor true; OpenEditor false; CloseEditor 0;
         ChangeConfiguration 1 true true] init = Some handedOver
    ∧ controllers handedOver !! 1 = Some o
    ∧ is_Some (_terminalInstanceCreatedHandler o)
    ∧ is_Some (_editorMouseMoveHandler o)
    ∧ terminalInstances handedOver = [7%Z]
    ∧ toggleFocusOnHover 1 false handedOver = Some (tt, w1)
    ∧ perform (ChangeConfiguration 1 true false) handedOver = Some (tt, w1)
    ∧ activeListeners (TerminalMouseMove 7) w1 = [FocusTerminal]
    ∧ toggleFocusOnHover 1 true w1 = Some (tt, w2)
    ∧ perform (ChangeConfiguration 1 true true) w1 = Some (tt, w2)
    ∧ activeListeners (TerminalMouseMove 7) w2 = [FocusTerminal; FocusTerminal].
Proof.
  do 3 eexists. split; [reflexivity|]. split; [reflexivity|].
  split; [by eexists|]. split; [by eexists|]. split; [reflexivity|].
  split; [reflexivity|]. split; [reflexivity|]. split; [reflexivity|].
  split; [reflexivity|]. split; reflexivity.
Qed.

(** C5 (amended): the terminal manager [c] has its hooks in place.  Toggling
    the flag off disposes its editor mouse-move subscription and every hook
    stored in its mapping, clears the [_editorMouseMoveHandler] field and
    subscribes to nothing.  Toggling the flag on again, when the open
    terminals are [ts], subscribes to exactly one editor mouse-move event and
    one terminal mouse-move event per open terminal, and files each of the
    latter under its terminal in the mapping.  A terminal hook that the
    mapping does not hold is left as it is by both steps.  When every
    attached terminal hook is held by the mapping, no terminal hook is
    attached after toggling off, and after toggling on each open terminal
    has exactly one attached hook and no other terminal has any. *)
Theorem toggle_off_then_on tr w c o hc he ts :
  run tr init = Some w →
  controllers w !! c = Some o →
  _terminalInstanceCreatedHandler o = Some hc →
  _editorMouseMoveHandler o = Some he →
  NoDup ts →
  ∃ w1 w2,
    toggleFocusOnHover c false w = Some (tt, w1)
    ∧ controllers w1 !! c = Some (with_editorMouseMoveHandler None o)
    ∧ isDisposed w1 he
    ∧ (∀ t h, hookFor w c t = Some h → isDisposed w1 h)
    ∧ length (disposables w1) = length (disposables w)
    ∧ toggleFocusOnHover c true (set_terminalInstances (λ _, ts) w1) = Some (tt, w2)
    ∧ controllers w2 !! c
      = Some (with_editorMouseMoveHandler (Some (length (disposables w))) o)
    ∧ disposables w2
      = disposables w1
        ++ mkDisposable (EditorMouseMove (_editor o)) (OnEditorMouseMove c) false
           :: (terminalHook <$> ts)
    ∧ (∀ i t, ts !! i = Some t →
              hookFor w2 c t = Some (S (length (disposables w)) + i))
    (* hooks the mapping does not hold *)
    ∧ (∀ h d t, disposables w !! h = Some d → source d = TerminalMouseMove t →
                hookFor w c t ≠ Some h →
                disposables w1 !! h = Some d ∧ disposables w2 !! h = Some d)
    (* when the mapping holds every attached terminal hook *)
    ∧ ((∀ h d t, disposables w !! h = Some d → disposed d = false →
                 source d = TerminalMouseMove t → hookFor w c t = Some h) →
       (∀ t, activeCount (TerminalMouseMove t) w1 = 0)
       ∧ (∀ t, activeCount (TerminalMouseMove t) w2
               = if bool_decide (t ∈ ts) then 1 else 0)).
Proof.
  intros Hrun Ho Hcr He Hnd.
  pose proof (run_wf tr init w wf_init Hrun) as Hw.
  destruct (wf_lookup_controller w c o Hw Ho) as [Hed _ Hman _ _ _ Ted _ _].
  destruct Hman as [m Hm]; [by rewrite Hcr|].
  destruct (wf_lookup_map w c o m Hw Ho Hm) as (mo & Hmo & Hent).
  pose proof (wf_lookup_mapOk w m mo Hw Hmo) as Hmok.
  assert (Hhf : ∀ t, hookFor w c t = props mo !! t).
  { intros t. unfold hookFor, hooksOf. rewrite Ho. simpl. rewrite Hm. simpl.
    by rewrite Hmo. }
  (* off *)
  set (w0 := set_focusOnHover (<[_editor o := false]>) w).
  assert (Hw0 : wf w0).
  { apply wf_set_focusOnHover; [done|]. by rewrite length_insert. }
  destruct (unhook_manager_spec w0 c o hc m mo Hw0 Ho Hcr Hm Hmo)
    as (w1 & E1 & Hw1 & _ & Hcs1 & Hms1 & Hds1 & Hf1 & Ht1).
  rewrite He in Hds1. change (disposables w0) with (disposables w) in Hds1.
  assert (Ho1 : controllers w1 !! c = Some (with_editorMouseMoveHandler None o)).
  { by rewrite Hcs1, list_lookup_alter_eq; simpl; rewrite Ho. }
  assert (Hlen1 : length (disposables w1) = length (disposables w)).
  { by rewrite Hds1, disposeAll_length. }
  assert (Eoff : toggleFocusOnHover c false w = Some (tt, w1)).
  { unfold toggleFocusOnHover.
    erewrite bind_eq by by apply getController_eq.
    erewrite bind_eq by reflexivity.
    unfold onDidChangeConfiguration. erewrite bind_eq by exact E1.
    eapply _hookEvents_off; [exact Ho1|].
    rewrite Hf1. simpl. by apply list_lookup_insert_eq. }
  (* on *)
  set (w1' := set_focusOnHover (<[_editor o := true]>)
                (set_terminalInstances (λ _, ts) w1)).
  assert (Hw1' : wf w1').
  { apply wf_set_focusOnHover; [by apply wf_set_terminalInstances|].
    by rewrite length_insert. }
  destruct (rehook_manager w1' c (with_editorMouseMoveHandler None o) hc Hw1' Ho1 Hcr)
    as (w2 & E2 & _ & Ho2 & Hdrop & Hhooks & Htake).
  { simpl. rewrite Hf1. simpl. apply list_lookup_insert_eq.
    by rewrite length_insert. }
  simpl in Hdrop, Hhooks, Htake, Ho2. rewrite Hlen1 in *.
  assert (Hds2 : disposables w2
                 = disposables w1
                   ++ mkDisposable (EditorMouseMove (_editor o)) (OnEditorMouseMove c) false
                      :: (terminalHook <$> ts)).
  { rewrite <- (take_drop (length (disposables w)) (disposables w2)).
    by rewrite Hdrop, Htake. }
  (* a hook outside the mapping is not among the disposed handles *)
  assert (Hout : ∀ h d t, disposables w !! h = Some d → source d = TerminalMouseMove t →
                 hookFor w c t ≠ Some h → h ∉ he :: hooksIn mo).
  { intros h d t Hd Hs Hno [->|Hin]%elem_of_cons.
    - destruct (Ted he He) as (d' & Hd' & Hs' & _). congruence.
    - destruct (hooksIn_inv mo h Hin) as (t' & Hp).
      destruct (ty_props w mo Hmok t' h Hp) as (d' & Hd' & Hs' & _).
      assert (t' = t) as -> by congruence. apply Hno. by rewrite Hhf. }
  exists w1, w2. split; [done|]. split; [done|]. split.
  { eapply isDisposed_disposeAll; [exact Hds1|by apply (Ted he He)|by left]. }
  split.
  { intros t h Hh. rewrite Hhf in Hh.
    eapply isDisposed_disposeAll; [exact Hds1|by apply (ty_props w mo Hmok t h)|].
    right. by eapply hooksIn_elem. }
  split; [done|]. split.
  { unfold toggleFocusOnHover.
    erewrite bind_eq by (apply getController_eq; exact Ho1).
    erewrite bind_eq by reflexivity. exact E2. }
  split; [exact Ho2|]. split; [exact Hds2|].
  split; [intros i t Hi; by apply Hhooks|].
  split.
  { intros h d t Hd Hs Hno.
    assert (Hd1 : disposables w1 !! h = Some d).
    { rewrite Hds1, disposeAll_lookup, Hd.
      by rewrite decide_False by by eapply Hout. }
    split; [done|]. rewrite Hds2. by apply lookup_app_l_Some. }
  intros Hall.
  assert (Hnone : ∀ t, filter (attached (TerminalMouseMove t)) (disposables w1) = []).
  { intros t. apply filter_none. intros j y Hj [Hs Hdis].
    rewrite Hds1, disposeAll_lookup in Hj.
    destruct (disposables w !! j) as [d|] eqn:Hd; [|done]. simpl in Hj.
    case_decide as Hin; injection Hj as <-; [done|].
    apply Hin. right. apply (hooksIn_elem mo t). rewrite <- Hhf.
    by apply (Hall j d t). }
  split.
  - intros t. unfold activeCount. by rewrite Hnone.
  - intros t. unfold activeCount. rewrite Hds2, filter_app, Hnone.
    rewrite filter_cons_False by (intros [[=] _]; done).
    by apply count_terminal_hooks.
Qed.

Lemma toggle_off_then_on_witness :
  ∃ w1 w2,
    toggleFocusOnHover 0 false busyEditor = Some (tt, w1)
    ∧ isDisposed w1 3
    ∧ isDisposed w1 4
    ∧ toggleFocusOnHover 0 true (set_terminalInstances (λ _, [7; 9]%Z) w1) = Some (tt, w2)
    ∧ hookFor w2 0 7 = Some 6
    ∧ hookFor w2 0 9 = Some 7
    ∧ activeCount (TerminalMouseMove 7) w1 = 0
    ∧ activeCount (TerminalMouseMove 7) w2 = 1
    ∧ activeCount (TerminalMouseMove 9) w2 = 1
    ∧ activeCount (TerminalMouseMove 8) w2 = 0.
Proof.
  destruct (toggle_off_then_on [CreateTerminal 7; OpenEditor true] busyEditor 0
              (mkController 0 (Some 0) (Some 3) (Some 0) (Some 1) (Some 2)) 1 3 [7; 9]%Z)
    as (w1 & w2 & Eoff & _ & Hhe & Hhooks & _ & Eon & _ & _ & Hnew & _ & Hall).
  - reflexivity.
  - reflexivity.
  - reflexivity.
  - reflexivity.
  - apply NoDup_cons. split; [by intros [=]%list_elem_of_singleton|apply NoDup_singleton].
  - destruct Hall as [Hoff Hon].
    { intros h d t Hd Hdis Hs.
      do 5 (destruct h as [|h]; [injection Hd as <-; try done|]); [|done].
      injection Hs as <-. reflexivity. }
    exists w1, w2. split; [exact Eoff|]. split; [exact Hhe|]. split.
    { apply (Hhooks 7%Z 4). reflexivity. }
    split; [exact Eon|]. split; [apply (Hnew 0 7%Z); reflexivity|].
    split; [apply (Hnew 1 9%Z); reflexivity|].
    split; [apply Hoff|]. split; [apply (Hon 7%Z)|]. split; [apply (Hon 9%Z)|apply (Hon 8%Z)].
Defined.

(** ** The attached listeners along a sequence of host actions *)

Lemma served_host_update w w0 :
  Instances w0 = Instances w → controllers w0 = controllers w →
  disposables w0 = disposables w →
  length (focusOnHover w0) = length (focusOnHover w) →
  served w → served w0.
Proof.
  intros HI Hcs Hds Hf [Hlen Hed Hatt Hcfg Hman].
  split; unfold isActive in *; rewrite ?HI, ?Hcs, ?Hds, ?Hf; done.
Qed.

Lemma perform_served w a w' :
  wf w → elected w → served w →
  (∀ c, a = CloseEditor c → c ∈ Instances w) →
  perform a w = Some (tt, w') → served w'.
Proof.
  intros Hw Hel Hsv Hlive E.
  destruct a as [enabled|c|editor contribInfo enabled|t|t]; cbn [perform] in E.
  - (* OpenEditor *)
    set (w0 := set_focusOnHover (λ l, l ++ [enabled]) w) in *.
    assert (Hw0 : wf w0).
    { apply wf_set_focusOnHover; [done|]. rewrite length_app. lia. }
    assert (He : length (focusOnHover w) < length (focusOnHover w0)).
    { simpl. rewrite length_app. simpl. lia. }
    destruct (constructor_ok w0 (length (focusOnHover w)) Hw0 He) as (w3 & E3 & Hw3 & Hch).
    erewrite bind_eq in E by reflexivity.
    erewrite bind_eq in E by reflexivity.
    erewrite bind_eq in E by exact E3.
    injection E as <-.
    eapply (served_onlyHooksChanged
              (set_Instances (λ l, l ++ [length (controllers w0)])
                 (constructed (length (focusOnHover w))
                              (bool_decide (Instances w0 = [])) w0))).
    + intros c o Ho.
      eapply ctrlOk_mono; [|eapply (wf_lookup_controller _ c o
                                      (wf_constructed w0 _ _ Hw0 He)); exact Ho].
      by apply extends_same.
    + destruct Hch as (HI & ? & ? & ? & ?). split_and!; try done.
      simpl. by rewrite HI.
    + exact (served_opened w enabled Hw Hsv).
  - (* CloseEditor *)
    specialize (Hlive c eq_refl).
    assert (Hlt : c < length (controllers w)).
    { destruct Hw as [_ _ _ Hi _]. by apply (proj1 (Forall_forall _ _) Hi). }
    destruct (dispose_ok w c Hw Hlt)
      as (w1 & w'' & _ & _ & E' & Hw1 & _ & Hch & _ & _ & _ & Hsv1).
    assert (w'' = w') as -> by congruence.
    eapply served_onlyHooksChanged; [|exact Hch|by apply Hsv1].
    exact (wf_controllers w1 Hw1).
  - (* ChangeConfiguration *)
    set (w0 := if contribInfo then set_focusOnHover (<[editor := enabled]>) w else w).
    assert (Hw0 : wf w0).
    { unfold w0. destruct contribInfo; [|done].
      apply wf_set_focusOnHover; [done|]. by rewrite length_insert. }
    destruct (fireConfigurationChanged_ok w0 editor contribInfo Hw0) as (w'' & E' & _ & Hch).
    assert (E0 : perform (ChangeConfiguration editor contribInfo enabled) w = Some (tt, w'')).
    { unfold w0 in E'. simpl. destruct contribInfo; erewrite bind_eq by reflexivity; exact E'. }
    simpl in E0. assert (w'' = w') as -> by congruence.
    eapply served_onlyHooksChanged; [exact (wf_controllers w0 Hw0)|exact Hch|].
    unfold w0. destruct contribInfo; [|done].
    apply (served_host_update w); [done|done|done| |done].
    simpl. by rewrite length_insert.
  - (* CreateTerminal *)
    set (w0 := set_terminalInstances (λ l, l ++ [t]) w).
    assert (Hw0 : wf w0) by by apply wf_set_terminalInstances.
    destruct (fireInstanceCreated_ok w0 t Hw0) as (w'' & E' & _ & Hch).
    erewrite bind_eq in E by reflexivity.
    change (fireInstanceCreated t w0 = Some (tt, w')) in E.
    assert (w'' = w') as -> by congruence.
    eapply served_onlyHooksChanged; [exact (wf_controllers w0 Hw0)|exact Hch|].
    by apply (served_host_update w).
  - (* DisposeTerminal *)
    set (w0 := set_terminalInstances (filter (λ x, x ≠ t)) w).
    assert (Hw0 : wf w0) by by apply wf_set_terminalInstances.
    destruct (fireInstanceDisposed_ok w0 t Hw0) as (w'' & E' & _ & Hch).
    erewrite bind_eq in E by reflexivity.
    change (fireInstanceDisposed t w0 = Some (tt, w')) in E.
    assert (w'' = w') as -> by congruence.
    eapply served_onlyHooksChanged; [exact (wf_controllers w0 Hw0)|exact Hch|].
    by apply (served_host_update w).
Qed.

Lemma run_served tr : ∀ w w',
  wf w → elected w → served w →
  disciplinedFrom (length (controllers w), Instances w) tr →
  run tr w = Some w' → served w'.
Proof.
  induction tr as [|a tr IH]; intros w w' Hw Hel Hsv Hd Hrun.
  - simpl in Hrun. by injection Hrun as <-.
  - destruct Hd as [Ha Hd]. simpl in Hrun.
    destruct (perform a w) as [[[] w1]|] eqn:E1; [|done].
    assert (Hlive : ∀ c, a = CloseEditor c → c ∈ Instances w) by (by intros c ->).
    destruct (perform_ok w a Hw) as (w1' & E1' & Hw1 & Hinv).
    { intros c ->. destruct Hw as [_ _ _ Hi _].
      by apply (proj1 (Forall_forall _ _) Hi), Hlive. }
    assert (w1' = w1) as -> by congruence.
    destruct (Hinv Hlive Hel) as [Hel1 Htr].
    apply (IH w1 w'); [done|done| | |done].
    + exact (perform_served w a w1 Hw Hel Hsv Hlive E1).
    + by rewrite Htr.
Qed.

(** The configuration event of a live controller's editor has exactly one
    attached listener, that controller's. *)
Lemma configuration_listeners w c :
  wf w → served w → c ∈ Instances w →
  activeListeners (EditorConfiguration c) w = [ConfigurationChanged c].
Proof.
  intros Hw [_ Hed Hatt Hcfg _] Hc.
  destruct (lookup_lt_is_Some_2 (controllers w) c) as [o Ho].
  { destruct Hw as [_ _ _ Hi _]. by apply (proj1 (Forall_forall _ _) Hi). }
  destruct (wf_lookup_controller w c o Hw Ho) as [_ _ _ [h Hh] _ Tcfg _ _ _].
  destruct (Hcfg c o h Hc Ho Hh) as (d & Hd & Hdis).
  destruct (Tcfg h Hh) as (d' & Hd' & Hs & Hl).
  assert (d' = d) as -> by congruence.
  rewrite (Hed c o Ho) in Hs.
  unfold activeListeners.
  rewrite (filter_unique _ _ h d Hd); [by rewrite <- Hl|by split|].
  intros j y Hj [Hsy Hdy].
  pose proof (Hatt j y Hj Hdy) as Ha. rewrite Hsy in Ha.
  destruct Ha as (_ & o' & Ho' & Hc'). congruence.
Qed.

(** The terminal-service events have exactly one attached listener each,
    that of the first controller of the registry, and none when the registry
    is empty. *)
Lemma terminal_listeners w :
  wf w → elected w → served w →
  activeListeners InstanceCreated w = OnTerminalCreated <$> option_list (head (Instances w))
  ∧ activeListeners InstanceDisposed w
    = OnTerminalDisposed <$> option_list (head (Instances w)).
Proof.
  intros Hw Hel [_ _ Hatt _ Hman].
  assert (Hcase : (∃ c, head (Instances w) = Some c) ∨ head (Instances w) = None).
  { destruct (head (Instances w)); eauto. }
  destruct Hcase as [[c Hh]|Hh]; rewrite Hh.
  - assert (Hc : c ∈ Instances w) by by apply head_Some_elem_of.
    destruct (lookup_lt_is_Some_2 (controllers w) c) as [o Ho].
    { destruct Hw as [_ _ _ Hi _]. by apply (proj1 (Forall_forall _ _) Hi). }
    destruct (proj2 (Hel c o Hc Ho) Hh) as [hc Hcr].
    destruct (wf_lookup_controller w c o Hw Ho) as [_ _ _ _ Hdis _ _ Tcr Tdi].
    destruct Hdis as [hd Hdi]; [by rewrite Hcr|].
    unfold activeListeners. split.
    + destruct (Hman c o hc Hh Ho (or_introl Hcr)) as (d & Hd & Hdd).
      destruct (Tcr hc Hcr) as (d' & Hd' & Hs & Hl).
      assert (d' = d) as -> by congruence.
      rewrite (filter_unique _ _ hc d Hd); [simpl; by rewrite Hl|by split|].
      intros j y Hj [Hsy Hdy].
      pose proof (Hatt j y Hj Hdy) as Ha. rewrite Hsy in Ha.
      destruct Ha as (c' & o' & Hh' & Ho' & Hc'). congruence.
    + destruct (Hman c o hd Hh Ho (or_intror Hdi)) as (d & Hd & Hdd).
      destruct (Tdi hd Hdi) as (d' & Hd' & Hs & Hl).
      assert (d' = d) as -> by congruence.
      rewrite (filter_unique _ _ hd d Hd); [simpl; by rewrite Hl|by split|].
      intros j y Hj [Hsy Hdy].
      pose proof (Hatt j y Hj Hdy) as Ha. rewrite Hsy in Ha.
      destruct Ha as (c' & o' & Hh' & Ho' & Hc'). congruence.
  - unfold activeListeners. split.
    + rewrite filter_none; [done|]. intros j y Hj [Hsy Hdy].
      pose proof (Hatt j y Hj Hdy) as Ha. rewrite Hsy in Ha.
      destruct Ha as (c' & o' & Hh' & _). congruence.
    + rewrite filter_none; [done|]. intros j y Hj [Hsy Hdy].
      pose proof (Hatt j y Hj Hdy) as Ha. rewrite Hsy in Ha.
      destruct Ha as (c' & o' & Hh' & _). congruence.
Qed.

Lemma forEach_singleton {A} (x : A) (body : A → M unit) w :
  forEach [x] body w = body x w.
Proof.
  cbn [forEach]. unfold mbind, M_bind, bind.
  by destruct (body x w) as [[[] w']|].
Qed.

(** For a live controller, firing the configuration event of its editor is
    running its listener. *)
Lemma configuration_change_is_toggle w c enabled :
  wf w → served w → c ∈ Instances w →
  perform (ChangeConfiguration c true enabled) w = toggleFocusOnHover c enabled w.
Proof.
  intros Hw Hsv Hc.
  destruct (lookup_lt_is_Some_2 (controllers w) c) as [o Ho].
  { destruct Hw as [_ _ _ Hi _]. by apply (proj1 (Forall_forall _ _) Hi). }
  pose proof (sv_editor w Hsv c o Ho) as He.
  unfold toggleFocusOnHover. erewrite (bind_eq (getController c)) by by apply getController_eq.
  rewrite He. cbn [perform].
  erewrite bind_eq by reflexivity. symmetry. erewrite bind_eq by reflexivity. symmetry.
  unfold fireConfigurationChanged. erewrite bind_eq by reflexivity.
  assert (Hls : activeListeners (EditorConfiguration c)
                  (set_focusOnHover (<[c := enabled]>) w) = [ConfigurationChanged c]).
  { apply (configuration_listeners w c Hw Hsv Hc). }
  rewrite Hls. exact (forEach_singleton (ConfigurationChanged c) _ _).
Qed.

(** For the first controller of the registry, a terminal-created event is a
    call of its callback. *)
Lemma terminal_created_is_callback w c t :
  wf w → elected w → served w → head (Instances w) = Some c →
  perform (CreateTerminal t) w
  = _onTerminalCreated c t (set_terminalInstances (λ l, l ++ [t]) w).
Proof.
  intros Hw Hel Hsv Hh. cbn [perform].
  erewrite bind_eq by reflexivity.
  unfold fireInstanceCreated. erewrite bind_eq by reflexivity.
  assert (Hls : activeListeners InstanceCreated (set_terminalInstances (λ l, l ++ [t]) w)
                = [OnTerminalCreated c]).
  { destruct (terminal_listeners w Hw Hel Hsv) as [Hls _]. rewrite Hh in Hls. exact Hls. }
  rewrite Hls. exact (forEach_singleton (OnTerminalCreated c) _ _).
Qed.

(** ** Sequences of host actions that may dispose a controller twice *)

Lemma perform_total w a :
  wf w →
  (∀ c, a = CloseEditor c → c < length (controllers w)) →
  ∃ w', perform a w = Some (tt, w')
        ∧ wf w'
        ∧ length (controllers w')
          = match a with OpenEditor _ => S (length (controllers w)) | _ => length (controllers w) end.
Proof.
  intros Hw Hvalid.
  destruct (perform_ok w a Hw Hvalid) as (w' & E & Hw' & _).
  exists w'. split; [done|]. split; [done|].
  destruct a as [enabled|c|editor contribInfo enabled|t|t]; cbn [perform] in E.
  - set (w0 := set_focusOnHover (λ l, l ++ [enabled]) w) in *.
    assert (Hw0 : wf w0).
    { apply wf_set_focusOnHover; [done|]. rewrite length_app. lia. }
    destruct (constructor_ok w0 (length (focusOnHover w)) Hw0) as (w3 & E3 & _ & Hch).
    { simpl. rewrite length_app. simpl. lia. }
    erewrite bind_eq in E by reflexivity.
    erewrite bind_eq in E by reflexivity.
    erewrite bind_eq in E by exact E3.
    injection E as <-.
    cbn [controllers set_Instances]. rewrite (onlyHooksChanged_length _ _ Hch).
    simpl. rewrite length_app. simpl. lia.
  - destruct (dispose_ok w c Hw (Hvalid c eq_refl))
      as (w1 & w'' & _ & _ & E' & _ & _ & Hch & _ & Hlen & _).
    assert (w'' = w') as -> by congruence.
    by rewrite (onlyHooksChanged_length _ _ Hch).
  - set (w0 := if contribInfo then set_focusOnHover (<[editor := enabled]>) w else w).
    assert (Hw0 : wf w0).
    { unfold w0. destruct contribInfo; [|done].
      apply wf_set_focusOnHover; [done|]. by rewrite length_insert. }
    destruct (fireConfigurationChanged_ok w0 editor contribInfo Hw0) as (w'' & E' & _ & Hch).
    assert (E0 : perform (ChangeConfiguration editor contribInfo enabled) w = Some (tt, w'')).
    { unfold w0 in E'. simpl. destruct contribInfo; erewrite bind_eq by reflexivity; exact E'. }
    simpl in E0. assert (w'' = w') as -> by congruence.
    rewrite (onlyHooksChanged_length _ _ Hch). unfold w0. by destruct contribInfo.
  - set (w0 := set_terminalInstances (λ l, l ++ [t]) w).
    assert (Hw0 : wf w0) by by apply wf_set_terminalInstances.
    destruct (fireInstanceCreated_ok w0 t Hw0) as (w'' & E' & _ & Hch).
    erewrite bind_eq in E by reflexivity.
    change (fireInstanceCreated t w0 = Some (tt, w')) in E.
    assert (w'' = w') as -> by congruence.
    by rewrite (onlyHooksChanged_length _ _ Hch).
  - set (w0 := set_terminalInstances (filter (λ x, x ≠ t)) w).
    assert (Hw0 : wf w0) by by apply wf_set_terminalInstances.
    destruct (fireInstanceDisposed_ok w0 t Hw0) as (w'' & E' & _ & Hch).
    erewrite bind_eq in E by reflexivity.
    change (fireInstanceDisposed t w0 = Some (tt, w')) in E.
    assert (w'' = w') as -> by congruence.
    by rewrite (onlyHooksChanged_length _ _ Hch).
Qed.

Lemma run_total tr : ∀ w,
  wf w → constructedBefore (length (controllers w)) tr →
  ∃ w', run tr w = Some w' ∧ wf w'.
Proof.
  induction tr as [|a tr IH]; intros w Hw Hd.
  - by exists w.
  - destruct Hd as [Ha Hd].
    destruct (perform_total w a Hw) as (w1 & E1 & Hw1 & Hlen).
    { by intros c ->. }
    destruct (IH w1 Hw1) as (w' & E' & Hw').
    { rewrite Hlen. by destruct a. }
    exists w'. split; [by simpl; rewrite E1|done].
Qed.

(** The states a disciplined sequence of host actions reaches. *)
Lemma run_reach tr :
  disciplined tr →
  ∃ w, run tr init = Some w ∧ wf w ∧ elected w ∧ served w ∧ Instances w = liveAfter tr.
Proof.
  intros Hd.
  destruct (run_disciplined tr init wf_init elected_init Hd) as (w & E & Hw & Hel & Htr).
  exists w. split; [done|]. split; [done|]. split; [done|]. split.
  - exact (run_served tr init w wf_init elected_init served_init Hd E).
  - unfold liveAfter. simpl in Htr. by rewrite <- Htr.
Qed.

Lemma configuration_listeners_gone w e :
  served w → e ∉ Instances w → activeListeners (EditorConfiguration e) w = [].
Proof.
  intros [_ _ Hatt _ _] He. unfold activeListeners.
  rewrite filter_none; [done|]. intros j y Hj [Hsy Hdy].
  pose proof (Hatt j y Hj Hdy) as Ha. rewrite Hsy in Ha. by destruct Ha.
Qed.

Lemma forEach_idle {A} (body : A → M unit) (ls : list A) w :
  (∀ l, l ∈ ls → body l w = Some (tt, w)) → forEach ls body w = Some (tt, w).
Proof.
  induction ls as [|l ls IH]; intros Hbody; [done|].
  cbn [forEach]. erewrite bind_eq by (apply Hbody; by left).
  apply IH. intros l' ?. apply Hbody. by right.
Qed.

Lemma fireInstanceDisposed_idle w t : wf w → fireInstanceDisposed t w = Some (tt, w).
Proof.
  intros Hw. unfold fireInstanceDisposed. mpure.
  apply forEach_idle. intros l Hl.
  pose proof (proj1 (Forall_forall _ _) (activeListeners_ok w InstanceDisposed Hw) l Hl) as Hok.
  destruct l; try done. by apply _onTerminalDisposed_ok.
Qed.

(** ** Which listeners the class keeps attached *)

(** X1: after any sequence of host actions that disposes only live
    controllers, the terminal service's "instance created" and "instance
    disposed" events each have exactly one attached listener, the callback of
    the oldest live controller, and none when no controller is live: the
    subscriptions made by [_handleTerminals] are disposed with their owner
    and made again for the successor. *)
Theorem terminal_service_listeners tr :
  disciplined tr →
  ∃ w, run tr init = Some w
       ∧ activeListeners InstanceCreated w
         = OnTerminalCreated <$> option_list (head (liveAfter tr))
       ∧ activeListeners InstanceDisposed w
         = OnTerminalDisposed <$> option_list (head (liveAfter tr)).
Proof.
  intros Hd. destruct (run_reach tr Hd) as (w & E & Hw & Hel & Hsv & HI).
  exists w. split; [done|]. rewrite <- HI. by apply terminal_listeners.
Qed.

Lemma terminal_service_listeners_witness :
  ∃ w, run [OpenEditor true; OpenEditor false; CreateTerminal 7; CloseEditor 0;
            OpenEditor true; CloseEditor 1] init = Some w
       ∧ activeListeners InstanceCreated w
         = OnTerminalCreated <$> option_list (head (liveAfter
             [OpenEditor true; OpenEditor false; CreateTerminal 7; CloseEditor 0;
              OpenEditor true; CloseEditor 1]))
       ∧ activeListeners InstanceDisposed w
         = OnTerminalDisposed <$> option_list (head (liveAfter
             [OpenEditor true; OpenEditor false; CreateTerminal 7; CloseEditor 0;
              OpenEditor true; CloseEditor 1])).
Proof.
  apply terminal_service_listeners.
  unfold disciplined. simpl. repeat split; set_solver.
Defined.

(** X2: after such a sequence, the configuration-change event of editor [e]
    has exactly one attached listener if the controller of [e] is live, and
    none otherwise: the subscription made by the constructor lasts until
    [dispose] and is never made twice. *)
Theorem configuration_listener_lifetime tr e :
  disciplined tr →
  ∃ w, run tr init = Some w
       ∧ activeListeners (EditorConfiguration e) w
         = if bool_decide (e ∈ liveAfter tr) then [ConfigurationChanged e] else [].
Proof.
  intros Hd. destruct (run_reach tr Hd) as (w & E & Hw & Hel & Hsv & HI).
  exists w. split; [done|]. rewrite <- HI. case_bool_decide as He.
  - by apply configuration_listeners.
  - by apply configuration_listeners_gone.
Qed.

Lemma configuration_listener_lifetime_witness :
  ∃ w, run [OpenEditor true; OpenEditor false; CloseEditor 0] init = Some w
       ∧ activeListeners (EditorConfiguration 0) w
         = if bool_decide (0 ∈ liveAfter [OpenEditor true; OpenEditor false; CloseEditor 0])
           then [ConfigurationChanged 0] else [].
Proof.
  apply configuration_listener_lifetime.
  unfold disciplined. simpl. repeat split; set_solver.
Defined.

(** ** What the host's events do *)

(** X3: a configuration change of a live controller's editor that touches the
    contribution options runs that controller's listener exactly once, on the
    state with the new flag; for the editor of a disposed controller no
    listener runs and only the host's flag changes. *)
Theorem configuration_change_delivery tr w e enabled :
  disciplined tr → run tr init = Some w →
  perform (ChangeConfiguration e true enabled) w
  = if bool_decide (e ∈ liveAfter tr)
    then onDidChangeConfiguration e true (set_focusOnHover (<[e := enabled]>) w)
    else Some (tt, set_focusOnHover (<[e := enabled]>) w).
Proof.
  intros Hd Hrun. destruct (run_reach tr Hd) as (w' & E & Hw & Hel & Hsv & HI).
  assert (w' = w) as -> by congruence. rewrite <- HI.
  cbn [perform]. erewrite bind_eq by reflexivity.
  unfold fireConfigurationChanged. erewrite bind_eq by reflexivity.
  case_bool_decide as He.
  - assert (Hls : activeListeners (EditorConfiguration e)
                    (set_focusOnHover (<[e := enabled]>) w) = [ConfigurationChanged e]).
    { apply (configuration_listeners w e Hw Hsv He). }
    rewrite Hls. exact (forEach_singleton (ConfigurationChanged e) _ _).
  - assert (Hls : activeListeners (EditorConfiguration e)
                    (set_focusOnHover (<[e := enabled]>) w) = []).
    { apply (configuration_listeners_gone w e Hsv He). }
    by rewrite Hls.
Qed.

Lemma configuration_change_delivery_witness :
  perform (ChangeConfiguration 0 true false) twoEditors
  = if bool_decide (0 ∈ liveAfter [OpenEditor true; OpenEditor true])
    then onDidChangeConfiguration 0 true (set_focusOnHover (<[0 := false]>) twoEditors)
    else Some (tt, set_focusOnHover (<[0 := false]>) twoEditors).
Proof.
  apply configuration_change_delivery; [|reflexivity].
  unfold disciplined. simpl. done.
Defined.

(** X4: a configuration change that does not touch the contribution options
    changes nothing, in any state and whatever listeners are attached: the
    constructor's listener only acts when [e.contribInfo] is set. *)
Theorem configuration_change_elsewhere w e enabled :
  perform (ChangeConfiguration e false enabled) w = Some (tt, w).
Proof.
  cbn [perform]. erewrite bind_eq by reflexivity.
  unfold fireConfigurationChanged. erewrite bind_eq by reflexivity.
  apply forEach_idle. intros l _. by destruct l.
Qed.



(** X6: in every state the host can reach, a terminal-disposed event changes
    nothing in the class: the terminal leaves the service's list, and no
    subscription, Map object or controller field is touched, whether or not a
    hook was stored for the terminal. *)
Theorem terminal_disposed_event_is_idle tr w t :
  run tr init = Some w →
  perform (DisposeTerminal t) w
  = Some (tt, set_terminalInstances (filter (λ x, x ≠ t)) w).
Proof.
  intros Hrun. cbn [perform]. erewrite bind_eq by reflexivity.
  apply fireInstanceDisposed_idle, wf_set_terminalInstances.
  by eapply run_wf; [apply wf_init|].
Qed.

Lemma terminal_disposed_event_is_idle_witness :
  perform (DisposeTerminal 7) busyEditor
  = Some (tt, set_terminalInstances (filter (λ x, x ≠ 7%Z)) busyEditor).
Proof.
  by apply (terminal_disposed_event_is_idle [CreateTerminal 7; OpenEditor true]).
Defined.

(** ** What holds whatever the host does *)

(** X7: no call into the class throws, even when controllers are disposed
    twice or out of order: every sequence of host actions whose [dispose]
    calls are on constructed controllers runs to the end. *)
Theorem host_calls_return tr :
  constructedBefore 0 tr → ∃ w, run tr init = Some w.
Proof.
  intros Hd. destruct (run_total tr init wf_init Hd) as (w & E & _). by exists w.
Qed.

Lemma host_calls_return_witness :
  ∃ w, run [OpenEditor true; CreateTerminal 7; OpenEditor true;
            CloseEditor 0; CloseEditor 0; CloseEditor 1; CloseEditor 1;
            ChangeConfiguration 0 true true; CreateTerminal 8] init = Some w.
Proof.
  apply host_calls_return. simpl. repeat split; lia.
Defined.

(** X8: the Map objects never get an entry: whatever the host does, every Map
    object of the heap has an empty entry table, since hooks are only ever
    stored by bracket assignment and [set] is never called. *)
Theorem map_entries_stay_empty tr w m mo :
  run tr init = Some w → hookMaps w !! m = Some mo → entries mo = ∅.
Proof.
  intros Hrun Hmo.
  assert (Hw : wf w) by (by eapply run_wf; [apply wf_init|]).
  by destruct (wf_lookup_mapOk w m mo Hw Hmo).
Qed.

Lemma map_entries_stay_empty_witness :
  ∃ mo, hookMaps busyEditor !! 0 = Some mo ∧ props mo !! 7%Z = Some 4 ∧ entries mo = ∅.
Proof.
  eexists. split; [reflexivity|]. split; [reflexivity|].
  by apply (map_entries_stay_empty [CreateTerminal 7; OpenEditor true] busyEditor 0).
Defined.

(** X9: the registry never lists a controller twice and only lists
    constructed controllers, whatever the host does. *)
Theorem registry_has_no_duplicates tr w :
  run tr init = Some w →
  NoDup (Instances w) ∧ ∀ c, c ∈ Instances w → c < length (controllers w).
Proof.
  intros Hrun.
  assert (Hw : wf w) by (by eapply run_wf; [apply wf_init|]).
  destruct Hw as [_ _ _ Hi Hnd]. split; [done|].
  intros c Hc. by apply (proj1 (Forall_forall _ _) Hi).
Qed.

Lemma registry_has_no_duplicates_witness :
  NoDup (Instances disposedTwice)
  ∧ ∀ c, c ∈ Instances disposedTwice → c < length (controllers disposedTwice).
Proof.
  by apply (registry_has_no_duplicates
              [OpenEditor true; CreateTerminal 7; OpenEditor true;
               CloseEditor 0; CloseEditor 0]).
Defined.

(** ** Editor hooks follow the flag *)

Lemma kept_where (P : EventSource → Prop) ds hs news :
  (∀ h d, h ∈ hs → ds !! h = Some d → ¬ P (source d)) →
  Forall (λ d, ¬ P (source d)) news →
  ∀ h d, P (source d) →
         (ds !! h = Some d ↔ (disposeAll hs ds ++ news) !! h = Some d).
Proof.
  intros Hhs Hnews h d Hd. split.
  - intros Hh.
    rewrite lookup_app_l by (rewrite disposeAll_length; by eapply lookup_lt_Some).
    rewrite disposeAll_lookup, Hh. case_decide as Hin; [|done].
    exfalso. by eapply Hhs.
  - intros Hh. apply lookup_app_Some in Hh as [Hh|(_ & Hh)].
    + rewrite disposeAll_lookup in Hh.
      destruct (ds !! h) as [d0|] eqn:E; simpl in Hh; [|done].
      injection Hh as <-. case_decide as Hin; [|done].
      exfalso. by eapply (Hhs h d0).
    + exfalso. eapply (proj1 (Forall_forall _ _) Hnews); [|exact Hd].
      by eapply list_elem_of_lookup_2.
Qed.

Lemma disposeAll_source hs ds h d :
  disposeAll hs ds !! h = Some d → ∃ d0, ds !! h = Some d0 ∧ source d0 = source d.
Proof.
  rewrite disposeAll_lookup. destruct (ds !! h) as [d0|]; [|done].
  simpl. intros [= <-]. exists d0. split; [done|]. by case_decide.
Qed.

Lemma sameEditorHooks_refl w : sameEditorHooks w w.
Proof. done. Qed.

Lemma sameEditorHooks_trans w1 w2 w3 :
  sameEditorHooks w1 w2 → sameEditorHooks w2 w3 → sameEditorHooks w1 w3.
Proof.
  intros (Hf & Hv & Hd) (Hf' & Hv' & Hd'). split; [congruence|]. split; [congruence|].
  intros h d Hs. rewrite (Hd h d Hs). by apply Hd'.
Qed.

Lemma handler_view_alter (f : FocusOnHoverController → FocusOnHoverController) (c : nat)
    (cs : list FocusOnHoverController) :
  (∀ o, editorHook (f o) = editorHook o) →
  editorHook <$> alter f c cs = editorHook <$> cs.
Proof.
  intros Hf. revert c. induction cs as [|o cs IH]; intros c; [done|].
  destruct c as [|c]; simpl; [by rewrite Hf|]. f_equal. apply IH.
Qed.

Lemma handler_view_lookup (l l' : list FocusOnHoverController) (c : nat) o' :
  editorHook <$> l' = editorHook <$> l →
  l' !! c = Some o' →
  ∃ o, l !! c = Some o ∧ _editor o = _editor o'
       ∧ _editorMouseMoveHandler o = _editorMouseMoveHandler o'.
Proof.
  intros H Hc. apply (f_equal (λ x, x !! c)) in H.
  rewrite !list_lookup_fmap, Hc in H. simpl in H.
  destruct (l !! c) as [o|]; [|done]. exists o. split; [done|].
  simpl in H. unfold editorHook in H. by simplify_eq.
Qed.

Lemma hoveringBut_frame x w w' :
  sameEditorHooks w w' →
  (∀ c, Some c ≠ x → (c ∈ Instances w' ↔ c ∈ Instances w)) →
  hoveringBut x w → hoveringBut x w'.
Proof.
  intros (Hf & Hv & Hd) HI [Hflag Hgone Hatt Hact]. split.
  - intros c o' Hx Hc Ho'.
    destruct (handler_view_lookup _ _ c o' Hv Ho') as (o & Ho & _ & <-).
    rewrite Hf. apply (Hflag c o); [done|by apply HI|done].
  - intros c o' Hx Hc Ho'.
    destruct (handler_view_lookup _ _ c o' Hv Ho') as (o & Ho & _ & <-).
    apply (Hgone c o); [done| |done]. intros ?. by apply Hc, HI.
  - intros h d e Hh Hdis Hs.
    apply Hd in Hh; [|by rewrite Hs].
    destruct (Hatt h d e Hh Hdis Hs) as (o & Ho & Hho).
    destruct (handler_view_lookup _ _ e o (eq_sym Hv) Ho) as (o' & Ho' & _ & Heq).
    exists o'. split; [done|congruence].
  - intros c o' h Ho' Hh.
    destruct (handler_view_lookup _ _ c o' Hv Ho') as (o & Ho & _ & Heq).
    destruct (Hact c o h Ho) as (d & Hd' & Hdis & Hs); [congruence|].
    exists d. split; [|done]. apply Hd; [by rewrite Hs|done].
Qed.

Lemma hovering_but c w : hovering w → hoveringBut (Some c) w.
Proof.
  intros [Hflag Hgone Hatt Hact]. split; try done.
  - intros c' o _ Hin Ho. by apply (Hflag c' o).
  - intros c' o _ Hin Ho. by apply (Hgone c' o).
Qed.

Lemma hoveringBut_close c w :
  hoveringBut (Some c) w →
  (∀ o, controllers w !! c = Some o →
        if decide (c ∈ Instances w)
        then is_Some (_editorMouseMoveHandler o) ↔ focusOnHover w !! c = Some true
        else _editorMouseMoveHandler o = None) →
  hovering w.
Proof.
  intros [Hflag Hgone Hatt Hact] Hc. split; try done.
  - intros c' o _ Hin Ho. destruct (decide (c' = c)) as [->|Hne].
    + specialize (Hc o Ho). by rewrite decide_True in Hc.
    + apply (Hflag c' o); [congruence|done|done].
  - intros c' o _ Hin Ho. destruct (decide (c' = c)) as [->|Hne].
    + specialize (Hc o Ho). by rewrite decide_False in Hc.
    + apply (Hgone c' o); [congruence|done|done].
Qed.

Lemma hoveringBut_unhooked c o h w :
  controllers w !! c = Some o → _editorMouseMoveHandler o = Some h →
  hoveringBut (Some c) w → hoveringBut (Some c) (unhooked c h w).
Proof.
  intros Ho Hh [Hflag Hgone Hatt Hact].
  destruct (Hact c o h Ho Hh) as (dh & Hdh & _ & Hsh).
  split; cbn [unhooked Instances focusOnHover controllers disposables
              set_controllers set_disposables].
  - intros c' o' Hx Hc' Ho'. assert (c ≠ c') by congruence.
    rewrite list_lookup_alter_ne in Ho' by done. by apply (Hflag c' o').
  - intros c' o' Hx Hc' Ho'. assert (c ≠ c') by congruence.
    rewrite list_lookup_alter_ne in Ho' by done. by apply (Hgone c' o').
  - intros h' d e Hh' Hdis Hs.
    apply active_alter_inv in Hh' as [Hne Hh']; [|done].
    destruct (Hatt h' d e Hh' Hdis Hs) as (oe & Hoe & Hhe).
    destruct (decide (c = e)) as [<-|Hec]; [congruence|].
    exists oe. by rewrite list_lookup_alter_ne.
  - intros c' o' h' Ho' Hh'. destruct (decide (c = c')) as [<-|Hne].
    + rewrite list_lookup_alter_eq, Ho in Ho'. by simplify_eq/=.
    + rewrite list_lookup_alter_ne in Ho' by done.
      destruct (Hact c' o' h' Ho' Hh') as (d & Hd & Hdis & Hs).
      exists d. split; [|done]. rewrite list_lookup_alter_ne; [done|].
      intros ->. congruence.
Qed.

Lemma hoveringBut_hooked c o w :
  controllers w !! c = Some o → _editorMouseMoveHandler o = None →
  hoveringBut (Some c) w → hoveringBut (Some c) (hooked c c w).
Proof.
  intros Ho Hh [Hflag Hgone Hatt Hact].
  split; cbn [hooked Instances focusOnHover controllers disposables
              set_controllers set_disposables].
  - intros c' o' Hx Hc' Ho'. assert (c ≠ c') by congruence.
    rewrite list_lookup_alter_ne in Ho' by done. by apply (Hflag c' o').
  - intros c' o' Hx Hc' Ho'. assert (c ≠ c') by congruence.
    rewrite list_lookup_alter_ne in Ho' by done. by apply (Hgone c' o').
  - intros h' d e Hh' Hdis Hs.
    apply lookup_app_Some in Hh' as [Hh'|(Hle & Hh')].
    + destruct (Hatt h' d e Hh' Hdis Hs) as (oe & Hoe & Hhe).
      destruct (decide (c = e)) as [<-|Hec]; [congruence|].
      exists oe. by rewrite list_lookup_alter_ne.
    + apply list_lookup_singleton_Some in Hh' as [Hz <-]. simpl in Hs.
      injection Hs as <-.
      exists (with_editorMouseMoveHandler (Some (length (disposables w))) o).
      rewrite list_lookup_alter_eq, Ho. split; [done|]. simpl. f_equal. lia.
  - intros c' o' h' Ho' Hh'. destruct (decide (c = c')) as [<-|Hne].
    + rewrite list_lookup_alter_eq, Ho in Ho'. simplify_eq/=.
      eexists. split; [apply lookup_snoc_new|done].
    + rewrite list_lookup_alter_ne in Ho' by done.
      destruct (Hact c' o' h' Ho' Hh') as (d & Hd & Hdis & Hs).
      exists d. split; [|done]. rewrite lookup_app_l; [done|]. by eapply lookup_lt_Some.
Qed.

Lemma disposeAll_app hs1 hs2 ds :
  disposeAll (hs1 ++ hs2) ds = disposeAll hs2 (disposeAll hs1 ds).
Proof. apply foldl_app. Qed.

Lemma subscribed_not_editor w h src l d :
  subscribed w h src l → ¬ isEditorMouseMove src →
  disposables w !! h = Some d → ¬ isEditorMouseMove (source d).
Proof. intros (d' & Hd' & <- & _) Hs Hd. by simplify_eq. Qed.

Lemma _unhookEvents_hooks w c o :
  wf w → controllers w !! c = Some o →
  ∃ w', _unhookEvents c w = Some (tt, w') ∧ wf w' ∧ Instances w' = Instances w
        ∧ match _editorMouseMoveHandler o with
          | Some h => sameEditorHooks (unhooked c h w) w'
          | None => w' = w
          end.
Proof.
  intros Hw Ho.
  destruct (_unhookEvents_ok w c Hw) as (w' & E & Hw' & Hch); [by eapply lookup_lt_Some|].
  exists w'. split; [done|]. split; [done|]. split; [by destruct Hch|].
  destruct (_editorMouseMoveHandler o) as [h|] eqn:He.
  2:{ rewrite (_unhookEvents_idle w c o Ho He) in E. by injection E. }
  destruct (_terminalInstanceCreatedHandler o) as [hc|] eqn:Hcr.
  - destruct (wf_lookup_controller w c o Hw Ho) as [_ _ Hhooks _ _ _ _ _ _].
    destruct Hhooks as [m Hm]; [by rewrite Hcr|].
    destruct (wf_lookup_map w c o m Hw Ho Hm) as (mo & Hmo & Hent).
    rewrite (_unhookEvents_manager w c o h hc m mo Ho He Hcr Hm Hmo) in E.
    injection E as <-.
    split; [done|]. split; [done|].
    intros h' d Hd.
    pose proof (kept_where isEditorMouseMove (alter mark_disposed h (disposables w))
                  (hooksIn mo) []) as K.
    rewrite app_nil_r in K. apply K; [|done|done].
    intros x dx Hin Hx.
    destruct (disposeAll_source [h] (disposables w) x dx Hx) as (d0 & Hd0 & Hs).
    destruct (hooksIn_source w mo x d0 (wf_lookup_mapOk w m mo Hw Hmo) Hin Hd0) as (t & Ht).
    rewrite <- Hs, Ht. by intros [].
  - rewrite (_unhookEvents_editor w c o h Ho He Hcr) in E. injection E as <-.
    apply sameEditorHooks_refl.
Qed.

Lemma _hookEvents_hooks w c o :
  wf w → controllers w !! c = Some o →
  ∃ w', _hookEvents c w = Some (tt, w') ∧ wf w' ∧ Instances w' = Instances w
        ∧ if decide (focusOnHover w !! _editor o = Some true)
          then sameEditorHooks (hooked c (_editor o) w) w'
          else w' = w.
Proof.
  intros Hw Ho.
  destruct (_hookEvents_ok w c Hw) as (w' & E & Hw' & Hch); [by eapply lookup_lt_Some|].
  exists w'. split; [done|]. split; [done|]. split; [by destruct Hch|].
  destruct (wf_lookup_controller w c o Hw Ho) as [Hed _ Hhooks _ _ _ _ _ _].
  destruct (lookup_lt_is_Some_2 _ _ Hed) as [b Hb].
  destruct b.
  2:{ rewrite decide_False by congruence.
      rewrite (_hookEvents_off w c o Ho Hb) in E. by injection E. }
  rewrite decide_True by done.
  destruct (_terminalInstanceCreatedHandler o) as [hc|] eqn:Hcr.
  - destruct Hhooks as [m Hm]; [done|].
    destruct (wf_lookup_map w c o m Hw Ho Hm) as (mo & Hmo & Hent).
    rewrite (_hookEvents_manager w c o hc m mo Ho Hb Hcr Hm Hmo) in E.
    injection E as <-.
    split; [done|]. split; [done|].
    intros h' d Hd.
    apply (kept_where isEditorMouseMove
             (disposables w ++ [mkDisposable (EditorMouseMove (_editor o))
                                             (OnEditorMouseMove c) false])
             [] (terminalHook <$> terminalInstances w)); [by intros ? ? ?%elem_of_nil| |done].
    apply Forall_forall. intros x (t & -> & _)%list_elem_of_fmap. by intros [].
  - rewrite (_hookEvents_editor w c o Ho Hb Hcr) in E. injection E as <-.
    apply sameEditorHooks_refl.
Qed.

Lemma _onTerminalCreated_hooks w c t :
  wf w → hasHooks w c →
  ∃ w', _onTerminalCreated c t w = Some (tt, w')
        ∧ Instances w' = Instances w ∧ sameEditorHooks w w'.
Proof.
  intros Hw (o & Ho & [m Hm]).
  destruct (wf_lookup_map w c o m Hw Ho Hm) as (mo & Hmo & _).
  destruct (wf_lookup_controller w c o Hw Ho) as [Hed _ _ _ _ _ _ _ _].
  destruct (lookup_lt_is_Some_2 _ _ Hed) as [b Hb].
  destruct b.
  - eexists. split; [by eapply _onTerminalCreated_on|]. split; [done|].
    split; [done|]. split; [done|].
    intros h' d Hd.
    apply (kept_where isEditorMouseMove (disposables w) [] [terminalHook t]);
      [by intros ? ? ?%elem_of_nil| |done].
    apply Forall_singleton. by intros [].
  - exists w. split; [by eapply _onTerminalCreated_off|]. done.
Qed.

Lemma releaseTerminals_hooks w c o w1 :
  wf w → controllers w !! c = Some o →
  releaseTerminals c w = Some (tt, w1) → sameEditorHooks w w1.
Proof.
  intros Hw Ho E.
  destruct (wf_lookup_controller w c o Hw Ho) as [_ _ Hman [hcfg Hcfg] Hdis Tcfg _ Tcr Tdi].
  assert (Hty : ∀ x dx, x = hcfg ∨ _terminalInstanceCreatedHandler o = Some x
                              ∨ _terminalInstanceDisposedHandler o = Some x →
                        disposables w !! x = Some dx → ¬ isEditorMouseMove (source dx)).
  { intros x dx [->|[Hx|Hx]] Hdx.
    - eapply subscribed_not_editor; [by apply Tcfg| |done]. by intros [].
    - eapply subscribed_not_editor; [by apply Tcr| |done]. by intros [].
    - eapply subscribed_not_editor; [by apply Tdi| |done]. by intros []. }
  destruct (_terminalInstanceCreatedHandler o) as [hc|] eqn:Hcr.
  - destruct Hman as [m Hm]; [done|]. destruct Hdis as [hd Hd]; [done|].
    assert (Hty3 : ∀ x dx, x ∈ [hcfg; hc; hd] → disposables w !! x = Some dx →
                           ¬ isEditorMouseMove (source dx)).
    { intros x dx Hx. apply Hty. rewrite !elem_of_cons in Hx.
      destruct Hx as [->|[->|[->|Hx]]]; [by left|by right; left|by right; right|].
      by apply elem_of_nil in Hx. }
    destruct (wf_lookup_map w c o m Hw Ho Hm) as (mo & Hmo & Hent).
    destruct (splice (Instances w) (indexOf (Instances w) c) 1) as [|other rest] eqn:Hsp.
    + rewrite (releaseTerminals_last w c o hcfg hc hd m mo Ho Hcfg Hcr Hd Hsp Hm Hmo) in E.
      injection E as <-.
      split; [done|]. split; [done|].
      intros h' d Hs.
      pose proof (kept_where isEditorMouseMove (disposables w)
                    ([hcfg; hc; hd] ++ hooksIn mo) []) as K.
      rewrite app_nil_r, disposeAll_app in K. apply K; [|done|done].
      intros x dx [Hx|Hx]%elem_of_app Hdx; [by eapply Hty3|].
      destruct (hooksIn_source w mo x dx (wf_lookup_mapOk w m mo Hw Hmo) Hx Hdx) as (t & Ht).
      rewrite Ht. by intros [].
    + assert (Hother : other < length (controllers w)).
      { destruct Hw as [_ _ _ Hi _].
        apply (proj1 (Forall_forall _ _) Hi).
        apply (sublist_subseteq _ _ (splice_sublist _ (indexOf (Instances w) c) 1)).
        rewrite Hsp. by left. }
      destruct (lookup_lt_is_Some_2 _ _ Hother) as [oo Hoo].
      rewrite (releaseTerminals_handoff w c o hcfg hc hd other rest oo
                 Ho Hcfg Hcr Hd Hsp Hoo) in E.
      injection E as <-.
      split; [done|]. split.
      * cbn [controllers set_controllers set_hookMaps set_disposables set_Instances resigned].
        by rewrite !handler_view_alter.
      * intros h' d Hs.
        apply (kept_where isEditorMouseMove (disposables w) [hcfg; hc; hd]
                 [mkDisposable InstanceCreated (OnTerminalCreated other) false;
                  mkDisposable InstanceDisposed (OnTerminalDisposed other) false]);
          [done| |done].
        apply Forall_cons. split; [by intros []|]. apply Forall_singleton. by intros [].
  - rewrite (releaseTerminals_plain w c o hcfg Ho Hcfg Hcr) in E. injection E as <-.
    split; [done|]. split; [done|].
    intros h' d Hs.
    pose proof (kept_where isEditorMouseMove (disposables w) [hcfg] []) as K.
    rewrite app_nil_r in K. apply K; [|done|done].
    intros x dx Hx%list_elem_of_singleton Hdx. apply (Hty x dx); [by left|done].
Qed.

Lemma hoveringBut_setFlag e b w :
  hovering w → hoveringBut (Some e) (set_focusOnHover (<[e := b]>) w).
Proof.
  intros [Hflag Hgone Hatt Hact]. split; try done.
  - intros c o Hx Hc Ho. cbn [focusOnHover set_focusOnHover].
    rewrite list_lookup_insert_ne by congruence. by apply (Hflag c o).
  - intros c o _ Hc Ho. by apply (Hgone c o).
Qed.

Lemma hoveringBut_constructed w enabled first :
  wf w → served w → hovering w →
  hoveringBut (Some (length (controllers w)))
    (constructed (length (focusOnHover w)) first
       (set_focusOnHover (λ l, l ++ [enabled]) w)).
Proof.
  intros Hw [Hlen _ _ _ _] [Hflag Hgone Hatt Hact].
  assert (Hold : ∀ c' o x, Some c' ≠ Some (length (controllers w)) →
                 (controllers w ++ [x]) !! c' = Some o → controllers w !! c' = Some o).
  { intros c' o x Hne Ho. apply lookup_app_Some in Ho as [Ho|[Hle Ho]]; [done|].
    apply list_lookup_singleton_Some in Ho as [Hz _]. exfalso. apply Hne. f_equal. lia. }
  split; cbn [constructed Instances controllers disposables focusOnHover set_focusOnHover].
  - intros c' o Hne Hc' Ho. apply Hold in Ho; [|done].
    rewrite lookup_app_l by (rewrite Hlen; by eapply lookup_lt_Some).
    by apply (Hflag c' o).
  - intros c' o Hne Hc' Ho. apply Hold in Ho; [|done]. by apply (Hgone c' o).
  - intros h d e Hh Hdis Hs. apply lookup_app_Some in Hh as [Hh|[_ Hh]].
    + destruct (Hatt h d e Hh Hdis Hs) as (o & Ho & Hho). exists o. split; [|done].
      rewrite lookup_app_l; [done|]. by eapply lookup_lt_Some.
    + exfalso. apply list_elem_of_lookup_2 in Hh.
      destruct first; rewrite !elem_of_cons in Hh;
        repeat (destruct Hh as [->|Hh]; [done|]); by apply elem_of_nil in Hh.
  - intros c' o h Ho Hh.
    destruct (decide (c' = length (controllers w))) as [->|Hne].
    + rewrite lookup_snoc_new in Ho. by destruct first; simplify_eq/=.
    + apply Hold in Ho; [|congruence].
      destruct (Hact c' o h Ho Hh) as (d & Hd & Hdis & Hs). exists d. split; [|done].
      rewrite lookup_app_l; [done|]. by eapply lookup_lt_Some.
Qed.

Lemma hovering_opened w enabled w' :
  wf w → served w → hovering w →
  perform (OpenEditor enabled) w = Some (tt, w') → hovering w'.
Proof.
  intros Hw Hsv Hhv E. cbn [perform] in E.
  set (w0 := set_focusOnHover (λ l, l ++ [enabled]) w) in *.
  assert (Hw0 : wf w0).
  { apply wf_set_focusOnHover; [done|]. rewrite length_app. lia. }
  assert (He : length (focusOnHover w) < length (focusOnHover w0)).
  { simpl. rewrite length_app. simpl. lia. }
  set (first := bool_decide (Instances w0 = [])).
  set (w2 := constructed (length (focusOnHover w)) first w0).
  pose proof (wf_constructed w0 _ first Hw0 He) as Hw2.
  set (c := length (controllers w)).
  assert (Hec : length (focusOnHover w) = c) by (by destruct Hsv).
  assert (Ho2 : ∃ o2, controllers w2 !! c = Some o2 ∧ _editor o2 = c
                      ∧ _editorMouseMoveHandler o2 = None).
  { eexists. split; [apply lookup_snoc_new|]. by destruct first. }
  destruct Ho2 as (o2 & Ho2 & Hed2 & Hh2).
  destruct (_hookEvents_hooks w2 c o2 Hw2 Ho2) as (w3 & E3 & Hw3 & HI3 & Hcase).
  erewrite bind_eq in E by reflexivity.
  erewrite bind_eq in E by reflexivity.
  erewrite bind_eq in E by (apply constructor_eq; exact E3).
  injection E as <-.
  pose proof (hoveringBut_constructed w enabled first Hw Hsv Hhv) as Hb2.
  assert (Hflag2 : focusOnHover w2 !! c = Some enabled).
  { rewrite <- Hec. apply lookup_snoc_new. }
  assert (Hmem : ∀ c', Some c' ≠ Some c →
                 c' ∈ Instances (set_Instances (λ l, l ++ [length (controllers w0)]) w3)
                 ↔ c' ∈ Instances w2).
  { intros c' Hne. cbn [Instances set_Instances]. rewrite HI3, elem_of_app.
    split; [|by left]. intros [?|Hx%list_elem_of_singleton]; [done|].
    subst c'. by destruct Hne. }
  rewrite Hed2 in Hcase.
  apply (hoveringBut_close c); destruct enabled.
  - rewrite decide_True in Hcase by done.
    eapply (hoveringBut_frame _ (hooked c c w2)); [exact Hcase|exact Hmem|].
    by eapply hoveringBut_hooked.
  - rewrite decide_False in Hcase by (rewrite Hflag2; congruence). subst w3.
    eapply hoveringBut_frame; [|exact Hmem|exact Hb2]. done.
  - rewrite decide_True in Hcase by done.
    intros o3 Ho3. rewrite decide_True.
    2:{ cbn [Instances set_Instances]. rewrite elem_of_app. right. by left. }
    destruct Hcase as (Hf & Hv & _).
    destruct (handler_view_lookup _ _ c o3 Hv Ho3) as (oh & Hoh & _ & Hheq).
    cbn [hooked controllers set_controllers set_disposables] in Hoh.
    rewrite list_lookup_alter_eq, Ho2 in Hoh. injection Hoh as <-. simpl in Hheq.
    rewrite <- Hheq. split; [intros _|done].
    change (focusOnHover w3 !! c = Some true). by rewrite Hf.
  - rewrite decide_False in Hcase by (rewrite Hflag2; congruence). subst w3.
    intros o3 Ho3. rewrite decide_True.
    2:{ cbn [Instances set_Instances]. rewrite elem_of_app. right. by left. }
    change (controllers w2 !! c = Some o3) in Ho3.
    assert (o3 = o2) as -> by congruence.
    rewrite Hh2. change (is_Some (@None ref) ↔ focusOnHover w2 !! c = Some true).
    rewrite Hflag2. split; [by intros ?%is_Some_None|done].
Qed.

Lemma hovering_closed w c w' :
  wf w → hovering w → c ∈ Instances w →
  perform (CloseEditor c) w = Some (tt, w') → hovering w'.
Proof.
  intros Hw Hhv Hc E. cbn [perform] in E.
  assert (Hlt : c < length (controllers w)).
  { destruct Hw as [_ _ _ Hi _]. by apply (proj1 (Forall_forall _ _) Hi). }
  destruct (lookup_lt_is_Some_2 _ _ Hlt) as [o Ho].
  destruct (dispose_ok w c Hw Hlt)
    as (w1 & w'' & E1 & E2 & E' & Hw1 & _ & _ & HI1 & Hlen1 & _).
  assert (w'' = w') as -> by congruence.
  pose proof (releaseTerminals_hooks w c o w1 Hw Ho E1) as Hs1.
  rewrite splice_indexOf_member in HI1 by (done || by destruct Hw).
  assert (Hb1 : hoveringBut (Some c) w1).
  { eapply hoveringBut_frame; [exact Hs1| |by apply hovering_but].
    intros c' Hne. rewrite HI1, list_elem_of_filter.
    split; [by intros [_ ?]|]. intros ?. split; [congruence|done]. }
  destruct (lookup_lt_is_Some_2 (controllers w1) c) as [o1 Ho1]; [by rewrite Hlen1|].
  destruct (_unhookEvents_hooks w1 c o1 Hw1 Ho1) as (w2 & E2' & _ & HI2 & Hcase).
  assert (w2 = w') as -> by congruence.
  assert (Hout : c ∉ Instances w').
  { rewrite HI2, HI1, list_elem_of_filter. by intros [? _]. }
  apply (hoveringBut_close c).
  - destruct (_editorMouseMoveHandler o1) as [h|] eqn:Hh1.
    + eapply hoveringBut_frame; [exact Hcase| |by eapply hoveringBut_unhooked].
      intros c' _. by rewrite HI2.
    + by subst w'.
  - intros o' Ho'. rewrite decide_False by done.
    destruct (_editorMouseMoveHandler o1) as [h|] eqn:Hh1.
    + destruct Hcase as (_ & Hv & _).
      destruct (handler_view_lookup _ _ c o' Hv Ho') as (oh & Hoh & _ & Hheq).
      cbn [unhooked controllers set_controllers set_disposables] in Hoh.
      rewrite list_lookup_alter_eq, Ho1 in Hoh. injection Hoh as <-. by rewrite <- Hheq.
    + subst w'. congruence.
Qed.

Lemma perform_configuration_live w e enabled :
  wf w → served w → e ∈ Instances w →
  perform (ChangeConfiguration e true enabled) w
  = (_unhookEvents e;; _hookEvents e) (set_focusOnHover (<[e := enabled]>) w).
Proof.
  intros Hw Hsv He. cbn [perform]. erewrite bind_eq by reflexivity.
  unfold fireConfigurationChanged. erewrite bind_eq by reflexivity.
  assert (Hls : activeListeners (EditorConfiguration e)
                  (set_focusOnHover (<[e := enabled]>) w) = [ConfigurationChanged e]).
  { apply (configuration_listeners w e Hw Hsv He). }
  rewrite Hls. exact (forEach_singleton (ConfigurationChanged e) _ _).
Qed.

Lemma perform_configuration_gone w e enabled :
  served w → e ∉ Instances w →
  perform (ChangeConfiguration e true enabled) w
  = Some (tt, set_focusOnHover (<[e := enabled]>) w).
Proof.
  intros Hsv He. cbn [perform]. erewrite bind_eq by reflexivity.
  unfold fireConfigurationChanged. erewrite bind_eq by reflexivity.
  assert (Hls : activeListeners (EditorConfiguration e)
                  (set_focusOnHover (<[e := enabled]>) w) = []).
  { apply (configuration_listeners_gone w e Hsv He). }
  by rewrite Hls.
Qed.

Lemma hovering_configured w e contribInfo enabled w' :
  wf w → served w → hovering w →
  perform (ChangeConfiguration e contribInfo enabled) w = Some (tt, w') → hovering w'.
Proof.
  intros Hw Hsv Hhv E. destruct contribInfo.
  2:{ assert (E0 : perform (ChangeConfiguration e false enabled) w = Some (tt, w)).
      { cbn [perform]. erewrite bind_eq by reflexivity.
        unfold fireConfigurationChanged. erewrite bind_eq by reflexivity.
        apply forEach_idle. intros l _. by destruct l. }
      assert (w' = w) as -> by congruence. done. }
  set (w0 := set_focusOnHover (<[e := enabled]>) w) in *.
  assert (Hw0 : wf w0).
  { apply wf_set_focusOnHover; [done|]. by rewrite length_insert. }
  pose proof (hoveringBut_setFlag e enabled w Hhv) as Hb0. fold w0 in Hb0.
  destruct (decide (e ∈ Instances w)) as [He|He].
  - rewrite (perform_configuration_live w e enabled Hw Hsv He) in E. fold w0 in E.
    destruct (lookup_lt_is_Some_2 (controllers w) e) as [o Ho].
    { destruct Hw as [_ _ _ Hi _]. by apply (proj1 (Forall_forall _ _) Hi). }
    pose proof (sv_editor w Hsv e o Ho) as Hed.
    assert (Hflag0 : focusOnHover w0 !! e = Some enabled).
    { apply list_lookup_insert_eq. rewrite <- Hed.
      by destruct (wf_lookup_controller w e o Hw Ho). }
    destruct (_unhookEvents_hooks w0 e o Hw0 Ho) as (w1 & E1 & Hw1 & HI1 & Hcase1).
    erewrite bind_eq in E by exact E1.
    assert (H1 : hoveringBut (Some e) w1
                 ∧ focusOnHover w1 = focusOnHover w0
                 ∧ ∃ o1, controllers w1 !! e = Some o1 ∧ _editor o1 = e
                         ∧ _editorMouseMoveHandler o1 = None).
    { destruct (_editorMouseMoveHandler o) as [h|] eqn:Hh.
      - split.
        { eapply hoveringBut_frame; [exact Hcase1| |by eapply hoveringBut_unhooked].
          intros c' _. by rewrite HI1. }
        destruct Hcase1 as (Hf & Hv & _). split; [done|].
        destruct (handler_view_lookup _ _ e (with_editorMouseMoveHandler None o) (eq_sym Hv))
          as (o1 & Ho1 & Hed1 & Hh1).
        { cbn [unhooked controllers set_controllers set_disposables].
          rewrite list_lookup_alter_eq.
          change (controllers w0 !! e) with (controllers w !! e). by rewrite Ho. }
        exists o1. split; [done|]. split; [by rewrite Hed1|by rewrite Hh1].
      - subst w1. split; [done|]. split; [done|]. by exists o. }
    destruct H1 as (Hb1 & Hf1 & o1 & Ho1 & Hed1 & Hh1).
    destruct (_hookEvents_hooks w1 e o1 Hw1 Ho1) as (w2 & E2 & _ & HI2 & Hcase2).
    assert (w2 = w') as -> by congruence.
    rewrite Hed1, Hf1, Hflag0 in Hcase2.
    assert (Hin : e ∈ Instances w') by (by rewrite HI2, HI1).
    apply (hoveringBut_close e); destruct enabled.
    + rewrite decide_True in Hcase2 by done.
      eapply hoveringBut_frame; [exact Hcase2| |by eapply hoveringBut_hooked].
      intros c' _. by rewrite HI2.
    + rewrite decide_False in Hcase2 by congruence. by subst w'.
    + rewrite decide_True in Hcase2 by done.
      intros o' Ho'. rewrite decide_True by done.
      destruct Hcase2 as (Hf & Hv & _).
      destruct (handler_view_lookup _ _ e o' Hv Ho') as (oh & Hoh & _ & Hheq).
      cbn [hooked controllers set_controllers set_disposables] in Hoh.
      rewrite list_lookup_alter_eq, Ho1 in Hoh. injection Hoh as <-. simpl in Hheq.
      rewrite <- Hheq. split; [intros _|done].
      rewrite Hf. cbn [hooked focusOnHover set_controllers set_disposables].
      by rewrite Hf1.
    + rewrite decide_False in Hcase2 by congruence. subst w'.
      intros o' Ho'. rewrite decide_True by done.
      assert (o' = o1) as -> by congruence.
      rewrite Hh1, Hf1, Hflag0. split; [by intros ?%is_Some_None|done].
  - rewrite (perform_configuration_gone w e enabled Hsv He) in E.
    injection E as <-.
    apply (hoveringBut_close e); [done|].
    intros o Ho. rewrite decide_False by done.
    destruct Hhv as [_ Hgone _ _]. by apply (Hgone e o).
Qed.

Lemma hovering_terminal_created w t w' :
  wf w → elected w → served w → hovering w →
  perform (CreateTerminal t) w = Some (tt, w') → hovering w'.
Proof.
  intros Hw Hel Hsv Hhv E.
  set (w0 := set_terminalInstances (λ l, l ++ [t]) w).
  assert (Hw0 : wf w0) by by apply wf_set_terminalInstances.
  assert (Hhv0 : hovering w0) by (destruct Hhv; by split).
  assert (Hcase : (∃ c, head (Instances w) = Some c) ∨ head (Instances w) = None).
  { destruct (head (Instances w)); eauto. }
  destruct Hcase as [[c Hh]|Hh].
  - rewrite (terminal_created_is_callback w c t Hw Hel Hsv Hh) in E. fold w0 in E.
    assert (Hc : c ∈ Instances w) by by apply head_Some_elem_of.
    destruct (lookup_lt_is_Some_2 (controllers w) c) as [o Ho].
    { destruct Hw as [_ _ _ Hi _]. by apply (proj1 (Forall_forall _ _) Hi). }
    assert (Hhooks : hasHooks w0 c).
    { exists o. split; [done|].
      destruct (wf_lookup_controller w c o Hw Ho) as [_ _ Hman _ _ _ _ _ _].
      apply Hman. by apply (Hel c o Hc Ho). }
    destruct (_onTerminalCreated_hooks w0 c t Hw0 Hhooks) as (w1 & E1 & HI & Hs).
    assert (w1 = w') as -> by congruence.
    eapply hoveringBut_frame; [exact Hs| |exact Hhv0]. intros c' _. by rewrite HI.
  - assert (E0 : perform (CreateTerminal t) w = Some (tt, w0)).
    { cbn [perform]. erewrite bind_eq by reflexivity.
      unfold fireInstanceCreated. erewrite bind_eq by reflexivity.
      assert (Hls : activeListeners InstanceCreated (set_terminalInstances (λ l, l ++ [t]) w)
                    = OnTerminalCreated <$> option_list (head (Instances w))).
      { by destruct (terminal_listeners w Hw Hel Hsv) as [Hls _]. }
      rewrite Hls, Hh. done. }
    assert (w' = w0) as -> by congruence. done.
Qed.

Lemma hovering_terminal_disposed w t w' :
  wf w → hovering w →
  perform (DisposeTerminal t) w = Some (tt, w') → hovering w'.
Proof.
  intros Hw Hhv E. cbn [perform] in E. erewrite bind_eq in E by reflexivity.
  rewrite fireInstanceDisposed_idle in E by by apply wf_set_terminalInstances.
  injection E as <-. destruct Hhv; by split.
Qed.

Lemma perform_hovering w a w' :
  wf w → elected w → served w → hovering w →
  (∀ c, a = CloseEditor c → c ∈ Instances w) →
  perform a w = Some (tt, w') → hovering w'.
Proof.
  intros Hw Hel Hsv Hhv Hlive E.
  destruct a as [enabled|c|editor contribInfo enabled|t|t].
  - by eapply hovering_opened.
  - eapply hovering_closed; [done|done| |done]. by apply Hlive.
  - by eapply hovering_configured.
  - by eapply hovering_terminal_created.
  - by eapply hovering_terminal_disposed.
Qed.

Lemma hovering_init : hovering init.
Proof. by split. Qed.

Lemma run_hovering tr : ∀ w w',
  wf w → elected w → served w → hovering w →
  disciplinedFrom (length (controllers w), Instances w) tr →
  run tr w = Some w' → hovering w'.
Proof.
  induction tr as [|a tr IH]; intros w w' Hw Hel Hsv Hhv Hd Hrun.
  - simpl in Hrun. by injection Hrun as <-.
  - destruct Hd as [Ha Hd]. simpl in Hrun.
    destruct (perform a w) as [[[] w1]|] eqn:E1; [|done].
    assert (Hlive : ∀ c, a = CloseEditor c → c ∈ Instances w) by (by intros c ->).
    destruct (perform_ok w a Hw) as (w1' & E1' & Hw1 & Hinv).
    { intros c ->. destruct Hw as [_ _ _ Hi _].
      by apply (proj1 (Forall_forall _ _) Hi), Hlive. }
    assert (w1' = w1) as -> by congruence.
    destruct (Hinv Hlive Hel) as [Hel1 Htr].
    apply (IH w1 w'); [done|done| | | |done].
    + exact (perform_served w a w1 Hw Hel Hsv Hlive E1).
    + exact (perform_hovering w a w1 Hw Hel Hsv Hhv Hlive E1).
    + by rewrite Htr.
Qed.

(** The mouse-move event of editor [e] has exactly one attached listener when
    the controller of [e] is registered and the flag of [e] is on, and none
    otherwise. *)
Lemma editor_listeners w e :
  wf w → hovering w →
  activeListeners (EditorMouseMove e) w
  = if bool_decide (e ∈ Instances w ∧ focusOnHover w !! e = Some true)
    then [OnEditorMouseMove e] else [].
Proof.
  intros Hw [Hflag Hgone Hatt Hact]. unfold activeListeners.
  case_bool_decide as Hon.
  - destruct Hon as [He Hf].
    destruct (lookup_lt_is_Some_2 (controllers w) e) as [o Ho].
    { destruct Hw as [_ _ _ Hi _]. by apply (proj1 (Forall_forall _ _) Hi). }
    destruct (proj2 (Hflag e o ltac:(done) He Ho) Hf) as [h Hh].
    destruct (Hact e o h Ho Hh) as (d & Hd & Hdis & Hs).
    destruct (wf_lookup_controller w e o Hw Ho) as [_ _ _ _ _ _ Ted _ _].
    destruct (Ted h Hh) as (d' & Hd' & _ & Hl).
    assert (d' = d) as -> by congruence.
    rewrite (filter_unique _ _ h d Hd); [simpl; by rewrite Hl|by split|].
    intros j y Hj [Hsy Hdy].
    destruct (Hatt j y e Hj Hdy Hsy) as (o' & Ho' & Hh'). congruence.
  - rewrite filter_none; [done|]. intros j y Hj [Hsy Hdy].
    destruct (Hatt j y e Hj Hdy Hsy) as (o & Ho & Hh).
    apply Hon. destruct (decide (e ∈ Instances w)) as [He|He].
    + split; [done|]. apply (Hflag e o); [done|done|done|]. by rewrite Hh.
    + rewrite (Hgone e o) in Hh; done.
Qed.

(** The states a disciplined sequence of host actions reaches keep the
    editor hooks in order. *)
Lemma run_reach_hovering tr w :
  disciplined tr → run tr init = Some w →
  wf w ∧ served w ∧ hovering w ∧ Instances w = liveAfter tr.
Proof.
  intros Hd Hrun. destruct (run_reach tr Hd) as (w' & E & Hw & Hel & Hsv & HI).
  assert (w' = w) as -> by congruence. split; [done|]. split; [done|]. split; [|done].
  exact (run_hovering tr init w wf_init elected_init served_init hovering_init Hd Hrun).
Qed.

Lemma deliver_terminal t ls : ∀ d,
  ∃ d', deliver ls (λ l d, match l with
                           | FocusTerminal => Some (focus (TerminalPane t) d)
                           | _ => Some d
                           end) d = Some d'
        ∧ (FocusTerminal ∈ ls → focused d' = Some (TerminalPane t)).
Proof.
  induction ls as [|l ls IH]; intros d.
  - exists d. split; [done|]. by intros ?%elem_of_nil.
  - cbn [deliver].
    set (d1 := match l with FocusTerminal => focus (TerminalPane t) d | _ => d end).
    destruct (IH d1) as (d' & E & Hfoc).
    exists d'. split; [by destruct l|].
    intros Hin. destruct (decide (FocusTerminal ∈ ls)) as [Hls|Hls]; [by apply Hfoc|].
    apply elem_of_cons in Hin as [<-|Hin]; [|done].
    clear Hfoc. subst d1. cbn beta iota in E.
    assert (Hkeep : ∀ d0 d0', deliver ls (λ l d, match l with
                                                | FocusTerminal => Some (focus (TerminalPane t) d)
                                                | _ => Some d
                                                end) d0 = Some d0' → d0' = d0).
    { clear -Hls. induction ls as [|l ls IH]; intros d0 d0' E; [by injection E|].
      apply not_elem_of_cons in Hls as [Hl Hls]. cbn [deliver] in E.
      destruct l; try done; by apply IH. }
    by rewrite (Hkeep _ _ E).
Qed.

(** ** Hovering *)

(** X10: after any sequence of host actions that disposes only live
    controllers, the mouse-move event of editor [e] has exactly one attached
    listener, that of its controller, when the controller is live and the
    editor's flag is on, and none otherwise: no editor subscription outlives
    its controller or the flag, and none is made twice. *)
Theorem editor_listener_follows_flag tr e :
  disciplined tr →
  ∃ w, run tr init = Some w
       ∧ activeListeners (EditorMouseMove e) w
         = if bool_decide (e ∈ liveAfter tr ∧ focusOnHover w !! e = Some true)
           then [OnEditorMouseMove e] else [].
Proof.
  intros Hd. destruct (run_reach tr Hd) as (w & E & _).
  destruct (run_reach_hovering tr w Hd E) as (Hw & _ & Hhv & HI).
  exists w. split; [done|]. rewrite <- HI. by apply editor_listeners.
Qed.

Lemma editor_listener_follows_flag_witness :
  ∃ w, run [OpenEditor true; OpenEditor false; ChangeConfiguration 0 true false;
            ChangeConfiguration 1 true true; OpenEditor true; CloseEditor 2] init = Some w
       ∧ activeListeners (EditorMouseMove 1) w
         = if bool_decide
                (1 ∈ liveAfter [OpenEditor true; OpenEditor false;
                                ChangeConfiguration 0 true false;
                                ChangeConfiguration 1 true true; OpenEditor true;
                                CloseEditor 2]
                 ∧ focusOnHover w !! 1 = Some true)
           then [OnEditorMouseMove 1] else [].
Proof.
  apply editor_listener_follows_flag.
  unfold disciplined. simpl. repeat split; set_solver.
Defined.

(** X11: in such a state, a mouse move over editor [e] requests the focus for
    it, once, exactly when its controller is live, its flag is on and the
    editor does not have the text focus already; otherwise the mouse move
    changes nothing. *)
Theorem editor_hover_focus tr w e d :
  disciplined tr → run tr init = Some w →
  moveOverEditor e w d
  = Some (if bool_decide (e ∈ liveAfter tr ∧ focusOnHover w !! e = Some true
                          ∧ focused d ≠ Some (EditorPane e))
          then focus (EditorPane e) d else d).
Proof.
  intros Hd Hrun.
  destruct (run_reach_hovering tr w Hd Hrun) as (Hw & Hsv & Hhv & HI).
  unfold moveOverEditor. rewrite (editor_listeners w e Hw Hhv), HI.
  case_bool_decide as Hon.
  - destruct Hon as [He Hf]. rewrite <- HI in He.
    destruct (lookup_lt_is_Some_2 (controllers w) e) as [o Ho].
    { destruct Hw as [_ _ _ Hi _]. by apply (proj1 (Forall_forall _ _) Hi). }
    cbn [deliver]. unfold _onEditorMouseMove. rewrite Ho. simpl.
    rewrite (sv_editor w Hsv e o Ho). unfold hasTextFocus.
    f_equal. case_bool_decide as Hfoc.
    + rewrite bool_decide_eq_false_2; [done|]. by intros (_ & _ & ?).
    + rewrite bool_decide_eq_true_2; [done|]. rewrite <- HI. done.
  - rewrite bool_decide_eq_false_2; [done|]. intros (? & ? & _). by apply Hon.
Qed.

Lemma editor_hover_focus_witness :
  moveOverEditor 1 twoEditors (mkDesk (Some (TerminalPane 7)) [])
  = Some (if bool_decide (1 ∈ liveAfter [OpenEditor true; OpenEditor true]
                          ∧ focusOnHover twoEditors !! 1 = Some true
                          ∧ focused (mkDesk (Some (TerminalPane 7)) []) ≠ Some (EditorPane 1))
          then focus (EditorPane 1) (mkDesk (Some (TerminalPane 7)) [])
          else mkDesk (Some (TerminalPane 7)) []).
Proof.
  apply editor_hover_focus; [|reflexivity].
  unfold disciplined. simpl. done.
Defined.

(** X12: whatever the host did before, a hook that is stored for terminal
    [t] in a controller's mapping and has not been disposed makes a mouse
    move over [t] end with the focus in that terminal. *)
Theorem stored_hook_focuses_terminal tr w c t h d :
  run tr init = Some w → hookFor w c t = Some h → isActive w h →
  ∃ d', moveOverTerminal t w d = Some d' ∧ focused d' = Some (TerminalPane t).
Proof.
  intros Hrun Hhook (dh & Hdh & Hdis).
  assert (Hw : wf w) by (by eapply run_wf; [apply wf_init|]).
  unfold hookFor, hooksOf in Hhook.
  destruct (controllers w !! c) as [o|]; [|done]. simpl in Hhook.
  destruct (_terminalHooks o) as [m|]; [|done]. simpl in Hhook.
  destruct (hookMaps w !! m) as [mo|] eqn:Hmo; [|done]. simpl in Hhook.
  destruct (wf_lookup_mapOk w m mo Hw Hmo) as [_ Tprops].
  destruct (Tprops t h Hhook) as (dh' & Hdh' & Hs & Hl).
  assert (dh' = dh) as -> by congruence.
  unfold moveOverTerminal.
  destruct (deliver_terminal t (activeListeners (TerminalMouseMove t) w) d) as (d' & E & Hfoc).
  exists d'. split; [done|]. apply Hfoc.
  unfold activeListeners. apply list_elem_of_fmap. exists dh. split; [done|].
  apply list_elem_of_filter. split; [by split|]. by eapply list_elem_of_lookup_2.
Qed.

Lemma stored_hook_focuses_terminal_witness :
  ∃ d', moveOverTerminal 7 terminalThenTwoEditors (mkDesk (Some (EditorPane 0)) []) = Some d'
        ∧ focused d' = Some (TerminalPane 7).
Proof.
  apply (stored_hook_focuses_terminal [CreateTerminal 7; OpenEditor true; OpenEditor true]
           terminalThenTwoEditors 0 7%Z 4).
  - reflexivity.
  - reflexivity.
  - eexists. split; [reflexivity|reflexivity].
Defined.

(** ** Construction, case by case *)

Lemma releaseTerminals_keeps_flag w c o w1 :
  wf w → controllers w !! c = Some o →
  releaseTerminals c w = Some (tt, w1) →
  ∃ o1, controllers w1 !! c = Some o1
        ∧ _terminalInstanceCreatedHandler o1 = _terminalInstanceCreatedHandler o.
Proof.
  intros Hw Ho E.
  destruct (wf_lookup_controller w c o Hw Ho) as [_ _ Hman [hcfg Hcfg] Hdis _ _ _ _].
  destruct (_terminalInstanceCreatedHandler o) as [hc|] eqn:Hcr.
  - destruct Hman as [m Hm]; [done|]. destruct Hdis as [hd Hd]; [done|].
    destruct (wf_lookup_map w c o m Hw Ho Hm) as (mo & Hmo & Hent).
    destruct (splice (Instances w) (indexOf (Instances w) c) 1) as [|other rest] eqn:Hsp.
    + rewrite (releaseTerminals_last w c o hcfg hc hd m mo Ho Hcfg Hcr Hd Hsp Hm Hmo) in E.
      injection E as <-. by exists o.
    + assert (Hin : other ∈ splice (Instances w) (indexOf (Instances w) c) 1).
      { rewrite Hsp. by left. }
      assert (Hother : other < length (controllers w)).
      { destruct Hw as [_ _ _ Hi _].
        apply (proj1 (Forall_forall _ _) Hi).
        by apply (sublist_subseteq _ _ (splice_sublist _ (indexOf (Instances w) c) 1)). }
      assert (Hne : other ≠ c).
      { intros ->. destruct (decide (c ∈ Instances w)) as [Hc|Hc].
        - rewrite splice_indexOf_member in Hin by (by destruct Hw || done).
          apply list_elem_of_filter in Hin. by destruct Hin.
        - apply Hc.
          by apply (sublist_subseteq _ _ (splice_sublist _ (indexOf (Instances w) c) 1)). }
      destruct (lookup_lt_is_Some_2 _ _ Hother) as [oo Hoo].
      rewrite (releaseTerminals_handoff w c o hcfg hc hd other rest oo
                 Ho Hcfg Hcr Hd Hsp Hoo) in E.
      injection E as <-.
      exists (with_terminalHooks (Some (length (hookMaps w))) o). split; [|done].
      cbn [controllers set_controllers set_hookMaps set_disposables set_Instances resigned].
      rewrite list_lookup_alter_eq, !list_lookup_alter_ne by done. by rewrite Ho.
  - rewrite (releaseTerminals_plain w c o hcfg Ho Hcfg Hcr) in E. injection E as <-.
    by exists o.
Qed.

(** X13: [dispose] never resets the manager flag of the controller it
    disposes: in every state the host can reach, [_manageTerminals] answers
    after [dispose] what it answered before, so a disposed manager still
    reports that it manages the terminals. *)
Theorem dispose_keeps_manager_flag tr w c w' :
  run tr init = Some w → dispose c w = Some (tt, w') →
  managesTerminals w' c = managesTerminals w c.
Proof.
  intros Hrun E.
  assert (Hw : wf w) by (by eapply run_wf; [apply wf_init|]).
  destruct (controllers w !! c) as [o|] eqn:Ho; [|by rewrite dispose_throw in E].
  destruct (dispose_ok w c Hw) as (w1 & w'' & E1 & _ & E' & _ & _ & Hch & _);
    [by eapply lookup_lt_Some|].
  assert (w'' = w') as -> by congruence.
  destruct (releaseTerminals_keeps_flag w c o w1 Hw Ho E1) as (o1 & Ho1 & Hcr1).
  destruct (onlyHooksChanged_lookup w1 w' c o1 Hch Ho1) as (o' & Ho' & Heq).
  apply with_editor_fields in Heq as (_ & _ & _ & Hcr' & _).
  unfold managesTerminals. rewrite Ho, Ho'. by rewrite Hcr', Hcr1.
Qed.

Lemma dispose_keeps_manager_flag_witness :
  ∃ w', dispose 0 twoEditors = Some (tt, w')
        ∧ managesTerminals w' 0 = managesTerminals twoEditors 0
        ∧ managesTerminals twoEditors 0 = true.
Proof.
  eexists. split; [reflexivity|]. split; [|reflexivity].
  by apply (dispose_keeps_manager_flag [OpenEditor true; OpenEditor true] twoEditors).
Defined.

(** X14: a controller constructed while the registry is not empty subscribes
    to its own editor only: the state gains the new editor and controller,
    the configuration subscription and, when the flag is on, the editor
    mouse-move subscription; no Map object is created or changed, no terminal
    is hooked and no other controller or subscription is touched. *)
Theorem later_controller_hooks_own_editor w enabled :
  Instances w ≠ [] →
  perform (OpenEditor enabled) w
  = Some (tt,
      mkWorld (Instances w ++ [length (controllers w)])
        (controllers w ++
           [mkController (length (focusOnHover w)) (Some (length (disposables w)))
              (if enabled then Some (S (length (disposables w))) else None)
              None None None])
        (hookMaps w)
        (disposables w ++
           mkDisposable (EditorConfiguration (length (focusOnHover w)))
                        (ConfigurationChanged (length (controllers w))) false ::
           (if enabled
            then [mkDisposable (EditorMouseMove (length (focusOnHover w)))
                               (OnEditorMouseMove (length (controllers w))) false]
            else []))
        (focusOnHover w ++ [enabled]) (terminalInstances w)).
Proof.
  intros Hne. cbn [perform]. mpure. mpure.
  set (w0 := set_focusOnHover (λ l, l ++ [enabled]) w).
  assert (Hfirst : bool_decide (Instances w0 = []) = false) by (by apply bool_decide_eq_false_2).
  set (w2 := constructed (length (focusOnHover w)) false w0).
  assert (Ho2 : controllers w2 !! length (controllers w0)
                = Some (mkController (length (focusOnHover w)) (Some (length (disposables w)))
                                     None None None None)) by apply lookup_snoc_new.
  assert (Hf2 : focusOnHover w2 !! length (focusOnHover w) = Some enabled)
    by apply lookup_snoc_new.
  destruct enabled.
  - erewrite bind_eq.
    2:{ apply constructor_eq. rewrite Hfirst.
        eapply (_hookEvents_editor w2); [exact Ho2|exact Hf2|done]. }
    unfold ret. do 2 f_equal.
    destruct w as [I cs ms ds fs tis].
    unfold w2, w0, constructed, set_Instances, set_controllers, set_disposables,
      set_focusOnHover.
    cbn [Instances controllers hookMaps disposables focusOnHover terminalInstances].
    rewrite alter_snoc, <- app_assoc, length_app. simpl.
    by rewrite Nat.add_1_r.
  - erewrite bind_eq.
    2:{ apply constructor_eq. rewrite Hfirst.
        eapply (_hookEvents_off w2); [exact Ho2|exact Hf2]. }
    reflexivity.
Qed.

Lemma later_controller_hooks_own_editor_witness :
  Instances busyEditor ≠ []
  ∧ perform (OpenEditor true) busyEditor
    = Some (tt,
        mkWorld (Instances busyEditor ++ [length (controllers busyEditor)])
          (controllers busyEditor ++
             [mkController (length (focusOnHover busyEditor))
                (Some (length (disposables busyEditor)))
                (Some (S (length (disposables busyEditor)))) None None None])
          (hookMaps busyEditor)
          (disposables busyEditor ++
             [mkDisposable (EditorConfiguration (length (focusOnHover busyEditor)))
                           (ConfigurationChanged (length (controllers busyEditor))) false;
              mkDisposable (EditorMouseMove (length (focusOnHover busyEditor)))
                           (OnEditorMouseMove (length (controllers busyEditor))) false])
          (focusOnHover busyEditor ++ [true]) (terminalInstances busyEditor)).
Proof.
  split; [done|]. by apply (later_controller_hooks_own_editor busyEditor true).
Defined.

(** X15: a controller constructed with the flag on while the registry is
    empty becomes the manager and hooks every open terminal: each terminal of
    the service's list has, in the new controller's mapping, an attached
    subscription to its mouse moves. *)
Theorem first_controller_hooks_open_terminals w :
  Instances w = [] → NoDup (terminalInstances w) →
  ∃ w', perform (OpenEditor true) w = Some (tt, w')
        ∧ Instances w' = [length (controllers w)]
        ∧ managesTerminals w' (length (controllers w)) = true
        ∧ ∀ i t, terminalInstances w !! i = Some t →
                 ∃ h, hookFor w' (length (controllers w)) t = Some h
                      ∧ isActive w' h
                      ∧ subscribed w' h (TerminalMouseMove t) FocusTerminal.
Proof.
  intros Hempty Hnd. cbn [perform].
  set (w0 := set_focusOnHover (λ l, l ++ [true]) w).
  assert (Hfirst : bool_decide (Instances w0 = []) = true) by (by apply bool_decide_eq_true_2).
  set (w2 := constructed (length (focusOnHover w)) true w0).
  set (n := length (disposables w)).
  set (c := length (controllers w)).
  set (o2 := mkController (length (focusOnHover w)) (Some n) None
                          (Some (length (hookMaps w))) (Some (S n)) (Some (S (S n)))).
  assert (Ho2 : controllers w2 !! c = Some o2) by apply lookup_snoc_new.
  assert (Hf2 : focusOnHover w2 !! _editor o2 = Some true) by apply lookup_snoc_new.
  assert (Hm2 : hookMaps w2 !! length (hookMaps w) = Some (mkJsMap ∅ ∅))
    by apply lookup_snoc_new.
  pose proof (_hookEvents_manager w2 c o2 (S n) (length (hookMaps w)) (mkJsMap ∅ ∅)
                Ho2 Hf2 eq_refl eq_refl Hm2) as E3.
  eexists. split.
  { mpure. mpure. erewrite bind_eq.
    2:{ apply constructor_eq. rewrite bool_decide_eq_true_2 by exact Hempty. exact E3. }
    reflexivity. }
  assert (Hlen2 : length (disposables w2) = S (S (S n))).
  { cbn [w2 constructed disposables]. rewrite length_app. simpl. unfold n.
    change (disposables w0) with (disposables w). lia. }
  split; [change (Instances w ++ [c] = [c]); by rewrite Hempty|].
  split.
  { unfold managesTerminals.
    cbn [controllers set_Instances set_hookMaps set_disposables set_controllers].
    by rewrite list_lookup_alter_eq, Ho2. }
  intros i t Hi. exists (S (S (S (S n))) + i).
  assert (Hd : (((disposables w2 ++ [mkDisposable (EditorMouseMove (_editor o2))
                                                  (OnEditorMouseMove c) false])
                 ++ (terminalHook <$> terminalInstances w2)) : list IDisposable)
               !! (S (S (S (S n))) + i) = Some (terminalHook t)).
  { apply lookup_app_Some. right.
    split; [rewrite length_app, Hlen2; simpl; lia|].
    match goal with
    | |- _ !! ?k = _ => replace k with i by (rewrite length_app, Hlen2; simpl; lia)
    end.
    rewrite list_lookup_fmap. change (terminalInstances w2) with (terminalInstances w).
    by rewrite Hi. }
  split; [|split].
  - unfold hookFor, hooksOf.
    cbn [controllers hookMaps set_Instances set_hookMaps set_disposables set_controllers].
    rewrite list_lookup_alter_eq, Ho2. simpl.
    rewrite list_lookup_insert_eq by (by eapply lookup_lt_Some). simpl.
    change (terminalInstances w2) with (terminalInstances w).
    rewrite (hookedProps_NoDup _ _ _ i t Hnd Hi).
    f_equal. rewrite length_app. simpl. unfold n. lia.
  - exists (terminalHook t). split; [exact Hd|done].
  - exists (terminalHook t). split; [exact Hd|done].
Qed.

Lemma first_controller_hooks_open_terminals_witness :
  ∃ w', perform (OpenEditor true) (set_terminalInstances (λ _, [7; 9]%Z) init) = Some (tt, w')
        ∧ Instances w' = [0]
        ∧ managesTerminals w' 0 = true
        ∧ ∀ i t, [7; 9]%Z !! i = Some t →
                 ∃ h, hookFor w' 0 t = Some h ∧ isActive w' h
                      ∧ subscribed w' h (TerminalMouseMove t) FocusTerminal.
Proof.
  apply (first_controller_hooks_open_terminals (set_terminalInstances (λ _, [7; 9]%Z) init)).
  - reflexivity.
  - apply NoDup_cons. split; [by intros [=]%list_elem_of_singleton|apply NoDup_singleton].
Defined.
